(** * RIPS validation engine (validador.py): model and verified properties

    The rule primitives, the nine record validators and the dispatcher of
    [validador.py] are embedded as functions in a state-and-exception monad.
    The ledger [self.results] of a validator is explicit state; an exception
    leaves the state as it was when it was raised, as in Python. *)

From Stdlib Require Import String Ascii List Bool Arith ZArith QArith Lia.
From Stdlib Require Import DecimalString.
Import ListNotations.

Local Close Scope Q_scope.
Local Open Scope nat_scope.
Local Open Scope list_scope.
Local Open Scope string_scope.

(** ** Python strings

    A character is a code point below 256. *)

Module PyStr.

(** [str.isspace] on one character. *)
Definition isspace (c : ascii) : bool :=
  let n := nat_of_ascii c in
  ((9 <=? n) && (n <=? 13))%nat || ((28 <=? n) && (n <=? 32))%nat
  || (n =? 133)%nat || (n =? 160)%nat.

Fixpoint lstrip (s : string) : string :=
  match s with
  | String c s' => if isspace c then lstrip s' else s
  | EmptyString => EmptyString
  end.

(** [rstrip] keeps a character when it is not a space or when something is
    kept after it. *)
Fixpoint rstrip (s : string) : string :=
  match s with
  | String c s' =>
      match rstrip s' with
      | EmptyString => if isspace c then EmptyString else String c EmptyString
      | r => String c r
      end
  | EmptyString => EmptyString
  end.

Definition strip (s : string) : string := rstrip (lstrip s).

Definition lower_char (c : ascii) : ascii :=
  let n := nat_of_ascii c in
  if ((65 <=? n) && (n <=? 90))%nat
     || ((192 <=? n) && (n <=? 222) && negb (n =? 215))%nat
  then ascii_of_nat (n + 32) else c.

Fixpoint lower (s : string) : string :=
  match s with
  | String c s' => String (lower_char c) (lower s')
  | EmptyString => EmptyString
  end.

(** [sub in s] for strings. *)
Fixpoint contains (sub s : string) : bool :=
  prefix sub s ||
  match s with
  | String _ s' => contains sub s'
  | EmptyString => false
  end.

(** [x in l] for a list of strings. *)
Definition mem (x : string) (l : list string) : bool := existsb (String.eqb x) l.

(** [str(n)] for a non-negative integer. *)
Definition of_nat (n : nat) : string := NilEmpty.string_of_uint (Nat.to_uint n).

End PyStr.

(** ** Values read from the store

    A cell of a text column as [pd.read_sql] hands it over: a [str], or,
    for a NULL of the store, [None] or the float NaN. Which of the two
    stands for a NULL is decided by pandas (its version, and whether other
    fetched rows hold a string in that column), not by the validators; both
    are cells here. A numeric column holds a number, or [None]/NaN (both
    written [None] here: [validate_number], the only reader of numbers,
    sends both the same way). *)

Inductive text : Type :=
| PyNone
| NaN
| Str (s : string).

(** [str(value)] *)
Definition str (value : text) : string :=
  match value with
  | Str s => s
  | PyNone => "None"
  | NaN => "nan"
  end.

(** Truth value of [value] in [if value:]; NaN is a float other than 0. *)
Definition truthy (value : text) : bool :=
  match value with
  | Str s => negb (s =? "")
  | PyNone => false
  | NaN => true
  end.

(** [value is None] *)
Definition is_none (value : text) : bool :=
  match value with
  | PyNone => true
  | _ => false
  end.

(** [value is None or str(value).strip() == ""] *)
Definition is_blank (value : text) : bool :=
  is_none value || (PyStr.strip (str value) =? "").

(** [value == lit]; NaN equals nothing. *)
Definition text_eqb (value : text) (lit : string) : bool :=
  match value with
  | Str s => s =? lit
  | _ => false
  end.

(** [value in lits] *)
Definition text_in (value : text) (lits : list string) : bool :=
  match value with
  | Str s => PyStr.mem s lits
  | _ => false
  end.

(** [pd.isna(value)] *)
Definition isna (value : text) : bool :=
  match value with
  | Str _ => false
  | _ => true
  end.

(** One row of a DataFrame: the columns of the SELECT list, by name. *)
Record row : Type := mkRow {
  txt : string -> text;
  num : string -> option Q
}.

(** ** Validation results *)

Inductive ValidationResultType : Type :=
| NOTIFICATION
| REJECTION.

Definition ValidationResultType_value (t : ValidationResultType) : string :=
  match t with
  | NOTIFICATION => "NOTIFICACION"
  | REJECTION => "RECHAZO"
  end.

Definition ValidationResultType_eqb (a b : ValidationResultType) : bool :=
  match a, b with
  | NOTIFICATION, NOTIFICATION => true
  | REJECTION, REJECTION => true
  | _, _ => false
  end.

Record ValidationResult : Type := mkResult {
  result_type : ValidationResultType;
  code : string;
  description : string;
  field : string;
  source : string
}.

(** The constructor with the defaults [field = ""] and [source = "RIPS"]. *)
Definition ValidationResult_init (t : ValidationResultType)
    (code description field : string) : ValidationResult :=
  mkResult t code description field "RIPS".

Definition dict : Type := list (string * string).

Definition to_dict (r : ValidationResult) : dict :=
  [ ("Clase", ValidationResultType_value (result_type r));
    ("Codigo", code r);
    ("Descripcion", description r);
    ("Observaciones", field r);
    ("Fuente", source r) ].

Fixpoint dict_get (d : dict) (k : string) : option string :=
  match d with
  | (k', v) :: d' => if k' =? k then Some v else dict_get d' k
  | [] => None
  end.

Definition is_rejection (r : ValidationResult) : bool :=
  ValidationResultType_eqb (result_type r) REJECTION.

(** [any(r.result_type == REJECTION for r in results)] *)
Definition has_rejections (results : list ValidationResult) : bool :=
  existsb is_rejection results.

(** ** The storage collaborator *)

Inductive result (A : Type) : Type :=
| Return (a : A)
| Raise (msg : string).

Arguments Return {A} a.
Arguments Raise {A} msg.

(** A keyed query: [SELECT columns FROM table WHERE key_column = ?]. *)
Record query : Type := mkQuery {
  columns : list string;
  table : string;
  key_column : string
}.

(** What [pd.read_sql] is asked: a query and its bound parameter. *)
Definition sql_call : Type := (query * text)%type.

(** The engine answers a row query with rows, and a [COUNT] query with the
    number in its one cell; either can raise. *)
Record engine : Type := mkEngine {
  select_rows : query -> text -> result (list row);
  select_count : query -> text -> result Z
}.

(** ** The monad of a validator

    The state is the validator's ledger and the log of the queries sent to
    the engine. *)

Record self_state : Type := mkSelf {
  results : list ValidationResult;
  sql_log : list sql_call
}.

Definition M (A : Type) : Type := self_state -> result A * self_state.

Definition ret {A} (a : A) : M A := fun st => (Return a, st).

Definition bind {A B} (m : M A) (k : A -> M B) : M B :=
  fun st =>
    match m st with
    | (Return a, st') => k a st'
    | (Raise msg, st') => (Raise msg, st')
    end.

Definition raise {A} (msg : string) : M A := fun st => (Raise msg, st).

(** [try: body except Exception as e: handler(str(e))] *)
Definition try_except {A} (body : M A) (handler : string -> M A) : M A :=
  fun st =>
    match body st with
    | (Return a, st') => (Return a, st')
    | (Raise msg, st') => handler msg st'
    end.

Declare Scope py_scope.
Delimit Scope py_scope with py.

Notation "x <- m ;; k" := (bind m (fun x => k))
  (at level 61, m at next level, right associativity) : py_scope.
Notation "m ;;; k" := (bind m (fun _ => k))
  (at level 61, right associativity) : py_scope.

Local Open Scope py_scope.

(** [self.results.append(r)] *)
Definition append (r : ValidationResult) : M unit :=
  fun st => (Return tt, mkSelf (results st ++ [r]) (sql_log st)).

(** [valid &= m] gives the new value of [valid]; [m] always runs. *)
Definition and_assign (valid : bool) (m : M bool) : M bool :=
  b <- m ;; ret (valid && b).

Notation "valid &= m" := (and_assign valid m) (at level 60) : py_scope.

(** [pd.read_sql(q, engine, params=[(key,)])] for a row query. *)
Definition read_sql (q : query) (e : engine) (key : text) : M (list row) :=
  fun st =>
    (select_rows e q key, mkSelf (results st) (sql_log st ++ [(q, key)])).

(** [pd.read_sql(q, engine, params=[(key,)]).iloc[0, 0]] for a COUNT query. *)
Definition read_sql_scalar (q : query) (e : engine) (key : text) : M Z :=
  fun st =>
    (select_count e q key, mkSelf (results st) (sql_log st ++ [(q, key)])).

(** ** The catalog store ([self.catalogs]) *)

Definition catalogs : list (string * list string) :=
  [ ("CUPS", ["890501"; "890601"]);
    ("CIE10", ["E119"; "J459"]);
    ("ATC", ["A10BA02"]);
    ("TIPO_DOCUMENTO", ["CC"; "TI"; "CE"; "PA"]);
    ("TIPO_NOTA", ["SF"; "RS"]);
    ("CONCEPTO_RECAUDO", ["01"; "02"; "03"]);
    ("VIA_INGRESO", ["01"; "02"; "03"]);
    ("CAUSA_EXTERNA", ["01"; "02"; "15"]);
    ("TIPO_OS", ["01"; "02"; "03"]) ].

(** [self.catalogs.get(catalog, [])] *)
Fixpoint catalogs_get (c : list (string * list string)) (catalog : string)
    : list string :=
  match c with
  | (name, codes) :: c' => if name =? catalog then codes else catalogs_get c' catalog
  | [] => []
  end.

(** * The query browser (Query_GUI_SQL-server.py)

    The query text that [run_query] builds from the filter fields, the
    paginated query a [QueryWorker] sends, and the paging state of the
    window. The widgets that the methods only write to (the table, the
    labels, the progress bar) are left out of the state. *)

Module QueryGUI.

(** [sep.join(l)] *)
Fixpoint join (sep : string) (l : list string) : string :=
  match l with
  | [] => ""
  | x :: l' =>
      match l' with
      | [] => x
      | _ :: _ => x ++ sep ++ join sep l'
      end
  end.

(** [s.replace(old, new)] for an [old] of one character. *)
Fixpoint replace (old : ascii) (new s : string) : string :=
  match s with
  | String c s' =>
      if Ascii.eqb c old then new ++ replace old new s'
      else String c (replace old new s')
  | EmptyString => EmptyString
  end.

(** [str(z)] for an integer. *)
Definition of_Z (z : Z) : string := NilEmpty.string_of_int (Z.to_int z).

(** [d[k] = v] on a dictionary, which keeps the order of first insertion. *)
Fixpoint dict_set (d : list (string * string)) (k v : string)
    : list (string * string) :=
  match d with
  | (k', v') :: d' =>
      if k' =? k then (k', v) :: d' else (k', v') :: dict_set d' k v
  | [] => [(k, v)]
  end.

(** [{col: entry.text() for col, entry in zip(columns, filter_entries)}];
    an entry is given by its text. *)
Definition filters (columns filter_entries : list string)
    : list (string * string) :=
  fold_left (fun d ce => dict_set d (fst ce) (snd ce))
            (combine columns filter_entries) [].

(** The condition of one filter: [safe_value] and the f-string around it. *)
Definition like_condition (col value : string) : string :=
  let safe_value := replace "'" "''" (PyStr.strip value) in
  "[" ++ col ++ "] LIKE '%" ++ safe_value ++ "%'".

(** The loop over [filters.items()]. *)
Definition conditions (current_columns : list string)
    (filters : list (string * string)) : list string :=
  flat_map
    (fun cv =>
       if negb (snd cv =? "") && negb (PyStr.strip (snd cv) =? "")
          && PyStr.mem (fst cv) current_columns
       then [like_condition (fst cv) (snd cv)]
       else [])
    filters.

(** The query text of [run_query] for a selected view or table. *)
Definition build_query (columns filter_entries : list string)
    (selected_item : string) : string :=
  let filters := filters columns filter_entries in
  let current_columns := columns in
  let query :=
    "SELECT " ++ join ", " (map (fun col => "[" ++ col ++ "]") current_columns)
      ++ " FROM [" ++ selected_item ++ "]" in
  match conditions current_columns filters with
  | [] => query
  | c :: cs => query ++ " WHERE " ++ join " AND " (c :: cs)
  end.

(** [paginated_query] of [QueryWorker.run]. *)
Definition paginated_query (query : string) (page page_size : Z) : string :=
  let offset := ((page - 1) * page_size)%Z in
  query ++ " ORDER BY (SELECT NULL) OFFSET " ++ of_Z offset
    ++ " ROWS FETCH NEXT " ++ of_Z page_size ++ " ROWS ONLY".

(** The paging state of [DatabaseSearcherApp]; [workers] are the
    [QueryWorker]s started so far, each with its query, page and page
    size. *)
Record app : Type := mkApp {
  current_query : string;
  current_columns : list string;
  current_page : Z;
  page_size : Z;
  has_more_data : bool;
  search_enabled : bool;
  prev_enabled : bool;
  next_enabled : bool;
  workers : list (string * Z * Z)
}.

(** The state [__init__] leaves. *)
Definition app_init : app :=
  mkApp "" [] 1 1000 false false false false [].

Definition load_page (a : app) : app :=
  mkApp (current_query a) (current_columns a) (current_page a) (page_size a)
        (has_more_data a) false false false
        (workers a ++ [(current_query a, current_page a, page_size a)]).

Definition run_query (columns filter_entries : list string)
    (selected_item : string) (a : app) : app :=
  if selected_item =? "" then a
  else
    load_page
      (mkApp (build_query columns filter_entries selected_item) columns 1
             (page_size a) (has_more_data a)
             (search_enabled a) (prev_enabled a) (next_enabled a) (workers a)).

(** [on_query_finished(df, error)] for a frame of [rows] rows. *)
Definition on_query_finished (rows : nat) (error : option string) (a : app)
    : app :=
  let has_more_data :=
    match error with
    | Some (String _ _) => has_more_data a
    | _ =>
        if (rows =? 0)%nat then false
        else (Z.of_nat rows =? page_size a)%Z
    end in
  mkApp (current_query a) (current_columns a) (current_page a) (page_size a)
        has_more_data true (1 <? current_page a)%Z has_more_data (workers a).

Definition on_query_error (a : app) : app :=
  mkApp (current_query a) (current_columns a) (current_page a) (page_size a)
        (has_more_data a) true (prev_enabled a) (next_enabled a) (workers a).

Definition prev_page (a : app) : app :=
  if (1 <? current_page a)%Z then
    load_page
      (mkApp (current_query a) (current_columns a) (current_page a - 1)
             (page_size a) (has_more_data a)
             (search_enabled a) (prev_enabled a) (next_enabled a) (workers a))
  else a.

Definition next_page (a : app) : app :=
  if has_more_data a then
    load_page
      (mkApp (current_query a) (current_columns a) (current_page a + 1)
             (page_size a) (has_more_data a)
             (search_enabled a) (prev_enabled a) (next_enabled a) (workers a))
  else a.

(** What happens to the window: a click on one of its three buttons, with
    the contents of the filter fields at that moment, or a signal of the
    worker. *)
Inductive event : Type :=
| Buscar (columns filter_entries : list string) (selected_item : string)
| Anterior
| Siguiente
| Finished (rows : nat) (error : option string)
| Failed.

Definition handle (a : app) (ev : event) : app :=
  match ev with
  | Buscar columns filter_entries selected_item =>
      run_query columns filter_entries selected_item a
  | Anterior => prev_page a
  | Siguiente => next_page a
  | Finished rows error => on_query_finished rows error a
  | Failed => on_query_error a
  end.

(** Reading a T-SQL string literal from the character after its opening
    quote: two quotes stand for one, a single quote ends the literal. The
    result is the text of the literal and what follows it. *)
Fixpoint read_literal (s : string) : option (string * string) :=
  match s with
  | String c s' =>
      if Ascii.eqb c "'" then
        match s' with
        | String c' s'' =>
            if Ascii.eqb c' "'" then
              match read_literal s'' with
              | Some (t, rest) => Some (String "'" t, rest)
              | None => None
              end
            else Some (EmptyString, s')
        | EmptyString => Some (EmptyString, EmptyString)
        end
      else
        match read_literal s' with
        | Some (t, rest) => Some (String c t, rest)
        | None => None
        end
  | EmptyString => None
  end.

(** A text that does not start with a quote. *)
Definition no_quote_ahead (s : string) : bool :=
  match s with
  | String c _ => negb (Ascii.eqb c "'")
  | EmptyString => true
  end.

(** The filters with every value trimmed. *)
Definition trimmed (d : list (string * string)) : list (string * string) :=
  map (fun kv => (fst kv, PyStr.strip (snd kv))) d.

(** The pages stay in range: the current page and the page of every worker
    are at least 1, the page size is the one [__init__] set. *)
Definition paging_ok (a : app) : Prop :=
  (1 <= current_page a)%Z /\
  page_size a = 1000%Z /\
  forall query page size,
    In (query, page, size) (workers a) -> (1 <= page)%Z /\ size = 1000%Z.

End QueryGUI.

Section Validador.

(** The Python library functions the validators call. *)

(** [re.match(regex, s)] found a match. *)
Variable re_match : string -> string -> bool.

(** [datetime.strptime(s, "%Y-%m-%d %H:%M:%S")]: the instant, as a position
    on the time line, or a [ValueError]. *)
Variable strptime : string -> result Z.

(** A number as an f-string prints it. *)
Variable str_number : Q -> string.

(** [open(json_file, "w")] followed by [json.dump]: done, or an [OSError]. *)
Variable open_write : string -> result unit.

(** ** Rule primitives (class [RIPSValidator]) *)

Definition validate_string (value : text) (field : string) (max_length : nat)
    (required : bool) (regex : option string) : M bool :=
  if required && is_blank value then
    append (ValidationResult_init REJECTION
              ("ERR_" ++ field ++ "_001")
              ("El campo " ++ field ++ " es obligatorio")
              field) ;;;
    ret false
  else if truthy value && (max_length <? String.length (str value))%nat then
    append (ValidationResult_init REJECTION
              ("ERR_" ++ field ++ "_002")
              ("El campo " ++ field ++ " excede el tamaño máximo de "
                 ++ PyStr.of_nat max_length)
              field) ;;;
    ret false
  else if truthy value
          && match regex with
             | Some re => negb (re =? "") && negb (re_match re (str value))
             | None => false
             end then
    append (ValidationResult_init REJECTION
              ("ERR_" ++ field ++ "_003")
              ("El campo " ++ field ++ " no cumple el formato esperado")
              field) ;;;
    ret false
  else ret true.

Definition validate_code (value : text) (field : string) (catalog : string)
    : M bool :=
  if truthy value && negb (text_in value (catalogs_get catalogs catalog)) then
    append (ValidationResult_init NOTIFICATION
              ("WARN_" ++ field ++ "_001")
              ("El código " ++ str value ++ " en " ++ field
                 ++ " no está en el catálogo " ++ catalog)
              field) ;;;
    ret false
  else ret true.

Definition validate_date (value : text) (field : string) (required : bool)
    : M bool :=
  if required && is_blank value then
    append (ValidationResult_init REJECTION
              ("ERR_" ++ field ++ "_001")
              ("El campo " ++ field ++ " es obligatorio")
              field) ;;;
    ret false
  else if truthy value then
    match strptime (str value) with
    | Return _ => ret true
    | Raise _ =>
        append (ValidationResult_init REJECTION
                  ("ERR_" ++ field ++ "_004")
                  ("El campo " ++ field ++ " no tiene un formato de fecha válido")
                  field) ;;;
        ret false
    end
  else ret true.

(** [value < bound] when the bound is given. *)
Definition below (value : Q) (bound : option Q) : bool :=
  match bound with
  | Some b => negb (Qle_bool b value)
  | None => false
  end.

Definition above (value : Q) (bound : option Q) : bool :=
  match bound with
  | Some b => negb (Qle_bool value b)
  | None => false
  end.

Definition validate_number (value : option Q) (field : string)
    (min_value max_value : option Q) : M bool :=
  match value with
  | None =>
      append (ValidationResult_init REJECTION
                ("ERR_" ++ field ++ "_001")
                ("El campo " ++ field ++ " es obligatorio")
                field) ;;;
      ret false
  | Some v =>
      if below v min_value then
        append (ValidationResult_init REJECTION
                  ("ERR_" ++ field ++ "_005")
                  ("El campo " ++ field ++ " debe ser mayor o igual a "
                     ++ match min_value with Some b => str_number b | None => "" end)
                  field) ;;;
        ret false
      else if above v max_value then
        append (ValidationResult_init REJECTION
                  ("ERR_" ++ field ++ "_006")
                  ("El campo " ++ field ++ " debe ser menor o igual a "
                     ++ match max_value with Some b => str_number b | None => "" end)
                  field) ;;;
        ret false
      else ret true
  end.

(** ** Record validators

    Each [validate] is one [try] block around a keyed fetch, the field
    checks, the rules of the record type and the beneficiary look-up. *)

(** A library call that can raise, inside a validator. *)
Definition call {A} (r : result A) : M A := fun st => (r, st).

Definition query_user : query :=
  mkQuery ["COUNT(*)"] "Usuarios" "numDocumentoIdentificacion".

(** *** Transacciones (AF) *)

Definition Transacciones_query : query :=
  mkQuery ["codPrestador"; "consecutivo"; "numDocumentoIdObligado";
           "numFactura"; "tipoNota"; "numNota"]
          "Transacciones" "consecutivo".

Definition TransaccionesValidator_validate (e : engine) (consecutivo : string)
    : M (bool * list row) :=
  try_except
    (df <- read_sql Transacciones_query e (Str consecutivo) ;;
     match df with
     | [] =>
         append (ValidationResult_init REJECTION "ERR_AF_001"
                   ("No se encontró transacción con consecutivo " ++ consecutivo)
                   "") ;;;
         ret (false, [])
     | record :: _ =>
         let valid := true in
         valid <- valid &= validate_string (txt record "codPrestador") "codPrestador" 12 true None ;;
         valid <- valid &= validate_string (txt record "numDocumentoIdObligado") "numDocumentoIdObligado" 20 true None ;;
         valid <- valid &= validate_string (txt record "numFactura") "numFactura" 20 false None ;;
         valid <- valid &= validate_string (txt record "tipoNota") "tipoNota" 2 false None ;;
         valid <- valid &= validate_string (txt record "numNota") "numNota" 20 false None ;;
         valid <- (if truthy (txt record "tipoNota") then
                     valid <- valid &= validate_code (txt record "tipoNota") "tipoNota" "TIPO_NOTA" ;;
                     (if text_eqb (txt record "tipoNota") "RS" && isna (txt record "numFactura") then
                        append (ValidationResult_init NOTIFICATION "INFO_AF_001"
                                  "RIPS sin factura permitido con tipoNota RS"
                                  "tipoNota")
                      else ret tt) ;;;
                     ret valid
                   else ret valid) ;;
         ret (valid, df)
     end)
    (fun msg =>
       append (ValidationResult_init REJECTION "ERR_AF_002"
                 ("Error en la consulta: " ++ msg) "") ;;;
       ret (false, [])).

(** *** Usuarios (US) *)

Definition Usuarios_query : query :=
  mkQuery ["tipoDocumentoIdentificacion"; "numDocumentoIdentificacion";
           "codPaisOrigen"]
          "Usuarios" "numDocumentoIdentificacion".

Definition UsuariosValidator_validate (e : engine) (consecutivo : string)
    : M (bool * list row) :=
  try_except
    (df <- read_sql Usuarios_query e (Str consecutivo) ;;
     match df with
     | [] =>
         append (ValidationResult_init REJECTION "ERR_US_001"
                   ("No se encontró usuario con ID " ++ consecutivo)
                   "") ;;;
         ret (false, [])
     | record :: _ =>
         let valid := true in
         valid <- valid &= validate_string (txt record "tipoDocumentoIdentificacion") "tipoDocumentoIdentificacion" 2 true None ;;
         valid <- valid &= validate_string (txt record "numDocumentoIdentificacion") "numDocumentoIdentificacion" 20 true None ;;
         valid <- valid &= validate_string (txt record "codPaisOrigen") "codPaisOrigen" 3 true None ;;
         valid <- valid &= validate_code (txt record "tipoDocumentoIdentificacion") "tipoDocumentoIdentificacion" "TIPO_DOCUMENTO" ;;
         ret (valid, df)
     end)
    (fun msg =>
       append (ValidationResult_init REJECTION "ERR_US_002"
                 ("Error en la consulta: " ++ msg) "") ;;;
       ret (false, [])).

(** *** Consultas (AC) *)

Definition Consultas_query : query :=
  mkQuery ["codPrestador"; "consecutivo"; "numDocumentoIdentificacion";
           "fechaConsulta"; "codConsulta"; "codDiagnosticoPrincipal";
           "conceptoRecaudo"]
          "Consultas" "consecutivo".

(** The copay rule of [ConsultasValidator.validate]: its [if]/[elif] on
    [codConsulta] and [conceptoRecaudo], from the current [valid] to the new
    one. *)
Definition Consultas_copago (record : row) (valid : bool) : M bool :=
  if text_in (txt record "codConsulta") ["890501"; "890601"]
     && text_eqb (txt record "conceptoRecaudo") "01" then
    append (ValidationResult_init NOTIFICATION "INFO_AC_001"
              "Copago permitido para CUPS 8905/8906"
              "conceptoRecaudo") ;;;
    ret valid
  else if text_eqb (txt record "conceptoRecaudo") "01"
          && negb (text_in (txt record "codConsulta") ["890501"; "890601"]) then
    append (ValidationResult_init REJECTION "ERR_AC_002"
              "Copago no permitido para este CUPS"
              "conceptoRecaudo") ;;;
    ret false
  else ret valid.

Definition ConsultasValidator_validate (e : engine) (consecutivo : string)
    : M (bool * list row) :=
  try_except
    (df <- read_sql Consultas_query e (Str consecutivo) ;;
     match df with
     | [] =>
         append (ValidationResult_init REJECTION "ERR_AC_001"
                   ("No se encontró consulta con consecutivo " ++ consecutivo)
                   "") ;;;
         ret (false, [])
     | record :: _ =>
         let valid := true in
         valid <- valid &= validate_string (txt record "codPrestador") "codPrestador" 12 true None ;;
         valid <- valid &= validate_string (txt record "numDocumentoIdentificacion") "numDocumentoIdentificacion" 20 true None ;;
         valid <- valid &= validate_date (txt record "fechaConsulta") "fechaConsulta" true ;;
         valid <- valid &= validate_string (txt record "codConsulta") "codConsulta" 6 true None ;;
         valid <- valid &= validate_string (txt record "codDiagnosticoPrincipal") "codDiagnosticoPrincipal" 25 true None ;;
         valid <- valid &= validate_string (txt record "conceptoRecaudo") "conceptoRecaudo" 2 false None ;;
         valid <- (if truthy (txt record "codConsulta") then
                     valid <- valid &= validate_code (txt record "codConsulta") "codConsulta" "CUPS" ;;
                     Consultas_copago record valid
                   else ret valid) ;;
         valid <- (if truthy (txt record "codDiagnosticoPrincipal") then
                     valid &= validate_code (txt record "codDiagnosticoPrincipal") "codDiagnosticoPrincipal" "CIE10"
                   else ret valid) ;;
         user_count <- read_sql_scalar query_user e (txt record "numDocumentoIdentificacion") ;;
         valid <- (if (user_count =? 0)%Z then
                     append (ValidationResult_init REJECTION "ERR_AC_003"
                               ("El usuario " ++ str (txt record "numDocumentoIdentificacion")
                                  ++ " no existe en Usuarios")
                               "numDocumentoIdentificacion") ;;;
                     ret false
                   else ret valid) ;;
         ret (valid, df)
     end)
    (fun msg =>
       append (ValidationResult_init REJECTION "ERR_AC_004"
                 ("Error en la consulta: " ++ msg) "") ;;;
       ret (false, [])).

(** *** Procedimientos (AP) *)

Definition Procedimientos_query : query :=
  mkQuery ["codPrestador"; "consecutivo"; "numDocumentoIdentificacion";
           "fechaInicioAtencion"; "numAutorizacion"; "codProcedimiento";
           "viaIngreso"]
          "Procedimientos" "consecutivo".

Definition ProcedimientosValidator_validate (e : engine) (consecutivo : string)
    : M (bool * list row) :=
  try_except
    (df <- read_sql Procedimientos_query e (Str consecutivo) ;;
     match df with
     | [] =>
         append (ValidationResult_init REJECTION "ERR_AP_001"
                   ("No se encontró procedimiento con consecutivo " ++ consecutivo)
                   "") ;;;
         ret (false, [])
     | record :: _ =>
         let valid := true in
         valid <- valid &= validate_string (txt record "codPrestador") "codPrestador" 12 true None ;;
         valid <- valid &= validate_string (txt record "numDocumentoIdentificacion") "numDocumentoIdentificacion" 20 true None ;;
         valid <- valid &= validate_date (txt record "fechaInicioAtencion") "fechaInicioAtencion" true ;;
         valid <- valid &= validate_string (txt record "numAutorizacion") "numAutorizacion" 30 false None ;;
         valid <- valid &= validate_string (txt record "codProcedimiento") "codProcedimiento" 6 true None ;;
         valid <- valid &= validate_string (txt record "viaIngreso") "viaIngreso" 2 true None ;;
         valid <- valid &= validate_code (txt record "codProcedimiento") "codProcedimiento" "CUPS" ;;
         valid <- valid &= validate_code (txt record "viaIngreso") "viaIngreso" "VIA_INGRESO" ;;
         (if isna (txt record "numAutorizacion") then
            append (ValidationResult_init NOTIFICATION "INFO_AP_001"
                      "Autorización no requerida para este procedimiento"
                      "numAutorizacion")
          else ret tt) ;;;
         user_count <- read_sql_scalar query_user e (txt record "numDocumentoIdentificacion") ;;
         valid <- (if (user_count =? 0)%Z then
                     append (ValidationResult_init REJECTION "ERR_AP_002"
                               ("El usuario " ++ str (txt record "numDocumentoIdentificacion")
                                  ++ " no existe en Usuarios")
                               "numDocumentoIdentificacion") ;;;
                     ret false
                   else ret valid) ;;
         ret (valid, df)
     end)
    (fun msg =>
       append (ValidationResult_init REJECTION "ERR_AP_003"
                 ("Error en la consulta: " ++ msg) "") ;;;
       ret (false, [])).

(** *** Urgencias (AU) *)

Definition Urgencias_query : query :=
  mkQuery ["codPrestador"; "consecutivo"; "numDocumentoIdentificacion";
           "fechaInicioAtencion"; "causaExterna"; "codDiagnosticoPrincipal";
           "condicionDestinoUsuarioEgreso"]
          "Urgencias" "consecutivo".

Definition UrgenciasValidator_validate (e : engine) (consecutivo : string)
    : M (bool * list row) :=
  try_except
    (df <- read_sql Urgencias_query e (Str consecutivo) ;;
     match df with
     | [] =>
         append (ValidationResult_init REJECTION "ERR_AU_001"
                   ("No se encontró urgencia con consecutivo " ++ consecutivo)
                   "") ;;;
         ret (false, [])
     | record :: _ =>
         let valid := true in
         valid <- valid &= validate_string (txt record "codPrestador") "codPrestador" 12 true None ;;
         valid <- valid &= validate_string (txt record "numDocumentoIdentificacion") "numDocumentoIdentificacion" 20 true None ;;
         valid <- valid &= validate_date (txt record "fechaInicioAtencion") "fechaInicioAtencion" true ;;
         valid <- valid &= validate_string (txt record "causaExterna") "causaExterna" 2 true None ;;
         valid <- valid &= validate_string (txt record "codDiagnosticoPrincipal") "codDiagnosticoPrincipal" 25 true None ;;
         valid <- valid &= validate_string (txt record "condicionDestinoUsuarioEgreso") "condicionDestinoUsuarioEgreso" 2 true None ;;
         valid <- valid &= validate_code (txt record "causaExterna") "causaExterna" "CAUSA_EXTERNA" ;;
         valid <- valid &= validate_code (txt record "codDiagnosticoPrincipal") "codDiagnosticoPrincipal" "CIE10" ;;
         user_count <- read_sql_scalar query_user e (txt record "numDocumentoIdentificacion") ;;
         valid <- (if (user_count =? 0)%Z then
                     append (ValidationResult_init REJECTION "ERR_AU_002"
                               ("El usuario " ++ str (txt record "numDocumentoIdentificacion")
                                  ++ " no existe en Usuarios")
                               "numDocumentoIdentificacion") ;;;
                     ret false
                   else ret valid) ;;
         ret (valid, df)
     end)
    (fun msg =>
       append (ValidationResult_init REJECTION "ERR_AU_003"
                 ("Error en la consulta: " ++ msg) "") ;;;
       ret (false, [])).

(** *** Hospitalización (AH) *)

Definition Hospitalizacion_query : query :=
  mkQuery ["codPrestador"; "consecutivo"; "numDocumentoIdentificacion";
           "fechaIngreso"; "codDiagnosticoPrincipal"; "fechaEgreso";
           "codDiagnosticoCausaMuerte"]
          "Hospitalización" "consecutivo".

Definition HospitalizacionValidator_validate (e : engine) (consecutivo : string)
    : M (bool * list row) :=
  try_except
    (df <- read_sql Hospitalizacion_query e (Str consecutivo) ;;
     match df with
     | [] =>
         append (ValidationResult_init REJECTION "ERR_AH_001"
                   ("No se encontró hospitalización con consecutivo " ++ consecutivo)
                   "") ;;;
         ret (false, [])
     | record :: _ =>
         let valid := true in
         valid <- valid &= validate_string (txt record "codPrestador") "codPrestador" 12 true None ;;
         valid <- valid &= validate_string (txt record "numDocumentoIdentificacion") "numDocumentoIdentificacion" 20 true None ;;
         valid <- valid &= validate_date (txt record "fechaIngreso") "fechaIngreso" true ;;
         valid <- valid &= validate_string (txt record "codDiagnosticoPrincipal") "codDiagnosticoPrincipal" 25 true None ;;
         valid <- valid &= validate_date (txt record "fechaEgreso") "fechaEgreso" true ;;
         valid <- valid &= validate_string (txt record "codDiagnosticoCausaMuerte") "codDiagnosticoCausaMuerte" 25 false None ;;
         valid <- valid &= validate_code (txt record "codDiagnosticoPrincipal") "codDiagnosticoPrincipal" "CIE10" ;;
         valid <- (if truthy (txt record "codDiagnosticoCausaMuerte") then
                     valid &= validate_code (txt record "codDiagnosticoCausaMuerte") "codDiagnosticoCausaMuerte" "CIE10"
                   else ret valid) ;;
         valid <- (if truthy (txt record "fechaIngreso") && truthy (txt record "fechaEgreso") then
                     fecha_ingreso <- call (strptime (str (txt record "fechaIngreso"))) ;;
                     fecha_egreso <- call (strptime (str (txt record "fechaEgreso"))) ;;
                     if (fecha_egreso <? fecha_ingreso)%Z then
                       append (ValidationResult_init REJECTION "ERR_AH_002"
                                 "La fecha de egreso no puede ser anterior a la fecha de ingreso"
                                 "fechaEgreso") ;;;
                       ret false
                     else ret valid
                   else ret valid) ;;
         user_count <- read_sql_scalar query_user e (txt record "numDocumentoIdentificacion") ;;
         valid <- (if (user_count =? 0)%Z then
                     append (ValidationResult_init REJECTION "ERR_AH_003"
                               ("El usuario " ++ str (txt record "numDocumentoIdentificacion")
                                  ++ " no existe en Usuarios")
                               "numDocumentoIdentificacion") ;;;
                     ret false
                   else ret valid) ;;
         ret (valid, df)
     end)
    (fun msg =>
       append (ValidationResult_init REJECTION "ERR_AH_004"
                 ("Error en la consulta: " ++ msg) "") ;;;
       ret (false, [])).

(** *** Recién Nacido (AN) *)

Definition RecienNacido_query : query :=
  mkQuery ["codPrestador"; "consecutivo"; "numDocumentoIdentificacion";
           "fechaNacimiento"; "sexoRecienNacido"; "pesoRecienNacido"]
          "Recién_Nacido" "consecutivo".

(** The float written [0.1]: the double nearest to one tenth. *)
Definition float_0_1 : Q := (3602879701896397 # 36028797018963968)%Q.

Definition RecienNacidoValidator_validate (e : engine) (consecutivo : string)
    : M (bool * list row) :=
  try_except
    (df <- read_sql RecienNacido_query e (Str consecutivo) ;;
     match df with
     | [] =>
         append (ValidationResult_init REJECTION "ERR_AN_001"
                   ("No se encontró recién nacido con consecutivo " ++ consecutivo)
                   "") ;;;
         ret (false, [])
     | record :: _ =>
         let valid := true in
         valid <- valid &= validate_string (txt record "codPrestador") "codPrestador" 12 true None ;;
         valid <- valid &= validate_string (txt record "numDocumentoIdentificacion") "numDocumentoIdentificacion" 20 true None ;;
         valid <- valid &= validate_date (txt record "fechaNacimiento") "fechaNacimiento" true ;;
         valid <- valid &= validate_string (txt record "sexoRecienNacido") "sexoRecienNacido" 1 true None ;;
         valid <- valid &= validate_number (num record "pesoRecienNacido") "pesoRecienNacido" (Some float_0_1) None ;;
         valid <- (if negb (text_in (txt record "sexoRecienNacido") ["M"; "F"]) then
                     append (ValidationResult_init REJECTION "ERR_AN_002"
                               "El sexo del recién nacido debe ser M o F"
                               "sexoRecienNacido") ;;;
                     ret false
                   else ret valid) ;;
         user_count <- read_sql_scalar query_user e (txt record "numDocumentoIdentificacion") ;;
         valid <- (if (user_count =? 0)%Z then
                     append (ValidationResult_init REJECTION "ERR_AN_003"
                               ("El usuario " ++ str (txt record "numDocumentoIdentificacion")
                                  ++ " no existe en Usuarios")
                               "numDocumentoIdentificacion") ;;;
                     ret false
                   else ret valid) ;;
         ret (valid, df)
     end)
    (fun msg =>
       append (ValidationResult_init REJECTION "ERR_AN_004"
                 ("Error en la consulta: " ++ msg) "") ;;;
       ret (false, [])).

(** *** Medicamentos (AM) *)

Definition Medicamentos_query : query :=
  mkQuery ["codPrestador"; "consecutivo"; "numDocumentoIdentificacion";
           "codTecnologiaSalud"; "nomTecnologiaSalud";
           "concentracionMedicamento"; "formaFarmaceutica"]
          "Medicamentos" "consecutivo".

Definition MedicamentosValidator_validate (e : engine) (consecutivo : string)
    : M (bool * list row) :=
  try_except
    (df <- read_sql Medicamentos_query e (Str consecutivo) ;;
     match df with
     | [] =>
         append (ValidationResult_init REJECTION "ERR_AM_001"
                   ("No se encontró medicamento con consecutivo " ++ consecutivo)
                   "") ;;;
         ret (false, [])
     | record :: _ =>
         let valid := true in
         valid <- valid &= validate_string (txt record "codPrestador") "codPrestador" 12 true None ;;
         valid <- valid &= validate_string (txt record "numDocumentoIdentificacion") "numDocumentoIdentificacion" 20 true None ;;
         valid <- valid &= validate_string (txt record "codTecnologiaSalud") "codTecnologiaSalud" 7 true None ;;
         valid <- valid &= validate_string (txt record "nomTecnologiaSalud") "nomTecnologiaSalud" 150 true None ;;
         valid <- valid &= validate_string (txt record "concentracionMedicamento") "concentracionMedicamento" 3 false None ;;
         valid <- valid &= validate_string (txt record "formaFarmaceutica") "formaFarmaceutica" 20 false None ;;
         valid <- (if truthy (txt record "codTecnologiaSalud") then
                     valid &= validate_code (txt record "codTecnologiaSalud") "codTecnologiaSalud" "ATC"
                   else ret valid) ;;
         (if truthy (txt record "nomTecnologiaSalud")
             && PyStr.contains "magistral" (PyStr.lower (str (txt record "nomTecnologiaSalud"))) then
            append (ValidationResult_init NOTIFICATION "INFO_AM_001"
                      "Preparación magistral detectada, se permite un solo principio activo"
                      "nomTecnologiaSalud") ;;;
            if truthy (txt record "concentracionMedicamento")
               && PyStr.contains "." (str (txt record "concentracionMedicamento")) then
              append (ValidationResult_init NOTIFICATION "WARN_AM_002"
                        "Decimales en concentracionMedicamento no soportados aún (cambio pendiente)"
                        "concentracionMedicamento")
            else ret tt
          else ret tt) ;;;
         user_count <- read_sql_scalar query_user e (txt record "numDocumentoIdentificacion") ;;
         valid <- (if (user_count =? 0)%Z then
                     append (ValidationResult_init REJECTION "ERR_AM_003"
                               ("El usuario " ++ str (txt record "numDocumentoIdentificacion")
                                  ++ " no existe en Usuarios")
                               "numDocumentoIdentificacion") ;;;
                     ret false
                   else ret valid) ;;
         ret (valid, df)
     end)
    (fun msg =>
       append (ValidationResult_init REJECTION "ERR_AM_004"
                 ("Error en la consulta: " ++ msg) "") ;;;
       ret (false, [])).

(** *** Otros Servicios (AT) *)

Definition OtrosServicios_query : query :=
  mkQuery ["codPrestador"; "consecutivo"; "numDocumentoIdentificacion";
           "tipoOS"; "codTecnologiaSalud"; "cantidadOS"]
          "Otros_Servicios" "consecutivo".

Definition OtrosServiciosValidator_validate (e : engine) (consecutivo : string)
    : M (bool * list row) :=
  try_except
    (df <- read_sql OtrosServicios_query e (Str consecutivo) ;;
     match df with
     | [] =>
         append (ValidationResult_init REJECTION "ERR_AT_001"
                   ("No se encontró otro servicio con consecutivo " ++ consecutivo)
                   "") ;;;
         ret (false, [])
     | record :: _ =>
         let valid := true in
         valid <- valid &= validate_string (txt record "codPrestador") "codPrestador" 12 true None ;;
         valid <- valid &= validate_string (txt record "numDocumentoIdentificacion") "numDocumentoIdentificacion" 20 true None ;;
         valid <- valid &= validate_string (txt record "tipoOS") "tipoOS" 2 true None ;;
         valid <- valid &= validate_string (txt record "codTecnologiaSalud") "codTecnologiaSalud" 7 true None ;;
         valid <- valid &= validate_number (num record "cantidadOS") "cantidadOS" (Some 1%Q) None ;;
         valid <- valid &= validate_code (txt record "tipoOS") "tipoOS" "TIPO_OS" ;;
         user_count <- read_sql_scalar query_user e (txt record "numDocumentoIdentificacion") ;;
         valid <- (if (user_count =? 0)%Z then
                     append (ValidationResult_init REJECTION "ERR_AT_002"
                               ("El usuario " ++ str (txt record "numDocumentoIdentificacion")
                                  ++ " no existe en Usuarios")
                               "numDocumentoIdentificacion") ;;;
                     ret false
                   else ret valid) ;;
         ret (valid, df)
     end)
    (fun msg =>
       append (ValidationResult_init REJECTION "ERR_AT_003"
                 ("Error en la consulta: " ++ msg) "") ;;;
       ret (false, [])).

(** ** The processor (class [RIPSProcessor]) *)

(** The validator classes; the processor holds one instance of each. *)
Inductive validator : Type :=
| TransaccionesValidator
| UsuariosValidator
| ConsultasValidator
| ProcedimientosValidator
| UrgenciasValidator
| HospitalizacionValidator
| RecienNacidoValidator
| MedicamentosValidator
| OtrosServiciosValidator.

(** The method [validate] of each class. *)
Definition validate (v : validator) : engine -> string -> M (bool * list row) :=
  match v with
  | TransaccionesValidator => TransaccionesValidator_validate
  | UsuariosValidator => UsuariosValidator_validate
  | ConsultasValidator => ConsultasValidator_validate
  | ProcedimientosValidator => ProcedimientosValidator_validate
  | UrgenciasValidator => UrgenciasValidator_validate
  | HospitalizacionValidator => HospitalizacionValidator_validate
  | RecienNacidoValidator => RecienNacidoValidator_validate
  | MedicamentosValidator => MedicamentosValidator_validate
  | OtrosServiciosValidator => OtrosServiciosValidator_validate
  end.

(** [self.validators]: the registry, from tag to instance. *)
Definition validators : list (string * validator) :=
  [ ("AF", TransaccionesValidator);
    ("US", UsuariosValidator);
    ("AC", ConsultasValidator);
    ("AP", ProcedimientosValidator);
    ("AU", UrgenciasValidator);
    ("AH", HospitalizacionValidator);
    ("AN", RecienNacidoValidator);
    ("AM", MedicamentosValidator);
    ("AT", OtrosServiciosValidator) ].

(** [self.validators.get(file_type)] *)
Fixpoint validators_get (reg : list (string * validator)) (file_type : string)
    : option validator :=
  match reg with
  | (tag, v) :: reg' => if tag =? file_type then Some v else validators_get reg' file_type
  | [] => None
  end.

Definition validator_eqb (a b : validator) : bool :=
  match a, b with
  | TransaccionesValidator, TransaccionesValidator
  | UsuariosValidator, UsuariosValidator
  | ConsultasValidator, ConsultasValidator
  | ProcedimientosValidator, ProcedimientosValidator
  | UrgenciasValidator, UrgenciasValidator
  | HospitalizacionValidator, HospitalizacionValidator
  | RecienNacidoValidator, RecienNacidoValidator
  | MedicamentosValidator, MedicamentosValidator
  | OtrosServiciosValidator, OtrosServiciosValidator => true
  | _, _ => false
  end.

(** What a run of the processor can change: the ledger of each validator
    instance, the queries sent to the engine, the files written. *)
Record world : Type := mkWorld {
  ledger : validator -> list ValidationResult;
  queries : list sql_call;
  files : list (string * list row)
}.

(** A new processor: every ledger empty ([RIPSValidator.__init__]). *)
Definition RIPSProcessor_init : world :=
  mkWorld (fun _ => []) [] [].

Definition set_ledger (w : validator -> list ValidationResult) (v : validator)
    (l : list ValidationResult) : validator -> list ValidationResult :=
  fun v' => if validator_eqb v v' then l else w v'.

(** The response dictionary; [JSONFile] is present after an export only. *)
Record response : Type := mkResponse {
  Valid : bool;
  ValidationResults : list dict;
  JSONGenerated : bool;
  JSONFile : option string
}.

(** The name of the export of [(file_type, consecutivo)]. *)
Definition json_file (file_type consecutivo : string) : string :=
  "rips_" ++ file_type ++ "_" ++ consecutivo ++ ".json".

Definition process (e : engine) (file_type consecutivo : string) (w : world)
    : result response * world :=
  match validators_get validators file_type with
  | None =>
      (Return (mkResponse false
                 [ [ ("Clase", "RECHAZO");
                     ("Codigo", "ERR_GEN_001");
                     ("Descripcion", "Tipo de archivo " ++ file_type ++ " no soportado");
                     ("Fuente", "RIPS") ] ]
                 false None),
       w)
  | Some v =>
      match validate v e consecutivo (mkSelf (ledger w v) (queries w)) with
      | (Raise msg, st) =>
          (Raise msg, mkWorld (set_ledger (ledger w) v (results st)) (sql_log st) (files w))
      | (Return (is_valid, records), st) =>
          let w1 := mkWorld (set_ledger (ledger w) v (results st)) (sql_log st) (files w) in
          let has_rejections := has_rejections (results st) in
          let valid := is_valid && negb has_rejections in
          let results_dicts := map to_dict (results st) in
          if valid then
            let json_file := json_file file_type consecutivo in
            match open_write json_file with
            | Raise msg => (Raise msg, w1)
            | Return _ =>
                (Return (mkResponse valid results_dicts true (Some json_file)),
                 mkWorld (ledger w1) (queries w1) (files w1 ++ [(json_file, records)]))
            end
          else
            (Return (mkResponse valid results_dicts false None), w1)
      end
  end.

(** ** Reasoning about validators

    [wp m Q acc]: run from a ledger that ends with the outcomes [acc]
    appended so far, [m] only appends to the ledger, and its result [r] and
    the outcomes [new] appended since the start satisfy [Q r new]. *)

Definition wp {A} (m : M A) (Q : result A -> list ValidationResult -> Prop)
    (acc : list ValidationResult) : Prop :=
  forall st l0, results st = (l0 ++ acc)%list ->
    exists new, results (snd (m st)) = (l0 ++ new)%list /\ Q (fst (m st)) new.

(** What a catalog miss appends. *)
Definition catalog_miss (value : text) (field catalog : string)
    : ValidationResult :=
  ValidationResult_init NOTIFICATION
    ("WARN_" ++ field ++ "_001")
    ("El código " ++ str value ++ " en " ++ field
       ++ " no está en el catálogo " ++ catalog)
    field.

Definition is_catalog_miss (o : ValidationResult) : Prop :=
  exists value field catalog, o = catalog_miss value field catalog.

(** An outcome that comes with a false verdict. *)
Definition blocking (o : ValidationResult) : Prop :=
  is_rejection o = true \/ is_catalog_miss o.

(** The query of each validator and its type-specific codes. *)
Definition validator_query (v : validator) : query :=
  match v with
  | TransaccionesValidator => Transacciones_query
  | UsuariosValidator => Usuarios_query
  | ConsultasValidator => Consultas_query
  | ProcedimientosValidator => Procedimientos_query
  | UrgenciasValidator => Urgencias_query
  | HospitalizacionValidator => Hospitalizacion_query
  | RecienNacidoValidator => RecienNacido_query
  | MedicamentosValidator => Medicamentos_query
  | OtrosServiciosValidator => OtrosServicios_query
  end.

Definition not_found_code (v : validator) : string :=
  match v with
  | TransaccionesValidator => "ERR_AF_001"
  | UsuariosValidator => "ERR_US_001"
  | ConsultasValidator => "ERR_AC_001"
  | ProcedimientosValidator => "ERR_AP_001"
  | UrgenciasValidator => "ERR_AU_001"
  | HospitalizacionValidator => "ERR_AH_001"
  | RecienNacidoValidator => "ERR_AN_001"
  | MedicamentosValidator => "ERR_AM_001"
  | OtrosServiciosValidator => "ERR_AT_001"
  end.

Definition query_error_code (v : validator) : string :=
  match v with
  | TransaccionesValidator => "ERR_AF_002"
  | UsuariosValidator => "ERR_US_002"
  | ConsultasValidator => "ERR_AC_004"
  | ProcedimientosValidator => "ERR_AP_003"
  | UrgenciasValidator => "ERR_AU_003"
  | HospitalizacionValidator => "ERR_AH_004"
  | RecienNacidoValidator => "ERR_AN_004"
  | MedicamentosValidator => "ERR_AM_004"
  | OtrosServiciosValidator => "ERR_AT_003"
  end.

(** The Rejection of the [except] branch. *)
Definition query_error (v : validator) (msg : string) : ValidationResult :=
  ValidationResult_init REJECTION (query_error_code v)
    ("Error en la consulta: " ++ msg) "".

(** The validators that look the beneficiary up in Usuarios. *)
Definition cross_references (v : validator) : bool :=
  match v with
  | TransaccionesValidator | UsuariosValidator => false
  | _ => true
  end.

(** The codes of a response, in order. *)
Definition response_codes (r : response) : list (option string) :=
  map (fun d => dict_get d "Codigo") (ValidationResults r).

(** What a field check ([validate_string], [validate_date],
    [validate_number]) on [f] returns and appends: nothing with [true], or
    one Rejection on [f], coded [ERR_f_seq], with [false]. *)
Definition check_post (f : string) (b : bool) (n : list ValidationResult)
    : Prop :=
  (b = true /\ n = nil) \/
  (b = false /\
   exists seq d,
     n = (ValidationResult_init REJECTION ("ERR_" ++ f ++ seq) d f :: nil)).

(** What [validate_code] returns and appends. *)
Definition code_post (value : text) (f catalog : string) (b : bool)
    (n : list ValidationResult) : Prop :=
  (b = true /\ n = nil) \/
  (b = false /\ n = (catalog_miss value f catalog :: nil)).

(** The Rejection of a fetch that finds no row. *)
Definition not_found (v : validator) (consecutivo : string) : ValidationResult :=
  ValidationResult_init REJECTION (not_found_code v)
    (match v with
     | TransaccionesValidator => "No se encontró transacción con consecutivo "
     | UsuariosValidator => "No se encontró usuario con ID "
     | ConsultasValidator => "No se encontró consulta con consecutivo "
     | ProcedimientosValidator => "No se encontró procedimiento con consecutivo "
     | UrgenciasValidator => "No se encontró urgencia con consecutivo "
     | HospitalizacionValidator => "No se encontró hospitalización con consecutivo "
     | RecienNacidoValidator => "No se encontró recién nacido con consecutivo "
     | MedicamentosValidator => "No se encontró medicamento con consecutivo "
     | OtrosServiciosValidator => "No se encontró otro servicio con consecutivo "
     end ++ consecutivo)
    "".

(** The three Rejections of [validate_string] and the two of
    [validate_date]. *)
Definition required_rejection (f : string) : ValidationResult :=
  ValidationResult_init REJECTION ("ERR_" ++ f ++ "_001")
    ("El campo " ++ f ++ " es obligatorio") f.

Definition too_long_rejection (f : string) (max_length : nat) : ValidationResult :=
  ValidationResult_init REJECTION ("ERR_" ++ f ++ "_002")
    ("El campo " ++ f ++ " excede el tamaño máximo de " ++ PyStr.of_nat max_length) f.

Definition pattern_rejection (f : string) : ValidationResult :=
  ValidationResult_init REJECTION ("ERR_" ++ f ++ "_003")
    ("El campo " ++ f ++ " no cumple el formato esperado") f.

Definition date_format_rejection (f : string) : ValidationResult :=
  ValidationResult_init REJECTION ("ERR_" ++ f ++ "_004")
    ("El campo " ++ f ++ " no tiene un formato de fecha válido") f.

(** What [validate_date] appends, as a function of its arguments. *)
Definition date_outcomes (value : text) (f : string) (required : bool)
    : list ValidationResult :=
  if required && is_blank value then [required_rejection f]
  else if truthy value then
    match strptime (str value) with
    | Return _ => []
    | Raise _ => [date_format_rejection f]
    end
  else [].

(** A check passed when it appended nothing. *)
Definition passed (n : list ValidationResult) : bool :=
  match n with
  | nil => true
  | _ => false
  end.

(** The two outcomes of the copay rule. *)
Definition copago_permitido : ValidationResult :=
  ValidationResult_init NOTIFICATION "INFO_AC_001"
    "Copago permitido para CUPS 8905/8906" "conceptoRecaudo".

Definition copago_no_permitido : ValidationResult :=
  ValidationResult_init REJECTION "ERR_AC_002"
    "Copago no permitido para este CUPS" "conceptoRecaudo".

(** The response to an unknown tag. *)
Definition unsupported_response (file_type : string) : response :=
  mkResponse false
    [ [ ("Clase", "RECHAZO");
        ("Codigo", "ERR_GEN_001");
        ("Descripcion", "Tipo de archivo " ++ file_type ++ " no soportado");
        ("Fuente", "RIPS") ] ]
    false None.

(** RequiredString as the specification words it: like [validate_string],
    but with the pattern matched against the trimmed value. *)
Definition RequiredString_spec (value : text) (field : string)
    (max_length : nat) (required : bool) (regex : option string) : M bool :=
  if required && is_blank value then
    append (required_rejection field) ;;; ret false
  else if truthy value && (max_length <? String.length (str value))%nat then
    append (too_long_rejection field max_length) ;;; ret false
  else if truthy value
          && match regex with
             | Some re => negb (re =? "") && negb (re_match re (PyStr.strip (str value)))
             | None => false
             end then
    append (pattern_rejection field) ;;; ret false
  else ret true.

(** A run of calls to [process] on one processor, each with the engine as
    it is at that call; the responses are dropped, the world is kept. *)
Fixpoint process_calls (calls : list (engine * string * string)) (w : world)
    : world :=
  match calls with
  | (e, file_type, consecutivo) :: calls' =>
      process_calls calls' (snd (process e file_type consecutivo w))
  | nil => w
  end.

(** ** The queries a validator sends

    [wpl m Q acc]: as [wp], for the log of the queries sent to the engine:
    [m] only appends to the log, and its result [r] and the queries [new]
    sent since the start satisfy [Q r new]. *)

Definition wpl {A} (m : M A) (Q : result A -> list sql_call -> Prop)
    (acc : list sql_call) : Prop :=
  forall st l0, sql_log st = (l0 ++ acc)%list ->
    exists new, sql_log (snd (m st)) = (l0 ++ new)%list /\ Q (fst (m st)) new.

(** The look-up of the beneficiary of [record]. *)
Definition user_lookup (record : row) : sql_call :=
  (query_user, txt record "numDocumentoIdentificacion").

(** The code of the Rejection for a beneficiary that is not in Usuarios;
    the validators of AF and US do no look-up. *)
Definition user_missing_code (v : validator) : option string :=
  match v with
  | TransaccionesValidator | UsuariosValidator => None
  | ConsultasValidator => Some "ERR_AC_003"
  | ProcedimientosValidator => Some "ERR_AP_002"
  | UrgenciasValidator => Some "ERR_AU_002"
  | HospitalizacionValidator => Some "ERR_AH_003"
  | RecienNacidoValidator => Some "ERR_AN_003"
  | MedicamentosValidator => Some "ERR_AM_003"
  | OtrosServiciosValidator => Some "ERR_AT_002"
  end.

Definition user_missing (c : string) (record : row) : ValidationResult :=
  ValidationResult_init REJECTION c
    ("El usuario " ++ str (txt record "numDocumentoIdentificacion")
       ++ " no existe en Usuarios")
    "numDocumentoIdentificacion".

(** The outcomes of the rules of the record types. *)
Definition sin_factura_permitido : ValidationResult :=
  ValidationResult_init NOTIFICATION "INFO_AF_001"
    "RIPS sin factura permitido con tipoNota RS" "tipoNota".

Definition autorizacion_no_requerida : ValidationResult :=
  ValidationResult_init NOTIFICATION "INFO_AP_001"
    "Autorización no requerida para este procedimiento" "numAutorizacion".

Definition egreso_anterior : ValidationResult :=
  ValidationResult_init REJECTION "ERR_AH_002"
    "La fecha de egreso no puede ser anterior a la fecha de ingreso"
    "fechaEgreso".

Definition sexo_invalido : ValidationResult :=
  ValidationResult_init REJECTION "ERR_AN_002"
    "El sexo del recién nacido debe ser M o F" "sexoRecienNacido".

Definition preparacion_magistral : ValidationResult :=
  ValidationResult_init NOTIFICATION "INFO_AM_001"
    "Preparación magistral detectada, se permite un solo principio activo"
    "nomTecnologiaSalud".

Definition decimales_no_soportados : ValidationResult :=
  ValidationResult_init NOTIFICATION "WARN_AM_002"
    "Decimales en concentracionMedicamento no soportados aún (cambio pendiente)"
    "concentracionMedicamento".

(** The tag a validator is registered under. *)
Definition tag_of (v : validator) : string :=
  match v with
  | TransaccionesValidator => "AF"
  | UsuariosValidator => "US"
  | ConsultasValidator => "AC"
  | ProcedimientosValidator => "AP"
  | UrgenciasValidator => "AU"
  | HospitalizacionValidator => "AH"
  | RecienNacidoValidator => "AN"
  | MedicamentosValidator => "AM"
  | OtrosServiciosValidator => "AT"
  end.

(** ** What each rule primitive appends, as a function of its arguments *)

Definition string_outcomes (value : text) (f : string) (max_length : nat)
    (required : bool) (regex : option string) : list ValidationResult :=
  if required && is_blank value then [required_rejection f]
  else if truthy value && (max_length <? String.length (str value))%nat then
    [too_long_rejection f max_length]
  else if truthy value
          && match regex with
             | Some re => negb (re =? "") && negb (re_match re (str value))
             | None => false
             end then
    [pattern_rejection f]
  else [].

Definition code_outcomes (value : text) (f catalog : string)
    : list ValidationResult :=
  if truthy value && negb (text_in value (catalogs_get catalogs catalog))
  then [catalog_miss value f catalog]
  else [].

Definition too_small_rejection (f : string) (min_value : option Q)
    : ValidationResult :=
  ValidationResult_init REJECTION ("ERR_" ++ f ++ "_005")
    ("El campo " ++ f ++ " debe ser mayor o igual a "
       ++ match min_value with Some b => str_number b | None => "" end) f.

Definition too_large_rejection (f : string) (max_value : option Q)
    : ValidationResult :=
  ValidationResult_init REJECTION ("ERR_" ++ f ++ "_006")
    ("El campo " ++ f ++ " debe ser menor o igual a "
       ++ match max_value with Some b => str_number b | None => "" end) f.

Definition number_outcomes (value : option Q) (f : string)
    (min_value max_value : option Q) : list ValidationResult :=
  match value with
  | None => [required_rejection f]
  | Some v =>
      if below v min_value then [too_small_rejection f min_value]
      else if above v max_value then [too_large_rejection f max_value]
      else []
  end.

(** ** The conditions on the fields of a record *)

(** A required text, given and within [n] characters. *)
Definition filled (value : text) (n : nat) : Prop :=
  is_blank value = false /\ (String.length (str value) <= n)%nat.

(** An optional text: within [n] characters when it is given. *)
Definition fits (value : text) (n : nat) : Prop :=
  truthy value = true -> (String.length (str value) <= n)%nat.

(** A code that is in its catalog when it is given. *)
Definition coded (value : text) (catalog : string) : Prop :=
  truthy value = true -> text_in value (catalogs_get catalogs catalog) = true.

(** A required date that parses. *)
Definition dated (value : text) : Prop :=
  is_blank value = false /\ exists t, strptime (str value) = Return t.

(** A required number, not below [bound]. *)
Definition at_least (value : option Q) (bound : Q) : Prop :=
  exists x, value = Some x /\ (bound <= x)%Q.

(** A date that is not before another, where both parse. *)
Definition not_before (value other : text) : Prop :=
  forall t t0,
    strptime (str value) = Return t -> strptime (str other) = Return t0 ->
    (t0 <= t)%Z.

(** The beneficiary is in Usuarios: the look-up answers, and not with 0. *)
Definition registered (e : engine) (value : text) : Prop :=
  exists n, select_count e query_user value = Return n /\ n <> 0%Z.

(** ** Runs that differ in the rows after the first

    Two results of [validate] on fetches [df] and [df']: the same verdict,
    and each hands back its own fetch, or both hand back nothing. *)

Definition same_outcome (df df' : list row)
    (r r' : result (bool * list row)) : Prop :=
  match r, r' with
  | Return (valid, recs), Return (valid', recs') =>
      valid = valid' /\
      ((recs = df /\ recs' = df') \/ (recs = nil /\ recs' = nil))
  | Raise msg, Raise msg' => msg = msg'
  | _, _ => False
  end.

Definition sim (df df' : list row) (m m' : M (bool * list row)) : Prop :=
  forall st,
    snd (m st) = snd (m' st) /\ same_outcome df df' (fst (m st)) (fst (m' st)).

(** ** Sample library behaviours and stores, for the examples *)

(** [re.match] for a pattern without metacharacters: a prefix test. *)
Definition re_match_literal (pattern s : string) : bool := prefix pattern s.

(** The bounds [0.1] and [1] are the only numbers the validators print. *)
Definition str_number_bounds (q : Q) : string :=
  if Qeq_bool q float_0_1 then "0.1" else "1".

Definition open_write_ok (name : string) : result unit := Return tt.

Definition open_write_full (name : string) : result unit :=
  Raise "[Errno 28] No space left on device".

Definition digit (c : ascii) : option Z :=
  let n := nat_of_ascii c in
  if ((48 <=? n) && (n <=? 57))%nat then Some (Z.of_nat (n - 48)) else None.

Fixpoint digits (s : string) (acc : Z) : option Z :=
  match s with
  | String c s' =>
      match digit c with
      | Some d => digits s' (10 * acc + d)%Z
      | None => None
      end
  | EmptyString => Some acc
  end.

Definition days_in_month (y m : Z) : Z :=
  if (m =? 2)%Z then
    if ((y mod 4 =? 0) && (negb (y mod 100 =? 0) || (y mod 400 =? 0)))%Z
    then 29%Z else 28%Z
  else if ((m =? 4) || (m =? 6) || (m =? 9) || (m =? 11))%Z then 30%Z
  else 31%Z.

(** [strptime] with the format [%Y-%m-%d %H:%M:%S] on zero-padded text of
    19 characters, the only form the examples use; the result orders
    instants as the calendar does. *)
Definition strptime_padded (s : string) : result Z :=
  let mismatch :=
    Raise ("time data '" ++ s ++ "' does not match format '%Y-%m-%d %H:%M:%S'") in
  if negb (String.length s =? 19)%nat
     || negb (substring 4 1 s =? "-") || negb (substring 7 1 s =? "-")
     || negb (substring 10 1 s =? " ")
     || negb (substring 13 1 s =? ":") || negb (substring 16 1 s =? ":")
  then mismatch
  else
    match digits (substring 0 4 s) 0, digits (substring 5 2 s) 0,
          digits (substring 8 2 s) 0, digits (substring 11 2 s) 0,
          digits (substring 14 2 s) 0, digits (substring 17 2 s) 0 with
    | Some y, Some m, Some d, Some hh, Some mm, Some ss =>
        if ((1 <=? m) && (m <=? 12) && (hh <? 24) && (mm <? 60) && (ss <? 62))%Z
        then
          if ((1 <=? y) && (1 <=? d) && (d <=? days_in_month y m) && (ss <? 60))%Z
          then Return (((((y * 13 + m) * 32 + d) * 24 + hh) * 60 + mm) * 60 + ss)%Z
          else Raise "day is out of range for month"
        else mismatch
    | _, _, _, _, _, _ => mismatch
    end.

(** A row from its text and numeric cells; a cell not listed is NULL, handed
    over as [None]. *)
Fixpoint numbers_get (l : list (string * Q)) (k : string) : option Q :=
  match l with
  | (k', q) :: l' => if k' =? k then Some q else numbers_get l' k
  | nil => None
  end.

Definition cell (c : option string) : text :=
  match c with
  | Some s => Str s
  | None => PyNone
  end.

Definition row_of (cells : list (string * string)) (numbers : list (string * Q))
    : row :=
  mkRow (fun column => cell (dict_get cells column)) (numbers_get numbers).

(** The row [r] with the NULL cells of the columns [nulls] handed over as
    NaN, as pandas does for a column it reads as strings. *)
Definition null_as_nan (nulls : list string) (r : row) : row :=
  mkRow (fun column =>
           match txt r column with
           | PyNone => if PyStr.mem column nulls then NaN else PyNone
           | c => c
           end)
        (num r).

(** A store: the rows of each table. *)
Definition database : Type := list (string * list row).

Fixpoint table_rows (db : database) (name : string) : list row :=
  match db with
  | (name', rows) :: db' => if name' =? name then rows else table_rows db' name
  | nil => nil
  end.

(** The rows of the table of [q] whose key column equals the parameter; a
    parameter that is not a string equals nothing. *)
Definition matching (db : database) (q : query) (key : text) : list row :=
  match key with
  | Str k => filter (fun r => text_eqb (txt r (key_column q)) k) (table_rows db (table q))
  | _ => nil
  end.

Definition engine_of (db : database) : engine :=
  mkEngine (fun q key => Return (matching db q key))
           (fun q key => Return (Z.of_nat (length (matching db q key)))).

(** The store answers the fetches; the COUNT queries fail. *)
Definition engine_count_down (db : database) (msg : string) : engine :=
  mkEngine (fun q key => Return (matching db q key))
           (fun q key => Raise msg).

Definition engine_down (msg : string) : engine :=
  mkEngine (fun q key => Raise msg) (fun q key => Raise msg).

Definition usuario_cc : row :=
  row_of [ ("tipoDocumentoIdentificacion", "CC");
           ("numDocumentoIdentificacion", "123456");
           ("codPaisOrigen", "170") ] [].

(** A beneficiary whose document type is in no catalog. *)
Definition usuario_xx : row :=
  row_of [ ("tipoDocumentoIdentificacion", "XX");
           ("numDocumentoIdentificacion", "999");
           ("codPaisOrigen", "170") ] [].

Definition consulta_001 : row :=
  row_of [ ("codPrestador", "110010000001");
           ("consecutivo", "CONS_001");
           ("numDocumentoIdentificacion", "123456");
           ("fechaConsulta", "2024-01-10 08:00:00");
           ("codConsulta", "890501");
           ("codDiagnosticoPrincipal", "E119");
           ("conceptoRecaudo", "01") ] [].

Definition consulta_002 : row :=
  row_of [ ("codPrestador", "110010000001");
           ("consecutivo", "CONS_002");
           ("numDocumentoIdentificacion", "123456");
           ("fechaConsulta", "2024-01-10 08:00:00");
           ("codConsulta", "999999");
           ("codDiagnosticoPrincipal", "E119");
           ("conceptoRecaudo", "01") ] [].

(** A stay whose discharge date is not in the expected format. *)
Definition hospitalizacion_001 : row :=
  row_of [ ("codPrestador", "110010000001");
           ("consecutivo", "HOSP_001");
           ("numDocumentoIdentificacion", "123456");
           ("fechaIngreso", "2024-01-10 08:00:00");
           ("codDiagnosticoPrincipal", "E119");
           ("fechaEgreso", "15/01/2024") ] [].

(** A stay whose discharge date is one space. *)
Definition hospitalizacion_003 : row :=
  row_of [ ("codPrestador", "110010000001");
           ("consecutivo", "HOSP_003");
           ("numDocumentoIdentificacion", "123456");
           ("fechaIngreso", "2024-01-10 08:00:00");
           ("codDiagnosticoPrincipal", "E119");
           ("fechaEgreso", " ") ] [].

Definition sample_db : database :=
  [ ("Usuarios", [usuario_cc; usuario_xx]);
    ("Consultas", [consulta_001; consulta_002]);
    ("Hospitalización", [hospitalizacion_001; hospitalizacion_003]) ].

(** A store with a table for each record type. *)

(** A note of type RS without an invoice; a second row has the same key. *)
Definition transaccion_001 : row :=
  row_of [ ("codPrestador", "110010000001");
           ("consecutivo", "TRANS_001");
           ("numDocumentoIdObligado", "900123456");
           ("tipoNota", "RS");
           ("numNota", "NC-0001") ] [].

Definition transaccion_001_bis : row :=
  row_of [ ("codPrestador", "");
           ("consecutivo", "TRANS_001");
           ("numDocumentoIdObligado", "900123456");
           ("tipoNota", "ZZ") ] [].

(** A procedure without an authorization number. *)
Definition procedimiento_001 : row :=
  row_of [ ("codPrestador", "110010000001");
           ("consecutivo", "PROC_001");
           ("numDocumentoIdentificacion", "123456");
           ("fechaInicioAtencion", "2024-02-01 09:30:00");
           ("codProcedimiento", "890601");
           ("viaIngreso", "01") ] [].

Definition urgencia_001 : row :=
  row_of [ ("codPrestador", "110010000001");
           ("consecutivo", "URG_001");
           ("numDocumentoIdentificacion", "123456");
           ("fechaInicioAtencion", "2024-02-03 23:10:00");
           ("causaExterna", "15");
           ("codDiagnosticoPrincipal", "J459");
           ("condicionDestinoUsuarioEgreso", "01") ] [].

(** A stay that ends before it starts. *)
Definition hospitalizacion_002 : row :=
  row_of [ ("codPrestador", "110010000001");
           ("consecutivo", "HOSP_002");
           ("numDocumentoIdentificacion", "123456");
           ("fechaIngreso", "2024-01-10 08:00:00");
           ("codDiagnosticoPrincipal", "E119");
           ("fechaEgreso", "2024-01-05 10:00:00") ] [].

(** A newborn whose sex is neither M nor F, of a mother that is not in
    Usuarios. *)
Definition recien_nacido_001 : row :=
  row_of [ ("codPrestador", "110010000001");
           ("consecutivo", "RN_001");
           ("numDocumentoIdentificacion", "555");
           ("fechaNacimiento", "2024-03-01 04:15:00");
           ("sexoRecienNacido", "X") ]
         [ ("pesoRecienNacido", (32 # 10)%Q) ].

(** A compounded preparation with a decimal concentration. *)
Definition medicamento_001 : row :=
  row_of [ ("codPrestador", "110010000001");
           ("consecutivo", "MED_001");
           ("numDocumentoIdentificacion", "123456");
           ("codTecnologiaSalud", "A10BA02");
           ("nomTecnologiaSalud", "Metformina, preparacion MAGISTRAL");
           ("concentracionMedicamento", "0.5");
           ("formaFarmaceutica", "Suspension") ] [].

Definition otro_servicio_001 : row :=
  row_of [ ("codPrestador", "110010000001");
           ("consecutivo", "OS_001");
           ("numDocumentoIdentificacion", "123456");
           ("tipoOS", "02");
           ("codTecnologiaSalud", "OS001") ]
         [ ("cantidadOS", (2 # 1)%Q) ].

(** A note stored without a note type, fetched with a second row that has
    one: pandas (from version 3) reads the column as strings and hands the
    NULL of the first row over as NaN. *)
Definition transaccion_002 : row :=
  null_as_nan ["tipoNota"]
    (row_of [ ("codPrestador", "110010000001");
              ("consecutivo", "TRANS_002");
              ("numDocumentoIdObligado", "900123456");
              ("numFactura", "FV-0002") ] []).

Definition transaccion_002_bis : row :=
  row_of [ ("codPrestador", "110010000001");
           ("consecutivo", "TRANS_002");
           ("numDocumentoIdObligado", "900123456");
           ("numFactura", "FV-0002");
           ("tipoNota", "RS") ] [].

(** A beneficiary stored without a country of origin, fetched with a second
    row that has one: the NULL of the first row arrives as NaN. *)
Definition usuario_777 : row :=
  null_as_nan ["codPaisOrigen"]
    (row_of [ ("tipoDocumentoIdentificacion", "CC");
              ("numDocumentoIdentificacion", "777") ] []).

Definition usuario_777_bis : row :=
  row_of [ ("tipoDocumentoIdentificacion", "CC");
           ("numDocumentoIdentificacion", "777");
           ("codPaisOrigen", "170") ] [].

(** A beneficiary without a country of origin whose fetch has one row: the
    NULL arrives as [None]. *)
Definition usuario_778 : row :=
  row_of [ ("tipoDocumentoIdentificacion", "CC");
           ("numDocumentoIdentificacion", "778") ] [].

Definition services_db : database :=
  [ ("Transacciones",
     [transaccion_001; transaccion_001_bis; transaccion_002; transaccion_002_bis]);
    ("Usuarios", [usuario_cc; usuario_xx; usuario_777; usuario_777_bis; usuario_778]);
    ("Consultas", [consulta_001; consulta_002]);
    ("Procedimientos", [procedimiento_001]);
    ("Urgencias", [urgencia_001]);
    ("Hospitalización", [hospitalizacion_001; hospitalizacion_002]);
    ("Recién_Nacido", [recien_nacido_001]);
    ("Medicamentos", [medicamento_001]);
    ("Otros_Servicios", [otro_servicio_001]) ].

(** The same store with a single row for the transaction "TRANS_001". *)
Definition services_db_single : database :=
  ("Transacciones", [transaccion_001]) :: services_db.


Local Open Scope list_scope.

(** ** Rules of [wp] *)

Lemma wp_ret {A} (a : A) Q acc : Q (Return a) acc -> wp (ret a) Q acc.
Proof.
  intros HQ st l0 Hst. exists acc. split; [exact Hst | exact HQ].
Qed.

Lemma wp_call {A} (r : result A) Q acc : Q r acc -> wp (call r) Q acc.
Proof.
  intros HQ st l0 Hst. exists acc. split; [exact Hst | exact HQ].
Qed.

Lemma wp_bind {A B} (m : M A) (k : A -> M B) Q acc :
  wp m (fun r acc' =>
          match r with
          | Return a => wp (k a) Q acc'
          | Raise msg => Q (Raise msg) acc'
          end) acc ->
  wp (bind m k) Q acc.
Proof.
  intros Hm st l0 Hst.
  destruct (Hm st l0 Hst) as (mid & Hmid & Hk).
  unfold bind. destruct (m st) as [[a | msg] st']; cbn [fst snd] in *.
  - exact (Hk st' l0 Hmid).
  - exists mid. split; assumption.
Qed.

Lemma wp_try_except {A} (body : M A) (handler : string -> M A) Q acc :
  wp body (fun r acc' =>
             match r with
             | Return a => Q (Return a) acc'
             | Raise msg => wp (handler msg) Q acc'
             end) acc ->
  wp (try_except body handler) Q acc.
Proof.
  intros Hm st l0 Hst.
  destruct (Hm st l0 Hst) as (mid & Hmid & Hk).
  unfold try_except. destruct (body st) as [[a | msg] st']; cbn [fst snd] in *.
  - exists mid. split; assumption.
  - exact (Hk st' l0 Hmid).
Qed.

Lemma wp_append o Q acc : Q (Return tt) (acc ++ [o]) -> wp (append o) Q acc.
Proof.
  intros HQ st l0 Hst. exists (acc ++ [o]). split; [| exact HQ].
  cbn [append snd results]. rewrite Hst. symmetry. apply app_assoc.
Qed.

Lemma wp_read_sql q e key Q acc :
  Q (select_rows e q key) acc -> wp (read_sql q e key) Q acc.
Proof.
  intros HQ st l0 Hst. exists acc. split; [exact Hst | exact HQ].
Qed.

Lemma wp_read_sql_scalar q e key Q acc :
  Q (select_count e q key) acc -> wp (read_sql_scalar q e key) Q acc.
Proof.
  intros HQ st l0 Hst. exists acc. split; [exact Hst | exact HQ].
Qed.

Lemma wp_and_assign valid (m : M bool) Q acc :
  wp m (fun r acc' =>
          match r with
          | Return b => Q (Return (valid && b)) acc'
          | Raise msg => Q (Raise msg) acc'
          end) acc ->
  wp (and_assign valid m) Q acc.
Proof.
  intros Hm. unfold and_assign. apply wp_bind.
  intros st l0 Hst. destruct (Hm st l0 Hst) as (mid & Hmid & HQ).
  exists mid. split; [exact Hmid |].
  destruct (fst (m st)); [apply wp_ret |]; exact HQ.
Qed.

Lemma wp_mono {A} (m : M A) (Q Q' : result A -> list ValidationResult -> Prop) acc :
  wp m Q acc -> (forall r new, Q r new -> Q' r new) -> wp m Q' acc.
Proof.
  intros Hm HQ st l0 Hst. destruct (Hm st l0 Hst) as (new & Hnew & H).
  exists new. split; [exact Hnew | apply HQ, H].
Qed.

(** From [wp] at the start of a call to a statement about the run. *)
Lemma wp_run {A} (m : M A) Q st :
  wp m Q [] ->
  exists new, results (snd (m st)) = results st ++ new /\ Q (fst (m st)) new.
Proof.
  intros Hm. apply (Hm st (results st)). symmetry. apply app_nil_r.
Qed.

(** ** The rule primitives under [wp] *)

Ltac wp_basic :=
  lazymatch goal with
  | |- wp (bind _ _) _ _ => apply wp_bind
  | |- wp (try_except _ _) _ _ => apply wp_try_except
  | |- wp (ret _) _ _ => apply wp_ret
  | |- wp (append _) _ _ => apply wp_append
  | |- wp (call _) _ _ => apply wp_call
  | |- wp (and_assign _ _) _ _ => apply wp_and_assign
  | |- wp (read_sql _ _ _) _ _ => apply wp_read_sql
  | |- wp (read_sql_scalar _ _ _) _ _ => apply wp_read_sql_scalar
  | |- wp (if ?c then _ else _) _ _ => destruct c eqn:?
  | |- wp (match ?d with nil => _ | cons _ _ => _ end) _ _ => destruct d eqn:?
  | |- wp (match ?r with Return _ => _ | Raise _ => _ end) _ _ => destruct r eqn:?
  | |- match ?r with Return _ => _ | Raise _ => _ end => destruct r eqn:?
  end; cbv beta iota zeta.

Lemma check_post_true f : check_post f true [].
Proof. left. split; reflexivity. Qed.

Lemma check_post_rejection f seq d :
  check_post f false [ValidationResult_init REJECTION ("ERR_" ++ f ++ seq) d f].
Proof. right. split; [reflexivity |]. exists seq, d. reflexivity. Qed.

Lemma wp_validate_string value f max_length required regex Q acc :
  (forall b n, check_post f b n -> Q (Return b) (acc ++ n)) ->
  wp (validate_string value f max_length required regex) Q acc.
Proof.
  intros H. unfold validate_string.
  repeat wp_basic;
    first [ apply H, check_post_rejection
          | rewrite <- (app_nil_r acc); apply H, check_post_true ].
Qed.

Lemma wp_validate_date value f required Q acc :
  (forall b n, check_post f b n -> Q (Return b) (acc ++ n)) ->
  wp (validate_date value f required) Q acc.
Proof.
  intros H. unfold validate_date.
  repeat wp_basic;
    first [ apply H, check_post_rejection
          | rewrite <- (app_nil_r acc); apply H, check_post_true ].
Qed.

Lemma wp_validate_number value f min_value max_value Q acc :
  (forall b n, check_post f b n -> Q (Return b) (acc ++ n)) ->
  wp (validate_number value f min_value max_value) Q acc.
Proof.
  intros H. unfold validate_number. destruct value as [v |].
  - repeat wp_basic;
      first [ apply H, check_post_rejection
            | rewrite <- (app_nil_r acc); apply H, check_post_true ].
  - repeat wp_basic. apply H, check_post_rejection.
Qed.

Lemma wp_validate_code value f catalog Q acc :
  (forall b n, code_post value f catalog b n -> Q (Return b) (acc ++ n)) ->
  wp (validate_code value f catalog) Q acc.
Proof.
  intros H. unfold validate_code.
  repeat wp_basic.
  - apply H. right. split; reflexivity.
  - rewrite <- (app_nil_r acc). apply H. left. split; reflexivity.
Qed.

(** ** Symbolic execution of a validator *)

Ltac wp_exec :=
  lazymatch goal with
  | |- wp (validate_string _ _ _ _ _) _ _ => apply wp_validate_string; intros ? ? ?
  | |- wp (validate_date _ _ _) _ _ => apply wp_validate_date; intros ? ? ?
  | |- wp (validate_number _ _ _ _) _ _ => apply wp_validate_number; intros ? ? ?
  | |- wp (validate_code _ _ _) _ _ => apply wp_validate_code; intros ? ? ?
  | |- wp (Consultas_copago _ _) _ _ => unfold Consultas_copago
  | _ => wp_basic
  end; cbv beta iota zeta.

Ltac unfold_validate :=
  unfold validate, TransaccionesValidator_validate, UsuariosValidator_validate,
    ConsultasValidator_validate, ProcedimientosValidator_validate,
    UrgenciasValidator_validate, HospitalizacionValidator_validate,
    RecienNacidoValidator_validate, MedicamentosValidator_validate,
    OtrosServiciosValidator_validate.

(** *** A false verdict has a cause in the ledger *)

Lemma check_post_blocking f b n :
  check_post f b n -> b = false -> Exists blocking n.
Proof.
  intros [[-> _] | (_ & seq & d & ->)] Hb; [discriminate |].
  constructor. left. reflexivity.
Qed.

Lemma code_post_blocking value f catalog b n :
  code_post value f catalog b n -> b = false -> Exists blocking n.
Proof.
  intros [[-> _] | (_ & ->)] Hb; [discriminate |].
  constructor. right. exists value, f, catalog. reflexivity.
Qed.

Lemma Exists_app_l {A} (P : A -> Prop) l1 l2 :
  Exists P l1 -> Exists P (l1 ++ l2).
Proof. intros H. apply Exists_app. left. exact H. Qed.

Lemma Exists_app_r {A} (P : A -> Prop) l1 l2 :
  Exists P l2 -> Exists P (l1 ++ l2).
Proof. intros H. apply Exists_app. right. exact H. Qed.

Lemma Exists_blocking_rejection c d f :
  Exists blocking [ValidationResult_init REJECTION c d f].
Proof. constructor. left. reflexivity. Qed.

(** Finds a blocking outcome in a ledger built by appending. *)
Ltac find_blocking :=
  lazymatch goal with
  | |- Exists _ (_ ++ _) =>
      first [ apply Exists_app_r; find_blocking
            | apply Exists_app_l; find_blocking ]
  | |- Exists _ (cons _ nil) => apply Exists_blocking_rejection
  | |- Exists _ ?n =>
      match goal with
      | H : _ -> Exists _ n |- _ => apply H; assumption
      end
  end.

Ltac use_posts :=
  repeat match goal with
    | H : check_post _ _ _ |- _ =>
        generalize (check_post_blocking _ _ _ H); clear H; intro H
    | H : code_post _ _ _ _ _ |- _ =>
        generalize (code_post_blocking _ _ _ _ _ H); clear H; intro H
    end.

Ltac split_verdict H :=
  repeat lazymatch type of H with
    | andb _ _ = false => apply andb_false_iff in H; destruct H as [H | H]
    end;
  try discriminate H.

Ltac blocking_end :=
  let Hv := fresh "Hv" in
  intros Hv; use_posts; split_verdict Hv;
  find_blocking.

(** *** An appended blocking outcome makes the verdict false *)

Lemma not_catalog_miss_info c d f :
  c <> ("WARN_" ++ f ++ "_001")%string ->
  ~ is_catalog_miss (ValidationResult_init NOTIFICATION c d f).
Proof.
  intros Hc (value & f' & catalog & E).
  unfold catalog_miss, ValidationResult_init in E.
  injection E as E1 _ E3. subst f'. contradiction.
Qed.

(** Splits [Exists P] over a ledger built by appending, down to the check
    or the statement that appended the outcome. *)
Ltac ex_cases H :=
  lazymatch type of H with
  | Exists _ (_ ++ _) =>
      apply Exists_app in H; destruct H as [H | H]; ex_cases H
  | Exists _ nil => inversion H
  | Exists _ (cons _ nil) =>
      apply Exists_cons in H; destruct H as [H | H]; [| inversion H]
  | Exists _ ?n =>
      match goal with
      | Hp : check_post _ _ n |- _ =>
          destruct Hp as [[-> ->] | (-> & ? & ? & ->)]; ex_cases H
      | Hp : code_post _ _ _ _ n |- _ =>
          destruct Hp as [[-> ->] | [-> ->]]; ex_cases H
      end
  end.

Ltac blocked_end :=
  let Hex := fresh "Hex" in
  intros Hex; ex_cases Hex;
  first
    [ rewrite ?andb_false_r; cbn [andb]; reflexivity
    | exfalso; destruct Hex as [Hex | Hex]; [discriminate Hex |];
      revert Hex; apply not_catalog_miss_info; cbn [append]; discriminate ].

Lemma wp_validate_blocking v e key :
  wp (validate v e key)
     (fun r new => exists valid recs,
          r = Return (valid, recs) /\ (valid = false <-> Exists blocking new))
     [].
Proof.
  destruct v; unfold_validate; repeat wp_exec;
    do 2 eexists; (split; [reflexivity |]); (split; [blocking_end | blocked_end]).
Qed.

(** Every [validate] returns and only appends to its ledger; its verdict is
    false exactly when it appended a blocking outcome. *)
Lemma validate_run v e key st :
  exists valid recs st' new,
    validate v e key st = (Return (valid, recs), st') /\
    results st' = results st ++ new /\
    (valid = false <-> Exists blocking new).
Proof.
  destruct (wp_run (validate v e key) _ st (wp_validate_blocking v e key))
    as (new & Hnew & valid & recs & Hr & Hb).
  destruct (validate v e key st) as [r st'] eqn:E. cbn [fst snd] in *. subst r.
  exists valid, recs, st', new. auto.
Qed.

(** ** The processor *)

Lemma validator_eqb_eq a b : validator_eqb a b = true <-> a = b.
Proof.
  split; [| intros ->; destruct b; reflexivity].
  destruct a, b; intros H; try reflexivity; discriminate H.
Qed.

Lemma set_ledger_same l v x : set_ledger l v x v = x.
Proof.
  unfold set_ledger. now rewrite (proj2 (validator_eqb_eq v v) eq_refl).
Qed.

Lemma set_ledger_other l v x v' : v <> v' -> set_ledger l v x v' = l v'.
Proof.
  intros Hne. unfold set_ledger.
  destruct (validator_eqb v v') eqn:E; [| reflexivity].
  apply validator_eqb_eq in E. contradiction.
Qed.

Lemma has_rejections_app l1 l2 :
  has_rejections (l1 ++ l2) = has_rejections l1 || has_rejections l2.
Proof. apply existsb_app. Qed.

(** What [process] does on a known tag, in terms of the run of the
    validator. *)
Lemma process_known e file_type key w v :
  validators_get validators file_type = Some v ->
  exists is_valid recs st' new,
    validate v e key (mkSelf (ledger w v) (queries w)) = (Return (is_valid, recs), st') /\
    results st' = ledger w v ++ new /\
    (is_valid = false <-> Exists blocking new) /\
    process e file_type key w =
      let w1 := mkWorld (set_ledger (ledger w) v (results st')) (sql_log st') (files w) in
      if is_valid && negb (has_rejections (results st')) then
        match open_write (json_file file_type key) with
        | Raise msg => (Raise msg, w1)
        | Return _ =>
            (Return (mkResponse true (map to_dict (results st')) true
                       (Some (json_file file_type key))),
             mkWorld (ledger w1) (queries w1)
               (files w ++ [(json_file file_type key, recs)]))
        end
      else (Return (mkResponse false (map to_dict (results st')) false None), w1).
Proof.
  intros Hv.
  destruct (validate_run v e key (mkSelf (ledger w v) (queries w)))
    as (is_valid & recs & st' & new & Hrun & Hnew & Hb).
  exists is_valid, recs, st', new.
  split; [exact Hrun |]. split; [exact Hnew |]. split; [exact Hb |].
  unfold process. rewrite Hv, Hrun. cbv zeta.
  destruct (is_valid && negb (has_rejections (results st'))); reflexivity.
Qed.

(** The ledger of the called validator after [process]: what [validate]
    left, whether the call returns or raises. *)
Lemma process_ledger e file_type key w v :
  validators_get validators file_type = Some v ->
  exists new,
    ledger (snd (process e file_type key w)) v = ledger w v ++ new /\
    forall v', v' <> v -> ledger (snd (process e file_type key w)) v' = ledger w v'.
Proof.
  intros Hv.
  destruct (process_known e file_type key w v Hv)
    as (is_valid & recs & st' & new & _ & Hnew & _ & Hp).
  exists new. rewrite Hp. cbv zeta.
  destruct (is_valid && negb (has_rejections (results st')));
    [destruct (open_write (json_file file_type key)) |];
    cbn [snd ledger];
    (split; [rewrite set_ledger_same; exact Hnew
            | intros v' Hne; apply set_ledger_other; congruence]).
Qed.

Lemma process_unknown e file_type key w :
  validators_get validators file_type = None ->
  process e file_type key w = (Return (unsupported_response file_type), w).
Proof.
  intros Hv. unfold process. rewrite Hv. reflexivity.
Qed.

(** A Rejection in a ledger stays there through any call. *)
Lemma process_keeps_rejection e file_type key w v :
  has_rejections (ledger w v) = true ->
  has_rejections (ledger (snd (process e file_type key w)) v) = true.
Proof.
  intros Hrej.
  destruct (validators_get validators file_type) as [v' |] eqn:Hv.
  - destruct (process_ledger e file_type key w v' Hv) as (new & Hsame & Hother).
    destruct (validator_eqb v v') eqn:E.
    + apply validator_eqb_eq in E. subst v'.
      rewrite Hsame, has_rejections_app, Hrej. reflexivity.
    + rewrite Hother; [exact Hrej |].
      intros ->. rewrite (proj2 (validator_eqb_eq v' v') eq_refl) in E. discriminate E.
  - rewrite (process_unknown e file_type key w Hv). exact Hrej.
Qed.

Lemma process_calls_keep_rejection calls w v :
  has_rejections (ledger w v) = true ->
  has_rejections (ledger (process_calls calls w) v) = true.
Proof.
  revert w. induction calls as [| [[e file_type] key] calls IH]; intros w Hrej.
  - exact Hrej.
  - cbn [process_calls]. apply IH, process_keeps_rejection, Hrej.
Qed.

Lemma validate_not_found v e key st :
  select_rows e (validator_query v) (Str key) = Return [] ->
  validate v e key st =
    (Return (false, []),
     mkSelf (results st ++ [not_found v key])
            (sql_log st ++ [(validator_query v, Str key)])).
Proof.
  intros H.
  destruct v; unfold_validate; unfold try_except, bind, read_sql;
    cbn [validator_query] in H; rewrite H; reflexivity.
Qed.

(** ** The claims about the processor *)

(** C8. A call of [process] with a tag that is not in the registry (such as
    "ZZ") returns at once the response [valid = false], [exported = false]
    whose only outcome is the Rejection "ERR_GEN_001"; the world is left as
    it was: no ledger touched (no validator invoked), no query sent to the
    engine, no file written. *)
Theorem process_unknown_tag e file_type key w :
  validators_get validators file_type = None ->
  process e file_type key w = (Return (unsupported_response file_type), w) /\
  Valid (unsupported_response file_type) = false /\
  JSONGenerated (unsupported_response file_type) = false /\
  JSONFile (unsupported_response file_type) = None /\
  response_codes (unsupported_response file_type) = [Some "ERR_GEN_001"] /\
  map (fun d => dict_get d "Clase") (ValidationResults (unsupported_response file_type))
    = [Some (ValidationResultType_value REJECTION)].
Proof.
  intros Hv.
  split; [apply process_unknown, Hv |].
  repeat split.
Qed.

(** C5. For every record type, when the keyed fetch returns no row,
    [validate] appends exactly one outcome, the Rejection with the "not
    found" code of the type, and returns [(false, [])] without a further
    query; the response of [process] then has [valid = false] and
    [exported = false], and no file is written. *)
Theorem zero_rows_rejected e file_type key w v :
  validators_get validators file_type = Some v ->
  select_rows e (validator_query v) (Str key) = Return [] ->
  (forall st,
      validate v e key st =
        (Return (false, []),
         mkSelf (results st ++ [not_found v key])
                (sql_log st ++ [(validator_query v, Str key)]))) /\
  is_rejection (not_found v key) = true /\
  code (not_found v key) = not_found_code v /\
  exists resp w',
    process e file_type key w = (Return resp, w') /\
    Valid resp = false /\ JSONGenerated resp = false /\ JSONFile resp = None /\
    ledger w' v = ledger w v ++ [not_found v key] /\
    files w' = files w.
Proof.
  intros Hv Hrows.
  split; [intros st; apply validate_not_found, Hrows |].
  split; [reflexivity |]. split; [reflexivity |].
  unfold process. rewrite Hv, (validate_not_found v e key _ Hrows).
  cbv zeta. cbn [andb].
  eexists. eexists. split; [reflexivity |].
  cbn [Valid JSONGenerated JSONFile ledger files results].
  rewrite set_ledger_same. repeat split.
Qed.

(** C3. On a known tag, when the ledger of the validator holds a Rejection
    after [validate], [process] returns a response with [valid = false] and
    [exported = false] and writes no file, whatever boolean the validator
    returned; and a returned response is exported exactly when it is valid:
    [exported = valid], the records are written under the name derived from
    the tag and the key when valid, and nothing is written otherwise. *)
Theorem rejection_blocks_export e file_type key w v :
  validators_get validators file_type = Some v ->
  exists is_valid recs st',
    validate v e key (mkSelf (ledger w v) (queries w)) = (Return (is_valid, recs), st') /\
    ledger (snd (process e file_type key w)) v = results st' /\
    (has_rejections (results st') = true ->
       exists resp,
         fst (process e file_type key w) = Return resp /\
         Valid resp = false /\ JSONGenerated resp = false /\
         files (snd (process e file_type key w)) = files w) /\
    (forall resp,
       fst (process e file_type key w) = Return resp ->
       Valid resp = is_valid && negb (has_rejections (results st')) /\
       JSONGenerated resp = Valid resp /\
       (Valid resp = true ->
          JSONFile resp = Some (json_file file_type key) /\
          files (snd (process e file_type key w))
            = files w ++ [(json_file file_type key, recs)]) /\
       (Valid resp = false ->
          JSONFile resp = None /\
          files (snd (process e file_type key w)) = files w)).
Proof.
  intros Hv.
  destruct (process_known e file_type key w v Hv)
    as (is_valid & recs & st' & new & Hrun & _ & _ & Hp).
  exists is_valid, recs, st'. split; [exact Hrun |].
  rewrite Hp. cbv zeta.
  destruct (has_rejections (results st')) eqn:Hrej.
  - rewrite andb_false_r. cbn [fst snd ledger files].
    split; [apply set_ledger_same |].
    split.
    + intros _. eexists. split; [reflexivity |]. repeat split.
    + intros resp [= <-]. cbn [Valid JSONGenerated JSONFile].
      repeat split; easy.
  - rewrite andb_true_r. destruct is_valid.
    + destruct (open_write (json_file file_type key)); cbn [fst snd ledger files].
      * split; [apply set_ledger_same |].
        split; [easy |].
        intros resp [= <-]. cbn [Valid JSONGenerated JSONFile].
        repeat split; easy.
      * split; [apply set_ledger_same |].
        split; [easy |].
        easy.
    + cbn [fst snd ledger files].
      split; [apply set_ledger_same |].
      split; [easy |].
      intros resp [= <-]. cbn [Valid JSONGenerated JSONFile].
      repeat split; easy.
Qed.

(** C10. Once the ledger of a validator holds a Rejection, every later call
    of [process] with the tag of that validator, after any calls in between
    and whatever the engine then answers, returns a response with
    [valid = false] and [exported = false], and the Rejection is still in
    the ledger afterwards. *)
Theorem rejection_poisons_validator e file_type key v w calls :
  validators_get validators file_type = Some v ->
  has_rejections (ledger w v) = true ->
  exists resp w',
    process e file_type key (process_calls calls w) = (Return resp, w') /\
    Valid resp = false /\ JSONGenerated resp = false /\
    files w' = files (process_calls calls w) /\
    has_rejections (ledger w' v) = true.
Proof.
  intros Hv Hrej.
  pose proof (process_calls_keep_rejection calls w v Hrej) as Hnow.
  pose proof (process_keeps_rejection e file_type key _ v Hnow) as Hafter.
  destruct (process_known e file_type key (process_calls calls w) v Hv)
    as (is_valid & recs & st' & new & _ & Hnew & _ & Hp).
  rewrite Hp in Hafter |- *. cbv zeta in Hafter |- *.
  assert (Hst : has_rejections (results st') = true).
  { rewrite Hnew, has_rejections_app, Hnow. reflexivity. }
  rewrite Hst, andb_false_r in Hafter |- *.
  eexists. eexists. split; [reflexivity |].
  cbn [Valid JSONGenerated files]. repeat split. exact Hafter.
Qed.

(** ** The claims about the rule primitives and the verdict *)

(** C7 (amended). In every call of [validate_string] the checks run in the
    order required, too long, pattern; the first that fails appends its one
    Rejection and ends the call with [false], so at most one outcome is
    appended; with no failing check nothing is appended and the call
    returns [true]. The required check tests the trimmed value for
    emptiness; the length and the pattern are checked on the value as it was
    given, not trimmed. *)
Theorem validate_string_checks value f max_length required regex st :
  let required_fails := required && is_blank value in
  let too_long := truthy value && (max_length <? String.length (str value))%nat in
  let mismatch :=
    truthy value
    && match regex with
       | Some re => negb (re =? "")%string && negb (re_match re (str value))
       | None => false
       end in
  exists b new,
    validate_string value f max_length required regex st
      = (Return b, mkSelf (results st ++ new) (sql_log st)) /\
    (length new <= 1)%nat /\
    (b = true <-> new = []) /\
    (required_fails = true -> new = [required_rejection f]) /\
    (required_fails = false -> too_long = true ->
       new = [too_long_rejection f max_length]) /\
    (required_fails = false -> too_long = false -> mismatch = true ->
       new = [pattern_rejection f]) /\
    (required_fails = false -> too_long = false -> mismatch = false ->
       new = []).
Proof.
  cbv zeta. unfold validate_string.
  destruct (required && is_blank value);
    [| destruct (truthy value && (max_length <? String.length (str value))%nat);
       [| destruct (truthy value
                    && match regex with
                       | Some re => negb (re =? "")%string && negb (re_match re (str value))
                       | None => false
                       end)]].
  - exists false, [required_rejection f].
    repeat split; first [reflexivity | easy | cbn [length]; lia].
  - exists false, [too_long_rejection f max_length].
    repeat split; first [reflexivity | easy | cbn [length]; lia].
  - exists false, [pattern_rejection f].
    repeat split; first [reflexivity | easy | cbn [length]; lia].
  - exists true, []. split.
    + unfold ret. rewrite app_nil_r. destruct st; reflexivity.
    + repeat split; first [reflexivity | easy | cbn [length]; lia].
Qed.

Lemma has_rejections_false l :
  has_rejections l = false <-> forall o, In o l -> is_rejection o = false.
Proof.
  unfold has_rejections. split.
  - intros H o Hin. destruct (is_rejection o) eqn:E; [| reflexivity].
    rewrite <- H. symmetry. apply existsb_exists. exists o. auto.
  - intros H. destruct (existsb is_rejection l) eqn:E; [| reflexivity].
    apply existsb_exists in E. destruct E as (o & Hin & Ho).
    rewrite (H o Hin) in Ho. discriminate Ho.
Qed.

(** C1 (amended). A catalog miss appends a Notification and no Rejection,
    yet [validate_code] returns [false] and the validators fold that into
    the verdict. What holds for every record type: the verdict of a
    [validate] call is false exactly when the call appended a Rejection or
    a catalog-miss Notification, so a call that appends neither returns
    [valid = true] (other Notifications never make it false); and when the
    ledger held no Rejection before, a response returned for a call that
    appends neither has [valid = true]. *)
Theorem verdict_false_iff_rejection_or_catalog_miss v e key :
  (forall st, exists valid recs st' new,
      validate v e key st = (Return (valid, recs), st') /\
      results st' = results st ++ new /\
      (valid = false <->
       Exists (fun o => is_rejection o = true \/ is_catalog_miss o) new) /\
      ((forall o, In o new -> is_rejection o = false /\ ~ is_catalog_miss o) ->
       valid = true)) /\
  (forall file_type w,
      validators_get validators file_type = Some v ->
      has_rejections (ledger w v) = false ->
      exists new,
        ledger (snd (process e file_type key w)) v = ledger w v ++ new /\
        ((forall o, In o new -> is_rejection o = false /\ ~ is_catalog_miss o) ->
         forall resp, fst (process e file_type key w) = Return resp ->
                      Valid resp = true)).
Proof.
  assert (Hcause : forall (valid : bool) new,
             (valid = false <-> Exists blocking new) ->
             (forall o, In o new -> is_rejection o = false /\ ~ is_catalog_miss o) ->
             valid = true).
  { intros valid new Hb Hnone. destruct valid; [reflexivity |].
    destruct (proj1 (Exists_exists _ _) (proj1 Hb eq_refl)) as (o & Hin & Ho).
    destruct (Hnone o Hin) as [Hr Hc].
    destruct Ho as [Ho | Ho]; [rewrite Hr in Ho; discriminate Ho | contradiction]. }
  split.
  - intros st.
    destruct (validate_run v e key st) as (valid & recs & st' & new & Hrun & Hnew & Hb).
    exists valid, recs, st', new.
    split; [exact Hrun |]. split; [exact Hnew |]. split; [exact Hb |].
    apply Hcause, Hb.
  - intros file_type w Hv Hclean.
    destruct (process_known e file_type key w v Hv)
      as (is_valid & recs & st' & new & _ & Hnew & Hb & Hp).
    exists new. rewrite Hp. cbv zeta. split.
    + destruct (is_valid && negb (has_rejections (results st')));
        [destruct (open_write (json_file file_type key)) |];
        cbn [snd ledger]; rewrite set_ledger_same; exact Hnew.
    + intros Hnone resp.
      assert (Hst : has_rejections (results st') = false).
      { rewrite Hnew, has_rejections_app, Hclean. cbn [orb].
        apply has_rejections_false. intros o Hin. apply Hnone, Hin. }
      rewrite Hst, (Hcause is_valid new Hb Hnone). cbn [andb negb].
      destruct (open_write (json_file file_type key)); cbn [fst]; [| easy].
      intros [= <-]. reflexivity.
Qed.

(** ** Dates that do not parse (Hospitalización) *)

Lemma wp_validate_date_exact value f required Q acc :
  Q (Return (passed (date_outcomes value f required)))
    (acc ++ date_outcomes value f required) ->
  wp (validate_date value f required) Q acc.
Proof.
  unfold validate_date, date_outcomes. intros H.
  destruct (required && is_blank value);
    [| destruct (truthy value); [destruct (strptime (str value)) |]];
    cbn [passed] in H; repeat wp_basic;
    first [exact H | rewrite app_nil_r in H; exact H].
Qed.

Lemma date_outcomes_unparsable value f m :
  truthy value = true ->
  strptime (str value) = Raise m ->
  date_outcomes value f true
    = [if is_blank value then required_rejection f else date_format_rejection f].
Proof.
  intros Ht Hm. unfold date_outcomes. rewrite Ht, Hm. cbn [andb].
  destruct (is_blank value); reflexivity.
Qed.

Lemma date_outcomes_field value f required o :
  In o (date_outcomes value f required) -> field o = f.
Proof.
  unfold date_outcomes.
  destruct (required && is_blank value);
    [| destruct (truthy value); [destruct (strptime (str value)) |]];
    cbn [In]; intros H; try contradiction;
    destruct H as [<- | []]; reflexivity.
Qed.

(** Finds an element in a ledger built by appending. *)
Ltac find_in :=
  lazymatch goal with
  | |- In _ (_ ++ _) =>
      apply in_or_app; first [ right; find_in | left; find_in ]
  | |- In _ (cons _ _) => first [ left; reflexivity | right; find_in ]
  end.

(** Splits [In o pre] over the outcomes appended before the dates are
    compared, down to an equation on [o] or on its field. *)
Ltac in_checks Hin :=
  lazymatch type of Hin with
  | In _ (_ ++ _) =>
      apply in_app_or in Hin; destruct Hin as [Hin | Hin]; in_checks Hin
  | In _ nil => destruct Hin
  | In _ (cons _ _) => destruct Hin as [Hin | Hin]; [| in_checks Hin]
  | In _ (date_outcomes _ _ _) => apply date_outcomes_field in Hin
  | In _ ?n =>
      match goal with
      | H : check_post _ _ n |- _ =>
          destruct H as [[_ ->] | (_ & ? & ? & ->)]; in_checks Hin
      | H : code_post _ _ _ _ n |- _ =>
          destruct H as [[_ ->] | [_ ->]]; in_checks Hin
      end
  end.

Lemma wp_hospitalizacion_unparsable e key record rest :
  select_rows e Hospitalizacion_query (Str key) = Return (record :: rest) ->
  truthy (txt record "fechaIngreso") = true ->
  truthy (txt record "fechaEgreso") = true ->
  ((exists m, strptime (str (txt record "fechaIngreso")) = Raise m) \/
   (exists m, strptime (str (txt record "fechaEgreso")) = Raise m)) ->
  wp (validate HospitalizacionValidator e key)
     (fun r new =>
        r = Return (false, []) /\
        exists pre msg,
          new = pre ++ [query_error HospitalizacionValidator msg] /\
          (strptime (str (txt record "fechaIngreso")) = Raise msg \/
           (exists t, strptime (str (txt record "fechaIngreso")) = Return t) /\
           strptime (str (txt record "fechaEgreso")) = Raise msg) /\
          forall f m,
            f = "fechaIngreso" \/ f = "fechaEgreso" ->
            strptime (str (txt record f)) = Raise m ->
            (is_blank (txt record f) = false ->
               In (date_format_rejection f) pre) /\
            (is_blank (txt record f) = true ->
               In (required_rejection f) pre /\
               ~ In (date_format_rejection f) pre))
     [].
Proof.
  intros Hrows Hi He Hbad.
  unfold_validate. apply wp_try_except, wp_bind, wp_read_sql.
  rewrite Hrows. cbv beta iota zeta.
  repeat first [ apply wp_validate_date_exact; cbv beta iota zeta | wp_exec ];
    try (exfalso; rewrite Hi, He in *; discriminate);
    try (exfalso; destruct Hbad as [[m Hm] | [m Hm]]; congruence).
  all: split; [reflexivity |].
  all: eexists; eexists; split; [reflexivity |].
  all: split;
    [ first [ left; reflexivity
            | right; split; [eexists; reflexivity | reflexivity] ] |].
  all: intros f m [-> | ->] Hm;
    try (exfalso; congruence);
    first [ rewrite (date_outcomes_unparsable (txt record "fechaIngreso")
                       "fechaIngreso" m Hi Hm)
          | rewrite (date_outcomes_unparsable (txt record "fechaEgreso")
                       "fechaEgreso" m He Hm) ].
  all: split; intros Hb; rewrite Hb; [find_in | split; [find_in |]].
  all: intros Hin; in_checks Hin; discriminate Hin.
Qed.

(** C9 (amended). A hospitalization record whose [fechaIngreso] and
    [fechaEgreso] are both non-empty and of which at least one does not
    parse: [validate] ends by appending the Rejection "ERR_AH_004", with
    the message of the first date that failed to parse, and returns
    [(false, [])], so the fetched record is dropped. Before that,
    [validate_date] appended one Rejection for every date that does not
    parse: the date-format Rejection "ERR_<field>_004" when the value holds
    a character that is not a space; when the value is nothing but spaces,
    the required Rejection "ERR_<field>_001" and no date-format Rejection
    for that field. *)
Theorem hospitalizacion_unparsable_date e key st record rest :
  select_rows e Hospitalizacion_query (Str key) = Return (record :: rest) ->
  truthy (txt record "fechaIngreso") = true ->
  truthy (txt record "fechaEgreso") = true ->
  ((exists m, strptime (str (txt record "fechaIngreso")) = Raise m) \/
   (exists m, strptime (str (txt record "fechaEgreso")) = Raise m)) ->
  exists st' pre msg,
    validate HospitalizacionValidator e key st = (Return (false, []), st') /\
    results st' = results st ++ pre ++ [query_error HospitalizacionValidator msg] /\
    is_rejection (query_error HospitalizacionValidator msg) = true /\
    code (query_error HospitalizacionValidator msg) = "ERR_AH_004" /\
    (strptime (str (txt record "fechaIngreso")) = Raise msg \/
     (exists t, strptime (str (txt record "fechaIngreso")) = Return t) /\
     strptime (str (txt record "fechaEgreso")) = Raise msg) /\
    forall f m,
      f = "fechaIngreso" \/ f = "fechaEgreso" ->
      strptime (str (txt record f)) = Raise m ->
      (is_blank (txt record f) = false ->
         In (date_format_rejection f) pre) /\
      (is_blank (txt record f) = true ->
         In (required_rejection f) pre /\
         ~ In (date_format_rejection f) pre).
Proof.
  intros Hrows Hi He Hbad.
  destruct (wp_run (validate HospitalizacionValidator e key) _ st
              (wp_hospitalizacion_unparsable e key record rest Hrows Hi He Hbad))
    as (new & Hnew & Hr & pre & msg & -> & Hmsg & Hpre).
  destruct (validate HospitalizacionValidator e key st) as [r st'].
  cbn [fst snd] in *. subst r.
  exists st', pre, msg.
  split; [reflexivity |]. split; [exact Hnew |].
  split; [reflexivity |]. split; [reflexivity |].
  split; [exact Hmsg | exact Hpre].
Qed.

(** ** The copay rule (Consultas) *)

Ltac in_cases Hin :=
  lazymatch type of Hin with
  | In _ (_ ++ _) =>
      apply in_app_or in Hin; destruct Hin as [Hin | Hin]; in_cases Hin
  | In _ nil => destruct Hin
  | In _ (cons _ _) => destruct Hin as [Hin | Hin]; [subst | in_cases Hin]
  | In _ ?n =>
      match goal with
      | H : check_post _ _ n |- _ =>
          destruct H as [[_ ->] | (_ & ? & ? & ->)]; in_cases Hin
      | H : code_post _ _ _ _ n |- _ =>
          destruct H as [[_ ->] | [_ ->]]; in_cases Hin
      end
  end.

Lemma wp_consultas_copago e key record rest c :
  select_rows e Consultas_query (Str key) = Return (record :: rest) ->
  txt record "codConsulta" = Str c ->
  c <> "" ->
  txt record "conceptoRecaudo" = Str "01" ->
  wp (validate ConsultasValidator e key)
     (fun r new =>
        exists valid recs,
          r = Return (valid, recs) /\
          (PyStr.mem c ["890501"; "890601"] = false ->
             In copago_no_permitido new /\ valid = false) /\
          (PyStr.mem c ["890501"; "890601"] = true ->
             In copago_permitido new /\
             forall o, In o new -> code o <> "ERR_AC_002"))
     [].
Proof.
  intros Hrows Hc Hne Hre.
  assert (Ht : truthy (Str c) = true).
  { cbn [truthy]. destruct (c =? "")%string eqn:E; [| reflexivity].
    apply String.eqb_eq in E. contradiction. }
  unfold_validate. unfold Consultas_copago.
  apply wp_try_except, wp_bind, wp_read_sql.
  rewrite Hrows. cbv beta iota zeta. rewrite !Hc, !Hre, !Ht.
  change (text_eqb (Str "01") "01") with true.
  change (text_in (Str c) ["890501"; "890601"])
    with (PyStr.mem c ["890501"; "890601"]).
  destruct (PyStr.mem c ["890501"; "890601"]); cbn [andb negb];
    repeat wp_exec; do 2 eexists; (split; [reflexivity |]); split;
    try (intros Hx; discriminate Hx); intros _; split;
    try find_in; try (cbn [andb]; reflexivity).
  all: intros o Hin; in_cases Hin;
    cbn [code ValidationResult_init catalog_miss append]; discriminate.
Qed.

(** C6. A consultation record with a non-empty service code and
    concept-recaudo "01". When the service code is not "890501" or "890601",
    [validate] appends the Rejection "ERR_AC_002" and its verdict is false.
    When it is one of the two, [validate] appends the Notification
    "INFO_AC_001" and no outcome coded "ERR_AC_002"; the copay rule itself
    then appends that one Notification and leaves the verdict as it was. *)
Theorem consultas_copago_rule e key st record rest c :
  select_rows e Consultas_query (Str key) = Return (record :: rest) ->
  txt record "codConsulta" = Str c ->
  c <> "" ->
  txt record "conceptoRecaudo" = Str "01" ->
  (exists valid recs st' new,
      validate ConsultasValidator e key st = (Return (valid, recs), st') /\
      results st' = results st ++ new /\
      (PyStr.mem c ["890501"; "890601"] = false ->
         In copago_no_permitido new /\ valid = false) /\
      (PyStr.mem c ["890501"; "890601"] = true ->
         In copago_permitido new /\
         forall o, In o new -> code o <> "ERR_AC_002")) /\
  (forall valid st0,
      PyStr.mem c ["890501"; "890601"] = true ->
      Consultas_copago record valid st0
        = (Return valid, mkSelf (results st0 ++ [copago_permitido]) (sql_log st0))) /\
  (forall valid st0,
      PyStr.mem c ["890501"; "890601"] = false ->
      Consultas_copago record valid st0
        = (Return false, mkSelf (results st0 ++ [copago_no_permitido]) (sql_log st0))) /\
  result_type copago_permitido = NOTIFICATION /\
  code copago_permitido = "INFO_AC_001" /\
  result_type copago_no_permitido = REJECTION /\
  code copago_no_permitido = "ERR_AC_002".
Proof.
  intros Hrows Hc Hne Hre. split; [| split; [| split]].
  - destruct (wp_run (validate ConsultasValidator e key) _ st
                (wp_consultas_copago e key record rest c Hrows Hc Hne Hre))
      as (new & Hnew & valid & recs & Hr & Hno & Hyes).
    destruct (validate ConsultasValidator e key st) as [r st'].
    cbn [fst snd] in *. subst r.
    exists valid, recs, st', new.
    split; [reflexivity |]. split; [exact Hnew |]. split; assumption.
  - intros valid st0 Hmem. unfold Consultas_copago.
    rewrite Hc, Hre. cbn [text_in text_eqb]. rewrite Hmem. reflexivity.
  - intros valid st0 Hmem. unfold Consultas_copago.
    rewrite Hc, Hre. cbn [text_in text_eqb]. rewrite Hmem. reflexivity.
  - repeat split.
Qed.

(** ** Failures of the storage layer and of the export *)

Lemma validate_query_error v e key st msg :
  select_rows e (validator_query v) (Str key) = Raise msg ->
  validate v e key st =
    (Return (false, []),
     mkSelf (results st ++ [query_error v msg])
            (sql_log st ++ [(validator_query v, Str key)])).
Proof.
  intros H.
  destruct v; unfold_validate; unfold try_except, bind, read_sql;
    cbn [validator_query] in H; rewrite H; reflexivity.
Qed.

Lemma wp_cross_reference_failure v e key record rest msg :
  cross_references v = true ->
  select_rows e (validator_query v) (Str key) = Return (record :: rest) ->
  (forall q k, select_count e q k = Raise msg) ->
  wp (validate v e key)
     (fun r new =>
        r = Return (false, []) /\
        exists pre msg',
          new = pre ++ [query_error v msg'] /\
          (v <> HospitalizacionValidator -> msg' = msg))
     [].
Proof.
  intros Hcross Hrows Hcount.
  destruct v; try discriminate Hcross; cbn [validator_query] in Hrows;
    unfold_validate; apply wp_try_except, wp_bind, wp_read_sql;
    rewrite Hrows; cbv beta iota zeta;
    repeat wp_exec;
    repeat match goal with
      | H : select_count _ _ _ = _ |- _ => rewrite Hcount in H
      end;
    try discriminate;
    (split; [reflexivity |]); eexists; eexists; (split; [reflexivity |]);
    first [ intros _; congruence | intros Hne; exfalso; apply Hne; reflexivity ].
Qed.

(** C4 (amended). No validator ever raises: every exception inside
    [validate] is turned into the query-error Rejection of the record type,
    carrying the message, and the call returns [(false, [])]. This holds
    for a failure of the keyed fetch and of the beneficiary look-up. The
    export is not guarded: on a known tag [process] raises exactly when the
    boolean returned by [validate] is true, the ledger holds no Rejection
    and writing the file fails, and it then raises the error of the write;
    whenever that boolean is false or the ledger holds a Rejection it
    returns a response with [valid = false] and [exported = false],
    whether the write would fail or not. On an unknown tag it returns the
    fixed response. *)
Theorem failures_recovered_except_export e file_type key w :
  (forall v st, exists valid recs st',
      validate v e key st = (Return (valid, recs), st')) /\
  (forall v st msg,
      select_rows e (validator_query v) (Str key) = Raise msg ->
      validate v e key st =
        (Return (false, []),
         mkSelf (results st ++ [query_error v msg])
                (sql_log st ++ [(validator_query v, Str key)])) /\
      is_rejection (query_error v msg) = true /\
      code (query_error v msg) = query_error_code v) /\
  (forall v st record rest msg,
      cross_references v = true ->
      select_rows e (validator_query v) (Str key) = Return (record :: rest) ->
      (forall q k, select_count e q k = Raise msg) ->
      exists st' pre msg',
        validate v e key st = (Return (false, []), st') /\
        results st' = results st ++ pre ++ [query_error v msg'] /\
        (v <> HospitalizacionValidator -> msg' = msg)) /\
  (forall msg w',
      process e file_type key w = (Raise msg, w') ->
      open_write (json_file file_type key) = Raise msg /\
      files w' = files w /\
      exists v,
        validators_get validators file_type = Some v /\
        has_rejections (ledger w' v) = false) /\
  ((forall msg, open_write (json_file file_type key) <> Raise msg) ->
   exists resp w', process e file_type key w = (Return resp, w')) /\
  (forall v,
      validators_get validators file_type = Some v ->
      exists is_valid recs st',
        validate v e key (mkSelf (ledger w v) (queries w))
          = (Return (is_valid, recs), st') /\
        (forall msg,
            fst (process e file_type key w) = Raise msg <->
            is_valid = true /\ has_rejections (results st') = false /\
            open_write (json_file file_type key) = Raise msg) /\
        (is_valid = false \/ has_rejections (results st') = true ->
         exists resp,
           fst (process e file_type key w) = Return resp /\
           Valid resp = false /\ JSONGenerated resp = false)) /\
  (validators_get validators file_type = None ->
   fst (process e file_type key w) = Return (unsupported_response file_type)).
Proof.
  split; [| split; [| split; [| split; [| split; [| split]]]]].
  - intros v st.
    destruct (validate_run v e key st) as (valid & recs & st' & _ & Hrun & _).
    exists valid, recs, st'. exact Hrun.
  - intros v st msg Hfetch.
    split; [apply validate_query_error, Hfetch |]. destruct v; split; reflexivity.
  - intros v st record rest msg Hcross Hrows Hcount.
    destruct (wp_run (validate v e key) _ st
                (wp_cross_reference_failure v e key record rest msg Hcross Hrows Hcount))
      as (new & Hnew & Hr & pre & msg' & -> & Hmsg).
    destruct (validate v e key st) as [r st']. cbn [fst snd] in *. subst r.
    exists st', pre, msg'. split; [reflexivity |]. split; assumption.
  - intros msg w' Hraise.
    destruct (validators_get validators file_type) as [v |] eqn:Hv.
    + destruct (process_known e file_type key w v Hv)
        as (is_valid & recs & st' & new & _ & _ & _ & Hp).
      rewrite Hp in Hraise. cbv zeta in Hraise.
      destruct (is_valid && negb (has_rejections (results st'))) eqn:Hok;
        [| discriminate Hraise].
      destruct (open_write (json_file file_type key)) as [u | msg0];
        [discriminate Hraise |].
      injection Hraise as <- <-. split; [reflexivity |].
      split; [reflexivity |].
      exists v. split; [reflexivity |]. cbn [ledger].
      rewrite set_ledger_same.
      apply andb_true_iff in Hok. destruct Hok as [_ Hok].
      apply negb_true_iff in Hok. exact Hok.
    + rewrite (process_unknown e file_type key w Hv) in Hraise.
      discriminate Hraise.
  - intros Hwrite.
    destruct (validators_get validators file_type) as [v |] eqn:Hv.
    + destruct (process_known e file_type key w v Hv)
        as (is_valid & recs & st' & new & _ & _ & _ & Hp).
      rewrite Hp. cbv zeta.
      destruct (is_valid && negb (has_rejections (results st')));
        [| eexists; eexists; reflexivity].
      destruct (open_write (json_file file_type key)) as [u | msg0] eqn:Ho;
        [eexists; eexists; reflexivity |].
      exfalso. apply (Hwrite msg0). reflexivity.
    + rewrite (process_unknown e file_type key w Hv).
      eexists; eexists; reflexivity.
  - intros v Hv.
    destruct (process_known e file_type key w v Hv)
      as (is_valid & recs & st' & new & Hrun & _ & _ & Hp).
    exists is_valid, recs, st'. split; [exact Hrun |].
    rewrite Hp. cbv zeta.
    destruct is_valid, (has_rejections (results st')); cbn [andb negb fst].
    + split; [split; [discriminate | intros (_ & H & _); discriminate H] |].
      intros _. eexists. repeat split.
    + destruct (open_write (json_file file_type key)) as [u | msg0]; cbn [fst].
      * split; [split; [discriminate | intros (_ & _ & H); discriminate H] |].
        intros [H | H]; discriminate H.
      * split; [| intros [H | H]; discriminate H].
        intros msg. split.
        -- intros [= ->]. repeat split.
        -- intros (_ & _ & [= ->]). reflexivity.
    + split; [split; [discriminate | intros (H & _); discriminate H] |].
      intros _. eexists. repeat split.
    + split; [split; [discriminate | intros (H & _); discriminate H] |].
      intros _. eexists. repeat split.
  - intros Hv. rewrite (process_unknown e file_type key w Hv). reflexivity.
Qed.

(** ** Exact rules for the rule primitives *)

Lemma wp_validate_string_exact value f max_length required regex Q acc :
  Q (Return (passed (string_outcomes value f max_length required regex)))
    (acc ++ string_outcomes value f max_length required regex) ->
  wp (validate_string value f max_length required regex) Q acc.
Proof.
  unfold validate_string, string_outcomes. intros H.
  repeat wp_basic; cbn [passed] in H;
    first [exact H | rewrite app_nil_r in H; exact H].
Qed.

Lemma wp_validate_code_exact value f catalog Q acc :
  Q (Return (passed (code_outcomes value f catalog)))
    (acc ++ code_outcomes value f catalog) ->
  wp (validate_code value f catalog) Q acc.
Proof.
  unfold validate_code, code_outcomes. intros H.
  repeat wp_basic; cbn [passed] in H;
    first [exact H | rewrite app_nil_r in H; exact H].
Qed.

Lemma wp_validate_number_exact value f min_value max_value Q acc :
  Q (Return (passed (number_outcomes value f min_value max_value)))
    (acc ++ number_outcomes value f min_value max_value) ->
  wp (validate_number value f min_value max_value) Q acc.
Proof.
  unfold validate_number, number_outcomes. intros H.
  destruct value as [x |]; repeat wp_basic; cbn [passed] in H;
    first [exact H | rewrite app_nil_r in H; exact H].
Qed.

Ltac wp_exact :=
  lazymatch goal with
  | |- wp (validate_string _ _ _ _ _) _ _ => apply wp_validate_string_exact
  | |- wp (validate_date _ _ _) _ _ => apply wp_validate_date_exact
  | |- wp (validate_number _ _ _ _) _ _ => apply wp_validate_number_exact
  | |- wp (validate_code _ _ _) _ _ => apply wp_validate_code_exact
  | |- wp (Consultas_copago _ _) _ _ => unfold Consultas_copago
  | _ => wp_basic
  end; cbv beta iota zeta.

(** ** When a check passes *)

Lemma is_blank_truthy value : is_blank value = false -> truthy value = true.
Proof.
  destruct value as [| | s]; [discriminate | reflexivity |].
  destruct s; [discriminate | reflexivity].
Qed.

Lemma mem_In x l : PyStr.mem x l = true <-> In x l.
Proof.
  unfold PyStr.mem. rewrite existsb_exists. split.
  - intros (y & Hin & Heq). apply String.eqb_eq in Heq. subst y. exact Hin.
  - intros Hin. exists x. split; [exact Hin | apply String.eqb_refl].
Qed.

Lemma passed_string_required value f n :
  passed (string_outcomes value f n true None) = true <-> filled value n.
Proof.
  unfold string_outcomes, filled. cbn [andb].
  destruct (is_blank value) eqn:Hb.
  - cbn [passed]. split; [discriminate | intros [H _]; discriminate H].
  - rewrite (is_blank_truthy _ Hb). cbn [andb].
    destruct (n <? String.length (str value))%nat eqn:Hl; cbn [passed].
    + apply Nat.ltb_lt in Hl. split; [discriminate | intros [_ H]; lia].
    + apply Nat.ltb_ge in Hl. split; [intros _; split; [reflexivity | exact Hl] | reflexivity].
Qed.

Lemma passed_string_optional value f n :
  passed (string_outcomes value f n false None) = true <-> fits value n.
Proof.
  unfold string_outcomes, fits. cbn [andb].
  destruct (truthy value); cbn [andb].
  - destruct (n <? String.length (str value))%nat eqn:Hl; cbn [passed].
    + apply Nat.ltb_lt in Hl. split; [discriminate | intros H; specialize (H eq_refl); lia].
    + apply Nat.ltb_ge in Hl. split; [intros _ _; exact Hl | reflexivity].
  - cbn [passed]. split; [intros _ H; discriminate H | reflexivity].
Qed.

Lemma passed_code value f catalog :
  passed (code_outcomes value f catalog) = true <-> coded value catalog.
Proof.
  unfold code_outcomes, coded.
  destruct (truthy value); cbn [andb].
  - destruct (text_in value (catalogs_get catalogs catalog)); cbn [negb passed].
    + split; reflexivity.
    + split; [discriminate |]. intros H. apply H. reflexivity.
  - cbn [passed]. split; [intros _ H; discriminate H | reflexivity].
Qed.

Lemma passed_date value f :
  passed (date_outcomes value f true) = true <-> dated value.
Proof.
  unfold date_outcomes, dated. cbn [andb].
  destruct (is_blank value) eqn:Hb.
  - cbn [passed]. split; [discriminate | intros [H _]; discriminate H].
  - rewrite (is_blank_truthy _ Hb).
    destruct (strptime (str value)) as [t | msg]; cbn [passed].
    + split; [intros _; split; [reflexivity | exists t; reflexivity] | reflexivity].
    + split; [discriminate | intros [_ [t H]]; discriminate H].
Qed.

Lemma passed_number value f bound :
  passed (number_outcomes value f (Some bound) None) = true <-> at_least value bound.
Proof.
  unfold number_outcomes, at_least, below, above.
  destruct value as [x |]; cbn [passed].
  - destruct (Qle_bool bound x) eqn:Hle; cbn [negb passed].
    + apply Qle_bool_iff in Hle.
      split; [intros _; exists x; split; [reflexivity | exact Hle] | reflexivity].
    + split; [discriminate |]. intros (y & [= <-] & H).
      apply Qle_bool_iff in H. rewrite H in Hle. discriminate Hle.
  - split; [discriminate | intros (y & H & _); discriminate H].
Qed.

(** From [wp] at the start of a [validate] call to its run. *)
Lemma wp_verdict (m : M (bool * list row))
    (P : bool -> list row -> list ValidationResult -> Prop) st :
  wp m (fun r new => exists valid recs, r = Return (valid, recs) /\ P valid recs new) [] ->
  exists valid recs st' new,
    m st = (Return (valid, recs), st') /\
    results st' = results st ++ new /\
    P valid recs new.
Proof.
  intros Hm. destruct (wp_run m _ st Hm) as (new & Hnew & valid & recs & Hr & HP).
  destruct (m st) as [r st']. cbn [fst snd] in *. subst r.
  exists valid, recs, st', new. auto.
Qed.

Lemma wp_accepted (m : M (bool * list row)) (P : Prop) st :
  wp m (fun r _ => exists valid recs, r = Return (valid, recs) /\ (valid = true <-> P)) [] ->
  exists valid recs st',
    m st = (Return (valid, recs), st') /\ (valid = true <-> P).
Proof.
  intros Hm.
  destruct (wp_verdict m (fun valid _ _ => valid = true <-> P) st Hm)
    as (valid & recs & st' & _ & Hrun & _ & HP).
  exists valid, recs, st'. auto.
Qed.

Lemma coded_falsy value catalog :
  truthy value = false -> (coded value catalog <-> True).
Proof.
  intros H. unfold coded. rewrite H. split; [auto | intros _ H'; discriminate H'].
Qed.

Lemma registered_raise e value msg :
  select_count e query_user value = Raise msg -> (registered e value <-> False).
Proof.
  intros H. unfold registered. rewrite H.
  split; [intros (n & Hn & _); discriminate Hn | contradiction].
Qed.

Lemma registered_return e value n :
  select_count e query_user value = Return n ->
  (registered e value <-> (n =? 0)%Z = false).
Proof.
  intros H. unfold registered. rewrite H. split.
  - intros (k & [= <-] & Hk). apply Z.eqb_neq. exact Hk.
  - intros Hn. exists n. split; [reflexivity | apply Z.eqb_neq; exact Hn].
Qed.

Ltac use_branch :=
  repeat match goal with
    | H : negb _ = true |- _ => apply negb_true_iff in H
    | H : negb _ = false |- _ => apply negb_false_iff in H
    | H : truthy ?v = false |- context [coded ?v ?c] =>
        rewrite (coded_falsy v c H)
    | H : select_count ?e query_user ?v = Raise ?m |- context [registered ?e ?v] =>
        rewrite (registered_raise e v m H)
    | H : select_count ?e query_user ?v = Return ?z |- context [registered ?e ?v] =>
        rewrite (registered_return e v z H)
    end.

Ltac accepted :=
  do 2 eexists; (split; [reflexivity |]); cbn [andb];
  rewrite ?andb_true_iff, ?passed_string_required, ?passed_string_optional,
    ?passed_code, ?passed_date, ?passed_number;
  use_branch; try clear open_write;
  intuition (try discriminate; try congruence).

Ltac run_validate Hrows :=
  unfold_validate; apply wp_try_except, wp_bind, wp_read_sql;
  rewrite Hrows; cbv beta iota zeta; repeat wp_exact.

(** ** What the checks make of a NULL handed over as NaN

    NaN is not [None], is true in a condition and prints as "nan": a
    required text that is NaN counts as given, with 3 characters, where
    [None] does not; an optional text that is NaN is measured like the text
    "nan"; a code that is NaN is in no catalog. *)

Lemma filled_NaN n : filled NaN n <-> (3 <= n)%nat.
Proof.
  unfold filled. cbn. split; [intros [_ H]; exact H | intros H; split; [reflexivity | exact H]].
Qed.

Lemma filled_PyNone n : ~ filled PyNone n.
Proof. intros [H _]. discriminate H. Qed.

Lemma fits_NaN n : fits NaN n <-> (3 <= n)%nat.
Proof.
  unfold fits. cbn. split; [intros H; apply H; reflexivity | intros H _; exact H].
Qed.

Lemma fits_PyNone n : fits PyNone n.
Proof. intros H. discriminate H. Qed.

Lemma coded_NaN catalog : ~ coded NaN catalog.
Proof. intros H. specialize (H eq_refl). discriminate H. Qed.

(** A code that is a string is in the catalog as a member of its list. *)
Lemma coded_Str s catalog :
  coded (Str s) catalog <-> (s <> "" -> In s (catalogs_get catalogs catalog)).
Proof.
  unfold coded. cbn [truthy text_in]. rewrite mem_In, negb_true_iff.
  split; intros H Hs; apply H.
  - destruct (s =? "") eqn:E; [| reflexivity].
    apply String.eqb_eq in E. contradiction.
  - intros ->. discriminate Hs.
Qed.

(** ** When a record is accepted

    In the conditions below a text is given when it is not [None] and holds
    a character that is not a space. A NULL of the store that pandas hands
    over as NaN is given in that sense: the checks read it as the text
    "nan". *)

(** X1. A beneficiary (US) whose fetch finds a row is accepted by
    [validate] exactly when, in the first row, the document type, the
    document number and the country of origin are given and within 2, 20
    and 3 characters, and the document type is in the catalog
    TIPO_DOCUMENTO. A country of origin that is NULL is refused when it is
    handed over as [None] and accepted when it is handed over as NaN. *)
Theorem usuarios_accepted_iff e key st record rest :
  select_rows e Usuarios_query (Str key) = Return (record :: rest) ->
  exists valid recs st',
    validate UsuariosValidator e key st = (Return (valid, recs), st') /\
    (valid = true <->
       filled (txt record "tipoDocumentoIdentificacion") 2 /\
       filled (txt record "numDocumentoIdentificacion") 20 /\
       filled (txt record "codPaisOrigen") 3 /\
       coded (txt record "tipoDocumentoIdentificacion") "TIPO_DOCUMENTO").
Proof.
  intros Hrows. apply wp_accepted. run_validate Hrows; accepted.
Qed.

(** X2. A transaction (AF) whose fetch finds a row is accepted exactly
    when, in the first row, the provider code and the document of the
    obliged party are given and within 12 and 20 characters, the invoice
    number, the note type and the note number are within 20, 2 and 20
    characters when given, and the note type, when given, is in the
    catalog TIPO_NOTA. A note type that is NULL passes when it is handed
    over as [None]; handed over as NaN it is refused, as the text "nan" of 3
    characters that is in no catalog. *)
Theorem transacciones_accepted_iff e key st record rest :
  select_rows e Transacciones_query (Str key) = Return (record :: rest) ->
  exists valid recs st',
    validate TransaccionesValidator e key st = (Return (valid, recs), st') /\
    (valid = true <->
       filled (txt record "codPrestador") 12 /\
       filled (txt record "numDocumentoIdObligado") 20 /\
       fits (txt record "numFactura") 20 /\
       fits (txt record "tipoNota") 2 /\
       fits (txt record "numNota") 20 /\
       coded (txt record "tipoNota") "TIPO_NOTA").
Proof.
  intros Hrows. apply wp_accepted. run_validate Hrows; accepted.
Qed.

(** X3. Another service (AT) whose fetch finds a row is accepted exactly
    when the provider code, the document number, the service type and the
    technology code are given and within 12, 20, 2 and 7 characters, the
    quantity is given and at least 1, the service type is in the catalog
    TIPO_OS, and the look-up of the beneficiary answers with a count other
    than 0. *)
Theorem otros_servicios_accepted_iff e key st record rest :
  select_rows e OtrosServicios_query (Str key) = Return (record :: rest) ->
  exists valid recs st',
    validate OtrosServiciosValidator e key st = (Return (valid, recs), st') /\
    (valid = true <->
       filled (txt record "codPrestador") 12 /\
       filled (txt record "numDocumentoIdentificacion") 20 /\
       filled (txt record "tipoOS") 2 /\
       filled (txt record "codTecnologiaSalud") 7 /\
       at_least (num record "cantidadOS") 1 /\
       coded (txt record "tipoOS") "TIPO_OS" /\
       registered e (txt record "numDocumentoIdentificacion")).
Proof.
  intros Hrows. apply wp_accepted. run_validate Hrows; accepted.
Qed.

(** X4. An emergency (AU) whose fetch finds a row is accepted exactly when
    the five required texts are given and within their lengths, the start
    of the attention is given and parses, the external cause and the main
    diagnosis are in the catalogs CAUSA_EXTERNA and CIE10, and the look-up
    of the beneficiary answers with a count other than 0. *)
Theorem urgencias_accepted_iff e key st record rest :
  select_rows e Urgencias_query (Str key) = Return (record :: rest) ->
  exists valid recs st',
    validate UrgenciasValidator e key st = (Return (valid, recs), st') /\
    (valid = true <->
       filled (txt record "codPrestador") 12 /\
       filled (txt record "numDocumentoIdentificacion") 20 /\
       dated (txt record "fechaInicioAtencion") /\
       filled (txt record "causaExterna") 2 /\
       filled (txt record "codDiagnosticoPrincipal") 25 /\
       filled (txt record "condicionDestinoUsuarioEgreso") 2 /\
       coded (txt record "causaExterna") "CAUSA_EXTERNA" /\
       coded (txt record "codDiagnosticoPrincipal") "CIE10" /\
       registered e (txt record "numDocumentoIdentificacion")).
Proof.
  intros Hrows. apply wp_accepted. run_validate Hrows; accepted.
Qed.

(** X5. A procedure (AP) whose fetch finds a row is accepted exactly when
    the four required texts are given and within their lengths, the
    authorization number is within 30 characters when given, the start of
    the attention is given and parses, the procedure code and the way of
    admission are in the catalogs CUPS and VIA_INGRESO, and the look-up of
    the beneficiary answers with a count other than 0. *)
Theorem procedimientos_accepted_iff e key st record rest :
  select_rows e Procedimientos_query (Str key) = Return (record :: rest) ->
  exists valid recs st',
    validate ProcedimientosValidator e key st = (Return (valid, recs), st') /\
    (valid = true <->
       filled (txt record "codPrestador") 12 /\
       filled (txt record "numDocumentoIdentificacion") 20 /\
       dated (txt record "fechaInicioAtencion") /\
       fits (txt record "numAutorizacion") 30 /\
       filled (txt record "codProcedimiento") 6 /\
       filled (txt record "viaIngreso") 2 /\
       coded (txt record "codProcedimiento") "CUPS" /\
       coded (txt record "viaIngreso") "VIA_INGRESO" /\
       registered e (txt record "numDocumentoIdentificacion")).
Proof.
  intros Hrows. apply wp_accepted. run_validate Hrows; accepted.
Qed.

(** X6. A medicine (AM) whose fetch finds a row is accepted exactly when
    the four required texts are given and within their lengths, the
    concentration and the pharmaceutical form are within 3 and 20
    characters when given, the technology code is in the catalog ATC, and
    the look-up of the beneficiary answers with a count other than 0. The
    notifications on compounded preparations play no part. *)
Theorem medicamentos_accepted_iff e key st record rest :
  select_rows e Medicamentos_query (Str key) = Return (record :: rest) ->
  exists valid recs st',
    validate MedicamentosValidator e key st = (Return (valid, recs), st') /\
    (valid = true <->
       filled (txt record "codPrestador") 12 /\
       filled (txt record "numDocumentoIdentificacion") 20 /\
       filled (txt record "codTecnologiaSalud") 7 /\
       filled (txt record "nomTecnologiaSalud") 150 /\
       fits (txt record "concentracionMedicamento") 3 /\
       fits (txt record "formaFarmaceutica") 20 /\
       coded (txt record "codTecnologiaSalud") "ATC" /\
       registered e (txt record "numDocumentoIdentificacion")).
Proof.
  intros Hrows. apply wp_accepted. run_validate Hrows; accepted.
Qed.

(** X7. A newborn (AN) whose fetch finds a row is accepted exactly when
    the provider code and the document number are given and within 12 and
    20 characters, the birth date is given and parses, the sex is given,
    within 1 character and one of M and F, the weight is given and at
    least the float 0.1, and the look-up of the beneficiary answers with a
    count other than 0. *)
Theorem recien_nacido_accepted_iff e key st record rest :
  select_rows e RecienNacido_query (Str key) = Return (record :: rest) ->
  exists valid recs st',
    validate RecienNacidoValidator e key st = (Return (valid, recs), st') /\
    (valid = true <->
       filled (txt record "codPrestador") 12 /\
       filled (txt record "numDocumentoIdentificacion") 20 /\
       dated (txt record "fechaNacimiento") /\
       filled (txt record "sexoRecienNacido") 1 /\
       at_least (num record "pesoRecienNacido") float_0_1 /\
       text_in (txt record "sexoRecienNacido") ["M"; "F"] = true /\
       registered e (txt record "numDocumentoIdentificacion")).
Proof.
  intros Hrows. apply wp_accepted. run_validate Hrows; accepted.
Qed.

Lemma coded_text_in value catalog :
  truthy value = true -> coded value catalog ->
  text_in value (catalogs_get catalogs catalog) = true.
Proof.
  intros Ht Hc. exact (Hc Ht).
Qed.

Lemma dated_truthy value : dated value -> truthy value = true.
Proof. intros [H _]. apply is_blank_truthy, H. Qed.

Ltac split_true :=
  repeat match goal with
    | H : andb _ _ = true |- _ =>
        let H1 := fresh H in
        let H2 := fresh H in
        destruct (proj1 (andb_true_iff _ _) H) as [H1 H2]; clear H
    end.

(** X8. A consultation (AC) whose fetch finds a row is accepted exactly
    when the four required texts are given and within their lengths, the
    date of the consultation is given and parses, the concept of the
    charge is within 2 characters when given, the service code and the main
    diagnosis are in the catalogs CUPS and CIE10, and the look-up of the
    beneficiary answers with a count other than 0. The copay rule adds no
    condition: the catalog CUPS holds the two codes the rule allows, so a
    record the rule rejects has already failed the catalog check. *)
Theorem consultas_accepted_iff e key st record rest :
  select_rows e Consultas_query (Str key) = Return (record :: rest) ->
  exists valid recs st',
    validate ConsultasValidator e key st = (Return (valid, recs), st') /\
    (valid = true <->
       filled (txt record "codPrestador") 12 /\
       filled (txt record "numDocumentoIdentificacion") 20 /\
       dated (txt record "fechaConsulta") /\
       filled (txt record "codConsulta") 6 /\
       filled (txt record "codDiagnosticoPrincipal") 25 /\
       fits (txt record "conceptoRecaudo") 2 /\
       coded (txt record "codConsulta") "CUPS" /\
       coded (txt record "codDiagnosticoPrincipal") "CIE10" /\
       registered e (txt record "numDocumentoIdentificacion")).
Proof.
  intros Hrows. apply wp_accepted. run_validate Hrows; try solve [accepted].
  all: split_true; use_branch.
  all: match goal with
       | Ht : truthy ?v = true, Hn : text_in ?v ?l = false |- _ =>
           assert (~ coded v "CUPS")
             by (let Hx := fresh in
                 intros Hx; pose proof (coded_text_in v "CUPS" Ht Hx) as Hy;
                 change (text_in v l = true) in Hy; congruence)
       end.
  all: accepted.
Qed.

Ltac date_facts :=
  repeat match goal with
    | Hi : strptime (str ?a) = Return ?ti,
      He : strptime (str ?b) = Return ?te,
      Hc : (?te <? ?ti)%Z = true |- _ =>
        assert (~ not_before b a)
          by (let Hx := fresh in
              intros Hx; specialize (Hx te ti He Hi); apply Z.ltb_lt in Hc; lia);
        clear Hc
    | Hi : strptime (str ?a) = Return ?ti,
      He : strptime (str ?b) = Return ?te,
      Hc : (?te <? ?ti)%Z = false |- _ =>
        assert (not_before b a)
          by (let H1 := fresh in
              let H2 := fresh in
              intros ? ? H1 H2; rewrite He in H1; rewrite Hi in H2;
              injection H1 as <-; injection H2 as <-;
              apply Z.ltb_ge in Hc; exact Hc);
        clear Hc
    | H : strptime (str ?a) = Raise _ |- _ =>
        assert (~ dated a)
          by (let t := fresh in
              let Ht := fresh in
              intros [_ [t Ht]]; rewrite H in Ht; discriminate Ht);
        clear H
    | H : truthy ?a && truthy ?b = false |- _ =>
        assert (dated a -> dated b -> False)
          by (let A := fresh in
              let B := fresh in
              intros A B;
              rewrite (dated_truthy _ A), (dated_truthy _ B) in H; discriminate H);
        clear H
    end.

(** X9. A stay (AH) whose fetch finds a row is accepted exactly when the
    three required texts are given and within their lengths, the cause of
    death is within 25 characters when given, both dates are given and
    parse, the discharge is not before the admission, both diagnoses are in
    the catalog CIE10 when given, and the look-up of the beneficiary
    answers with a count other than 0. *)
Theorem hospitalizacion_accepted_iff e key st record rest :
  select_rows e Hospitalizacion_query (Str key) = Return (record :: rest) ->
  exists valid recs st',
    validate HospitalizacionValidator e key st = (Return (valid, recs), st') /\
    (valid = true <->
       filled (txt record "codPrestador") 12 /\
       filled (txt record "numDocumentoIdentificacion") 20 /\
       dated (txt record "fechaIngreso") /\
       filled (txt record "codDiagnosticoPrincipal") 25 /\
       dated (txt record "fechaEgreso") /\
       fits (txt record "codDiagnosticoCausaMuerte") 25 /\
       coded (txt record "codDiagnosticoPrincipal") "CIE10" /\
       coded (txt record "codDiagnosticoCausaMuerte") "CIE10" /\
       not_before (txt record "fechaEgreso") (txt record "fechaIngreso") /\
       registered e (txt record "numDocumentoIdentificacion")).
Proof.
  intros Hrows. apply wp_accepted. run_validate Hrows; try solve [accepted].
  all: split_true; date_facts; accepted.
Qed.

(** ** The rules of the record types *)

Ltac no_code Hin :=
  in_cases Hin;
  cbn [code ValidationResult_init catalog_miss append]; discriminate.

(** X10. The sex rule of a newborn record: when the sex of the first
    fetched row is not one of M and F (an absent sex included),
    [validate] appends the Rejection "ERR_AN_002" and its verdict is false;
    when it is M or F, no outcome coded "ERR_AN_002" is appended. *)
Theorem recien_nacido_sexo_rule e key st record rest :
  select_rows e RecienNacido_query (Str key) = Return (record :: rest) ->
  exists valid recs st' new,
    validate RecienNacidoValidator e key st = (Return (valid, recs), st') /\
    results st' = results st ++ new /\
    (text_in (txt record "sexoRecienNacido") ["M"; "F"] = false ->
       In sexo_invalido new /\ valid = false) /\
    (text_in (txt record "sexoRecienNacido") ["M"; "F"] = true ->
       forall o, In o new -> code o <> "ERR_AN_002").
Proof.
  intros Hrows. apply wp_verdict.
  unfold_validate. apply wp_try_except, wp_bind, wp_read_sql.
  rewrite Hrows. cbv beta iota zeta.
  destruct (text_in (txt record "sexoRecienNacido") ["M"; "F"]); cbn [negb];
    repeat wp_exec; do 2 eexists; (split; [reflexivity |]); split;
    try (intros Hx; discriminate Hx); intros _.
  all: try (split; [find_in | reflexivity]).
  all: intros o Hin; no_code Hin.
Qed.

(** X11. The date-order rule of a stay whose admission and discharge are
    both given and both parse: when the discharge is before the admission,
    [validate] appends the Rejection "ERR_AH_002" and its verdict is false;
    when it is not, equal instants included, no outcome coded "ERR_AH_002"
    is appended. *)
Theorem hospitalizacion_egreso_rule e key st record rest t_ingreso t_egreso :
  select_rows e Hospitalizacion_query (Str key) = Return (record :: rest) ->
  truthy (txt record "fechaIngreso") = true ->
  truthy (txt record "fechaEgreso") = true ->
  strptime (str (txt record "fechaIngreso")) = Return t_ingreso ->
  strptime (str (txt record "fechaEgreso")) = Return t_egreso ->
  exists valid recs st' new,
    validate HospitalizacionValidator e key st = (Return (valid, recs), st') /\
    results st' = results st ++ new /\
    ((t_egreso < t_ingreso)%Z -> In egreso_anterior new /\ valid = false) /\
    ((t_ingreso <= t_egreso)%Z -> forall o, In o new -> code o <> "ERR_AH_002").
Proof.
  intros Hrows Hti Hte Hi He. apply wp_verdict.
  unfold_validate. apply wp_try_except, wp_bind, wp_read_sql.
  rewrite Hrows. cbv beta iota zeta.
  rewrite Hti, Hte, Hi, He. cbn [andb].
  destruct (t_egreso <? t_ingreso)%Z eqn:Hlt;
    [apply Z.ltb_lt in Hlt | apply Z.ltb_ge in Hlt];
    repeat wp_exec; do 2 eexists; (split; [reflexivity |]); split;
    try (intros Hx; exfalso; lia); intros _.
  all: try (split; [find_in | reflexivity]).
  all: intros o Hin; no_code Hin.
Qed.

(** X12. The notifications on compounded preparations: the Notification
    "INFO_AM_001" is appended exactly when the name of the medicine is
    given and holds "magistral" in any letter case; the Notification
    "WARN_AM_002" is appended exactly when, besides, the concentration is
    given and holds a decimal point. *)
Theorem medicamentos_magistral_rule e key st record rest :
  select_rows e Medicamentos_query (Str key) = Return (record :: rest) ->
  let magistral :=
    truthy (txt record "nomTecnologiaSalud")
    && PyStr.contains "magistral" (PyStr.lower (str (txt record "nomTecnologiaSalud"))) in
  let decimales :=
    truthy (txt record "concentracionMedicamento")
    && PyStr.contains "." (str (txt record "concentracionMedicamento")) in
  exists valid recs st' new,
    validate MedicamentosValidator e key st = (Return (valid, recs), st') /\
    results st' = results st ++ new /\
    (magistral = true -> In preparacion_magistral new) /\
    (magistral = false -> forall o, In o new -> code o <> "INFO_AM_001") /\
    (magistral && decimales = true -> In decimales_no_soportados new) /\
    (magistral && decimales = false -> forall o, In o new -> code o <> "WARN_AM_002").
Proof.
  intros Hrows. cbv zeta. apply wp_verdict.
  unfold_validate. apply wp_try_except, wp_bind, wp_read_sql.
  rewrite Hrows. cbv beta iota zeta.
  destruct (truthy (txt record "nomTecnologiaSalud")
            && PyStr.contains "magistral"
                 (PyStr.lower (str (txt record "nomTecnologiaSalud"))));
    [destruct (truthy (txt record "concentracionMedicamento")
               && PyStr.contains "." (str (txt record "concentracionMedicamento"))) |];
    cbn [andb]; repeat wp_exec; do 2 eexists; (split; [reflexivity |]).
  all: repeat split; try (intros Hx; discriminate Hx); intros _; try find_in.
  all: intros o Hin; no_code Hin.
Qed.

Lemma text_eqb_truthy value lit :
  text_eqb value lit = true -> lit <> "" -> truthy value = true.
Proof.
  destruct value as [| | s]; cbn [text_eqb truthy]; [discriminate | discriminate |].
  intros H Hne. apply String.eqb_eq in H. subst s.
  destruct (lit =? "") eqn:E; [| reflexivity].
  apply String.eqb_eq in E. contradiction.
Qed.

(** X13. The Notification "INFO_AF_001" of a transaction is appended
    exactly when the note type of the first fetched row is "RS" and its
    invoice number is NULL; an invoice number that is an empty text does
    not count as missing. *)
Theorem transacciones_sin_factura_rule e key st record rest :
  select_rows e Transacciones_query (Str key) = Return (record :: rest) ->
  let sin_factura :=
    text_eqb (txt record "tipoNota") "RS" && isna (txt record "numFactura") in
  exists valid recs st' new,
    validate TransaccionesValidator e key st = (Return (valid, recs), st') /\
    results st' = results st ++ new /\
    (sin_factura = true -> In sin_factura_permitido new) /\
    (sin_factura = false -> forall o, In o new -> code o <> "INFO_AF_001").
Proof.
  intros Hrows. cbv zeta. apply wp_verdict.
  unfold_validate. apply wp_try_except, wp_bind, wp_read_sql.
  rewrite Hrows. cbv beta iota zeta.
  destruct (text_eqb (txt record "tipoNota") "RS" && isna (txt record "numFactura"))
    eqn:Hrule; repeat wp_exec; do 2 eexists; (split; [reflexivity |]).
  all: split; try (intros Hx; discriminate Hx); intros _; try find_in.
  all: try (intros o Hin; no_code Hin).
  apply andb_true_iff in Hrule. destruct Hrule as [Hrs _].
  assert (Ht : truthy (txt record "tipoNota") = true)
    by (apply (text_eqb_truthy _ "RS" Hrs); discriminate).
  congruence.
Qed.

(** X14. The Notification "INFO_AP_001" of a procedure is appended
    exactly when the authorization number of the first fetched row is
    NULL, handed over as [None] or as NaN. *)
Theorem procedimientos_autorizacion_rule e key st record rest :
  select_rows e Procedimientos_query (Str key) = Return (record :: rest) ->
  exists valid recs st' new,
    validate ProcedimientosValidator e key st = (Return (valid, recs), st') /\
    results st' = results st ++ new /\
    (isna (txt record "numAutorizacion") = true ->
       In autorizacion_no_requerida new) /\
    (isna (txt record "numAutorizacion") = false ->
       forall o, In o new -> code o <> "INFO_AP_001").
Proof.
  intros Hrows. apply wp_verdict.
  unfold_validate. apply wp_try_except, wp_bind, wp_read_sql.
  rewrite Hrows. cbv beta iota zeta.
  destruct (isna (txt record "numAutorizacion")) eqn:Hna;
    repeat wp_exec; do 2 eexists; (split; [reflexivity |]).
  all: split; try (intros Hx; discriminate Hx); intros _; try find_in.
  all: intros o Hin; no_code Hin.
Qed.

(** ** The beneficiary look-up *)

(** X15. The seven validators that look the beneficiary up, after a fetch
    that found a row: when the count on Usuarios for the document number of
    the first row is 0, the verdict is false and the Rejection of the
    record type for a missing beneficiary is in the ledger, naming that
    document number (for a stay, the call may instead have ended earlier on
    a date that does not parse, handing back no record). When the look-up
    answers anything else or fails, no outcome with that code is
    appended. *)
Theorem beneficiary_cross_reference v c e key st record rest :
  user_missing_code v = Some c ->
  select_rows e (validator_query v) (Str key) = Return (record :: rest) ->
  exists valid recs st' new,
    validate v e key st = (Return (valid, recs), st') /\
    results st' = results st ++ new /\
    (select_count e query_user (txt record "numDocumentoIdentificacion") = Return 0%Z ->
       valid = false /\
       (In (user_missing c record) new \/
        v = HospitalizacionValidator /\ recs = [])) /\
    (select_count e query_user (txt record "numDocumentoIdentificacion") <> Return 0%Z ->
       forall o, In o new -> code o <> c).
Proof.
  intros Hc Hrows. apply wp_verdict.
  destruct v; try discriminate Hc; injection Hc as <-;
    cbn [validator_query] in Hrows;
    unfold_validate; apply wp_try_except, wp_bind, wp_read_sql;
    rewrite Hrows; cbv beta iota zeta;
    repeat wp_exec;
    repeat match goal with
      | H : (_ =? 0)%Z = true |- _ => apply Z.eqb_eq in H; subst
      | H : (_ =? 0)%Z = false |- _ => apply Z.eqb_neq in H
      end;
    do 2 eexists; (split; [reflexivity |]); split.
  all: try (intros Hx;
            first [ solve [exfalso; congruence]
                  | split; [reflexivity |];
                    first [ left; find_in | right; split; reflexivity ] ]).
  all: intros Hne o Hin;
    first [ solve [exfalso; apply Hne; reflexivity] | no_code Hin ].
Qed.

(** ** Rules of [wpl] *)

Lemma wpl_ret {A} (a : A) Q acc : Q (Return a) acc -> wpl (ret a) Q acc.
Proof.
  intros HQ st l0 Hst. exists acc. split; [exact Hst | exact HQ].
Qed.

Lemma wpl_call {A} (r : result A) Q acc : Q r acc -> wpl (call r) Q acc.
Proof.
  intros HQ st l0 Hst. exists acc. split; [exact Hst | exact HQ].
Qed.

Lemma wpl_bind {A B} (m : M A) (k : A -> M B) Q acc :
  wpl m (fun r acc' =>
           match r with
           | Return a => wpl (k a) Q acc'
           | Raise msg => Q (Raise msg) acc'
           end) acc ->
  wpl (bind m k) Q acc.
Proof.
  intros Hm st l0 Hst.
  destruct (Hm st l0 Hst) as (mid & Hmid & Hk).
  unfold bind. destruct (m st) as [[a | msg] st']; cbn [fst snd] in *.
  - exact (Hk st' l0 Hmid).
  - exists mid. split; assumption.
Qed.

Lemma wpl_try_except {A} (body : M A) (handler : string -> M A) Q acc :
  wpl body (fun r acc' =>
              match r with
              | Return a => Q (Return a) acc'
              | Raise msg => wpl (handler msg) Q acc'
              end) acc ->
  wpl (try_except body handler) Q acc.
Proof.
  intros Hm st l0 Hst.
  destruct (Hm st l0 Hst) as (mid & Hmid & Hk).
  unfold try_except. destruct (body st) as [[a | msg] st']; cbn [fst snd] in *.
  - exists mid. split; assumption.
  - exact (Hk st' l0 Hmid).
Qed.

Lemma wpl_append o Q acc : Q (Return tt) acc -> wpl (append o) Q acc.
Proof.
  intros HQ st l0 Hst. exists acc. split; [exact Hst | exact HQ].
Qed.

Lemma wpl_read_sql q e key Q acc :
  Q (select_rows e q key) (acc ++ [(q, key)]) -> wpl (read_sql q e key) Q acc.
Proof.
  intros HQ st l0 Hst. exists (acc ++ [(q, key)]). split; [| exact HQ].
  cbn [read_sql snd sql_log]. rewrite Hst. symmetry. apply app_assoc.
Qed.

Lemma wpl_read_sql_scalar q e key Q acc :
  Q (select_count e q key) (acc ++ [(q, key)]) ->
  wpl (read_sql_scalar q e key) Q acc.
Proof.
  intros HQ st l0 Hst. exists (acc ++ [(q, key)]). split; [| exact HQ].
  cbn [read_sql_scalar snd sql_log]. rewrite Hst. symmetry. apply app_assoc.
Qed.

Lemma wpl_and_assign valid (m : M bool) Q acc :
  wpl m (fun r acc' =>
           match r with
           | Return b => Q (Return (valid && b)) acc'
           | Raise msg => Q (Raise msg) acc'
           end) acc ->
  wpl (and_assign valid m) Q acc.
Proof.
  intros Hm. unfold and_assign. apply wpl_bind.
  intros st l0 Hst. destruct (Hm st l0 Hst) as (mid & Hmid & HQ).
  exists mid. split; [exact Hmid |].
  destruct (fst (m st)); [apply wpl_ret |]; exact HQ.
Qed.

Lemma wpl_run {A} (m : M A) Q st :
  wpl m Q [] ->
  exists new, sql_log (snd (m st)) = sql_log st ++ new /\ Q (fst (m st)) new.
Proof.
  intros Hm. apply (Hm st (sql_log st)). symmetry. apply app_nil_r.
Qed.

Ltac wpl_basic :=
  lazymatch goal with
  | |- wpl (bind _ _) _ _ => apply wpl_bind
  | |- wpl (try_except _ _) _ _ => apply wpl_try_except
  | |- wpl (ret _) _ _ => apply wpl_ret
  | |- wpl (append _) _ _ => apply wpl_append
  | |- wpl (call _) _ _ => apply wpl_call
  | |- wpl (and_assign _ _) _ _ => apply wpl_and_assign
  | |- wpl (read_sql _ _ _) _ _ => apply wpl_read_sql
  | |- wpl (read_sql_scalar _ _ _) _ _ => apply wpl_read_sql_scalar
  | |- wpl (if ?c then _ else _) _ _ => destruct c eqn:?
  | |- wpl (match ?d with nil => _ | cons _ _ => _ end) _ _ => destruct d eqn:?
  | |- wpl (match ?r with Return _ => _ | Raise _ => _ end) _ _ => destruct r eqn:?
  | |- match ?r with Return _ => _ | Raise _ => _ end => destruct r eqn:?
  end; cbv beta iota zeta.

(** The rule primitives send no query and return. *)
Lemma wpl_validate_string value f max_length required regex Q acc :
  (forall b, Q (Return b) acc) ->
  wpl (validate_string value f max_length required regex) Q acc.
Proof.
  intros H. unfold validate_string. repeat wpl_basic; apply H.
Qed.

Lemma wpl_validate_date value f required Q acc :
  (forall b, Q (Return b) acc) ->
  wpl (validate_date value f required) Q acc.
Proof.
  intros H. unfold validate_date. repeat wpl_basic; apply H.
Qed.

Lemma wpl_validate_number value f min_value max_value Q acc :
  (forall b, Q (Return b) acc) ->
  wpl (validate_number value f min_value max_value) Q acc.
Proof.
  intros H. unfold validate_number.
  destruct value as [x |]; repeat wpl_basic; apply H.
Qed.

Lemma wpl_validate_code value f catalog Q acc :
  (forall b, Q (Return b) acc) ->
  wpl (validate_code value f catalog) Q acc.
Proof.
  intros H. unfold validate_code. repeat wpl_basic; apply H.
Qed.

Ltac wpl_exec :=
  lazymatch goal with
  | |- wpl (validate_string _ _ _ _ _) _ _ => apply wpl_validate_string; intros ?
  | |- wpl (validate_date _ _ _) _ _ => apply wpl_validate_date; intros ?
  | |- wpl (validate_number _ _ _ _) _ _ => apply wpl_validate_number; intros ?
  | |- wpl (validate_code _ _ _) _ _ => apply wpl_validate_code; intros ?
  | |- wpl (Consultas_copago _ _) _ _ => unfold Consultas_copago
  | _ => wpl_basic
  end; cbv beta iota zeta.

Lemma wpl_validate_queries v e key :
  wpl (validate v e key)
      (fun r sent =>
         (exists a, r = Return a) /\
         (sent = [(validator_query v, Str key)] \/
          cross_references v = true /\
          exists record rest,
            select_rows e (validator_query v) (Str key) = Return (record :: rest) /\
            sent = [(validator_query v, Str key); user_lookup record]) /\
         (forall record rest,
            select_rows e (validator_query v) (Str key) = Return (record :: rest) ->
            cross_references v = true ->
            v <> HospitalizacionValidator ->
            sent = [(validator_query v, Str key); user_lookup record]))
      [].
Proof.
  destruct v; unfold_validate; cbn [validator_query cross_references];
    repeat wpl_exec; (split; [eexists; reflexivity |]); split.
  all: try solve [left; reflexivity].
  all: try solve [right; (split; [reflexivity |]); do 2 eexists; split; reflexivity].
  all: intros record rest Hr Hc Hne;
    first [ discriminate Hr | discriminate Hc
          | solve [exfalso; apply Hne; reflexivity]
          | injection Hr as <- <-; reflexivity ].
Qed.

(** X16. The queries of a [validate] call: first the keyed fetch of the
    record type, with the key as its parameter. The validators of AF and US
    send nothing else. The others send at most one more query, the count
    on Usuarios for the document number of the first fetched row, and only
    after a fetch that found a row; all but the validator of AH always send
    it then. *)
Theorem validate_queries v e key st :
  exists valid recs st' sent,
    validate v e key st = (Return (valid, recs), st') /\
    sql_log st' = sql_log st ++ (validator_query v, Str key) :: sent /\
    (sent = [] \/
     cross_references v = true /\
     exists record rest,
       select_rows e (validator_query v) (Str key) = Return (record :: rest) /\
       sent = [user_lookup record]) /\
    (forall record rest,
       select_rows e (validator_query v) (Str key) = Return (record :: rest) ->
       cross_references v = true ->
       v <> HospitalizacionValidator ->
       sent = [user_lookup record]).
Proof.
  destruct (wpl_run (validate v e key) _ st (wpl_validate_queries v e key))
    as (new & Hnew & [[valid recs] Hr] & Hsent & Hall).
  destruct (validate v e key st) as [r st']. cbn [fst snd] in *. subst r.
  exists valid, recs, st', (tl new).
  split; [reflexivity |].
  assert (Hhd : new = (validator_query v, Str key) :: tl new).
  { destruct Hsent as [-> | (_ & record & rest & _ & ->)]; reflexivity. }
  split; [rewrite Hnew; f_equal; exact Hhd |]. split.
  - destruct Hsent as [-> | (Hc & record & rest & Hrows & ->)];
      [left; reflexivity | right].
    split; [exact Hc |]. exists record, rest. split; [exact Hrows | reflexivity].
  - intros record rest Hrows Hc Hne.
    rewrite (Hall record rest Hrows Hc Hne). reflexivity.
Qed.

(** ** Only the first fetched row is validated *)

Lemma sim_ret df df' valid : sim df df' (ret (valid, df)) (ret (valid, df')).
Proof.
  intros st. split; [reflexivity |]. split; [reflexivity |].
  left. split; reflexivity.
Qed.

Lemma sim_bind {A} df df' (m : M A) k k' :
  (forall a, sim df df' (k a) (k' a)) -> sim df df' (bind m k) (bind m k').
Proof.
  intros Hk st. unfold bind. destruct (m st) as [[a | msg] st1].
  - apply Hk.
  - split; reflexivity.
Qed.

Lemma sim_count df df' e e' key k k' :
  select_count e query_user key = select_count e' query_user key ->
  (forall n, sim df df' (k n) (k' n)) ->
  sim df df' (bind (read_sql_scalar query_user e key) k)
             (bind (read_sql_scalar query_user e' key) k').
Proof.
  intros Hc Hk st. unfold bind, read_sql_scalar. rewrite Hc.
  destruct (select_count e' query_user key) as [n | msg].
  - apply Hk.
  - split; reflexivity.
Qed.

Lemma sim_try_except df df' body body' handler :
  sim df df' body body' ->
  (forall msg st, exists valid,
      fst (handler msg st) = Return (valid, [])) ->
  sim df df' (try_except body handler) (try_except body' handler).
Proof.
  intros Hb Hh st. unfold try_except.
  destruct (Hb st) as [Hst Hout].
  destruct (body st) as [[[valid recs] | msg] st1],
           (body' st) as [[[valid' recs'] | msg'] st1'];
    cbn [fst snd same_outcome] in *; try contradiction.
  - split; assumption.
  - subst msg' st1'. split; [reflexivity |].
    destruct (Hh msg st1) as [valid Hv].
    rewrite Hv. cbn [same_outcome]. split; [reflexivity |].
    right. split; reflexivity.
Qed.

Lemma sim_fetch df df' q e e' key k k' :
  select_rows e q key = Return df ->
  select_rows e' q key = Return df' ->
  sim df df' (k df) (k' df') ->
  sim df df' (bind (read_sql q e key) k) (bind (read_sql q e' key) k').
Proof.
  intros Hdf Hdf' Hk st. unfold bind, read_sql. rewrite Hdf, Hdf'. apply Hk.
Qed.

Lemma sim_validate v e e' key record rest rest' :
  select_rows e (validator_query v) (Str key) = Return (record :: rest) ->
  select_rows e' (validator_query v) (Str key) = Return (record :: rest') ->
  select_count e query_user (txt record "numDocumentoIdentificacion")
    = select_count e' query_user (txt record "numDocumentoIdentificacion") ->
  sim (record :: rest) (record :: rest') (validate v e key) (validate v e' key).
Proof.
  intros Hrows Hrows' Hcount.
  destruct v; cbn [validator_query] in Hrows, Hrows'; unfold_validate;
    (apply sim_try_except;
     [ eapply sim_fetch; [exact Hrows | exact Hrows' |]; cbv beta iota zeta;
       repeat first [ apply sim_ret
                    | apply sim_count; [exact Hcount | intros ?]
                    | apply sim_bind; intros ? ]
     | intros msg st; eexists; reflexivity ]).
Qed.

(** X17. [validate] reads the first row of the DataFrame it fetched and no
    other. Two fetched DataFrames whose first rows are the same cell for
    cell (a NULL handed over as [None] and one handed over as NaN are
    different cells), with the same answer of the beneficiary look-up:
    [validate] gives the same verdict and leaves the same ledger and the
    same query log, whatever rows follow the first; each call hands back
    all the rows of its own fetch, or both hand back none. The rows that
    follow matter only through what pandas makes of the cells of the first
    row when it builds the DataFrame. *)
Theorem only_first_row_validated v e e' key st record rest rest' :
  select_rows e (validator_query v) (Str key) = Return (record :: rest) ->
  select_rows e' (validator_query v) (Str key) = Return (record :: rest') ->
  select_count e query_user (txt record "numDocumentoIdentificacion")
    = select_count e' query_user (txt record "numDocumentoIdentificacion") ->
  exists valid recs recs' st',
    validate v e key st = (Return (valid, recs), st') /\
    validate v e' key st = (Return (valid, recs'), st') /\
    ((recs = record :: rest /\ recs' = record :: rest') \/
     (recs = [] /\ recs' = [])).
Proof.
  intros Hrows Hrows' Hcount.
  destruct (sim_validate v e e' key record rest rest' Hrows Hrows' Hcount st)
    as [Hst Hout].
  destruct (validate_run v e key st) as (valid & recs & st1 & _ & Hrun & _).
  destruct (validate_run v e' key st) as (valid' & recs' & st1' & _ & Hrun' & _).
  rewrite Hrun, Hrun' in Hst, Hout. cbn [fst snd same_outcome] in Hst, Hout.
  destruct Hout as [<- Hrecs]. subst st1'.
  exists valid, recs, recs', st1. auto.
Qed.

(** ** The records handed back and exported *)

Lemma wp_validate_records v e key :
  wp (validate v e key)
     (fun r _ => exists valid recs,
          r = Return (valid, recs) /\
          ((recs = [] \/
            select_rows e (validator_query v) (Str key) = Return recs) /\
           (valid = true -> recs <> [])))
     [].
Proof.
  destruct v; unfold_validate; cbn [validator_query]; repeat wp_exec;
    do 2 eexists; (split; [reflexivity |]);
    (split; [first [left; reflexivity | right; reflexivity] | ]);
    intros Hv; first [discriminate Hv | discriminate].
Qed.

(** X18. An export holds every row of the keyed fetch: when [process]
    reports an export, the fetch of the call returned at least one row, and
    the file written under the name of the tag and the key holds all the
    rows of that fetch, of which only the first was validated. *)
Theorem export_holds_fetched_rows e file_type key w v resp w' :
  validators_get validators file_type = Some v ->
  process e file_type key w = (Return resp, w') ->
  JSONGenerated resp = true ->
  exists rows,
    select_rows e (validator_query v) (Str key) = Return rows /\
    rows <> [] /\
    JSONFile resp = Some (json_file file_type key) /\
    files w' = files w ++ [(json_file file_type key, rows)].
Proof.
  intros Hv Hp Hexp.
  destruct (process_known e file_type key w v Hv)
    as (is_valid & recs & st' & new & Hrun & _ & _ & Hp').
  destruct (wp_verdict (validate v e key) _ (mkSelf (ledger w v) (queries w))
              (wp_validate_records v e key))
    as (valid1 & recs1 & st1 & _ & Hrun1 & _ & Hrecs & Hne).
  rewrite Hrun in Hrun1. injection Hrun1 as <- <- <-.
  rewrite Hp' in Hp. cbv zeta in Hp.
  destruct (is_valid && negb (has_rejections (results st'))) eqn:Hok.
  - destruct (open_write (json_file file_type key)); [| discriminate Hp].
    injection Hp as <- <-. cbn [JSONFile files].
    apply andb_true_iff in Hok. destruct Hok as [-> _].
    specialize (Hne eq_refl).
    destruct Hrecs as [-> | Hrows]; [contradiction |].
    exists recs. auto.
  - injection Hp as <- <-. discriminate Hexp.
Qed.

(** ** The registry *)

Lemma validators_get_tag file_type v :
  validators_get validators file_type = Some v <-> file_type = tag_of v.
Proof.
  split.
  - unfold validators, validators_get.
    repeat match goal with
      | |- (if ?c then _ else _) = _ -> _ =>
          let E := fresh "E" in
          destruct c eqn:E;
          [ apply String.eqb_eq in E; subst file_type;
            intros [= <-]; reflexivity |]
      end.
    discriminate.
  - intros ->. destruct v; reflexivity.
Qed.

(** ** What a run of the processor changes *)

Lemma validate_sent v e key st :
  exists sent,
    sql_log (snd (validate v e key st)) = sql_log st ++ sent /\
    (length sent <= 2)%nat.
Proof.
  destruct (wpl_run (validate v e key) _ st (wpl_validate_queries v e key))
    as (sent & Hsent & _ & Hshape & _).
  exists sent. split; [exact Hsent |].
  destruct Hshape as [-> | (_ & record & rest & _ & ->)]; cbn [length]; lia.
Qed.

Lemma process_step e file_type key w :
  (forall v, exists new,
      ledger (snd (process e file_type key w)) v = ledger w v ++ new) /\
  (exists sent,
      queries (snd (process e file_type key w)) = queries w ++ sent /\
      (length sent <= 2)%nat) /\
  (exists written,
      files (snd (process e file_type key w)) = files w ++ written /\
      (written = [] \/ exists rows, written = [(json_file file_type key, rows)])).
Proof.
  destruct (validators_get validators file_type) as [v |] eqn:Hv.
  - split; [| split].
    + intros v'.
      destruct (process_ledger e file_type key w v Hv) as (new & Hsame & Hother).
      destruct (validator_eqb v' v) eqn:E.
      * apply validator_eqb_eq in E. subst v'. exists new. exact Hsame.
      * exists []. rewrite app_nil_r. apply Hother.
        intros ->. rewrite (proj2 (validator_eqb_eq v v) eq_refl) in E.
        discriminate E.
    + destruct (process_known e file_type key w v Hv)
        as (is_valid & recs & st' & new & Hrun & _ & _ & Hp).
      destruct (validate_sent v e key (mkSelf (ledger w v) (queries w)))
        as (sent & Hsent & Hlen).
      rewrite Hrun in Hsent. cbn [snd sql_log] in Hsent.
      exists sent. split; [| exact Hlen].
      rewrite Hp. cbv zeta.
      destruct (is_valid && negb (has_rejections (results st')));
        [destruct (open_write (json_file file_type key)) |];
        cbn [snd queries]; exact Hsent.
    + destruct (process_known e file_type key w v Hv)
        as (is_valid & recs & st' & new & _ & _ & _ & Hp).
      rewrite Hp. cbv zeta.
      destruct (is_valid && negb (has_rejections (results st')));
        [destruct (open_write (json_file file_type key)) |];
        cbn [snd files].
      * exists [(json_file file_type key, recs)]. split; [reflexivity |].
        right. exists recs. reflexivity.
      * exists []. rewrite app_nil_r. split; [reflexivity | left; reflexivity].
      * exists []. rewrite app_nil_r. split; [reflexivity | left; reflexivity].
  - rewrite (process_unknown e file_type key w Hv). cbn [snd].
    split; [| split].
    + intros v. exists []. symmetry. apply app_nil_r.
    + exists []. rewrite app_nil_r. split; [reflexivity | cbn [length]; lia].
    + exists []. rewrite app_nil_r. split; [reflexivity | left; reflexivity].
Qed.

(** X19. Through any run of calls to [process], the world only grows: every
    ledger keeps what it held and is appended to, never cleared; the query
    log grows by at most two queries per call; the files written are at
    most one per call, each under the name of the tag and the key of one
    of the calls. *)
Theorem process_calls_append_only calls w :
  (forall v, exists new,
      ledger (process_calls calls w) v = ledger w v ++ new) /\
  (exists sent,
      queries (process_calls calls w) = queries w ++ sent /\
      (length sent <= 2 * length calls)%nat) /\
  (exists written,
      files (process_calls calls w) = files w ++ written /\
      (length written <= length calls)%nat /\
      forall name rows,
        In (name, rows) written ->
        exists e file_type key,
          In (e, file_type, key) calls /\ name = json_file file_type key).
Proof.
  revert w. induction calls as [| [[e file_type] key] calls IH]; intros w.
  - cbn [process_calls length]. split; [| split].
    + intros v. exists []. symmetry. apply app_nil_r.
    + exists []. rewrite app_nil_r. split; [reflexivity | cbn [length]; lia].
    + exists []. rewrite app_nil_r. split; [reflexivity |].
      split; [cbn [length]; lia | intros name rows []].
  - cbn [process_calls].
    destruct (process_step e file_type key w) as (Hl & (s1 & Hs1 & Hn1) & (f1 & Hf1 & Hw1)).
    destruct (IH (snd (process e file_type key w)))
      as (Hl' & (s2 & Hs2 & Hn2) & (f2 & Hf2 & Hn3 & Hw2)).
    split; [| split].
    + intros v. destruct (Hl v) as (n1 & H1). destruct (Hl' v) as (n2 & H2).
      exists (n1 ++ n2). rewrite H2, H1. symmetry. apply app_assoc.
    + exists (s1 ++ s2). rewrite Hs2, Hs1.
      split; [symmetry; apply app_assoc |].
      rewrite length_app. cbn [length]. lia.
    + exists (f1 ++ f2). rewrite Hf2, Hf1.
      split; [symmetry; apply app_assoc |]. split.
      * rewrite length_app. cbn [length].
        destruct Hw1 as [-> | (rows & ->)]; cbn [length]; lia.
      * intros name rows Hin. apply in_app_or in Hin. destruct Hin as [Hin | Hin].
        -- destruct Hw1 as [-> | (rows1 & ->)]; [destruct Hin |].
           destruct Hin as [[= <- <-] | []].
           exists e, file_type, key. split; [left; reflexivity | reflexivity].
        -- destruct (Hw2 name rows Hin) as (e' & ft' & key' & Hc & Hname).
           exists e', ft', key'. split; [right; exact Hc | exact Hname].
Qed.

(** X20. The ledger of a validator is touched only by calls with its own
    tag: a run of calls that never uses the tag of a validator leaves the
    ledger of that validator as it was, so a Rejection under one tag never
    changes the verdicts of another tag. *)
Theorem other_tags_leave_ledger calls w tag v :
  validators_get validators tag = Some v ->
  (forall e file_type key, In (e, file_type, key) calls -> file_type <> tag) ->
  ledger (process_calls calls w) v = ledger w v.
Proof.
  intros Hv. revert w.
  induction calls as [| [[e file_type] key] calls IH]; intros w Hcalls.
  - reflexivity.
  - cbn [process_calls].
    rewrite IH by (intros e' ft' key' Hin; apply (Hcalls e' ft' key'); right; exact Hin).
    assert (Hne : file_type <> tag) by (apply (Hcalls e file_type key); left; reflexivity).
    destruct (validators_get validators file_type) as [v' |] eqn:Hv'.
    + destruct (process_ledger e file_type key w v' Hv') as (new & _ & Hother).
      apply Hother. intros ->.
      apply validators_get_tag in Hv, Hv'. congruence.
    + rewrite (process_unknown e file_type key w Hv'). reflexivity.
Qed.

(** X21. The registry maps each of the nine tags to a validator of its
    own, and nothing else: a look-up succeeds exactly on the tag of the
    validator it returns, so two tags never share a validator, hence never
    share a ledger. *)
Theorem registry_one_validator_per_tag file_type v :
  (validators_get validators file_type = Some v <-> file_type = tag_of v) /\
  In (tag_of v, v) validators /\
  (forall tag tag', In (tag, v) validators -> In (tag', v) validators -> tag = tag') /\
  length validators = 9%nat.
Proof.
  clear re_match strptime str_number open_write.
  split; [apply validators_get_tag |]. split; [| split; [| reflexivity]].
  - destruct v; cbn; tauto.
  - assert (H : forall tag, In (tag, v) validators -> tag = tag_of v).
    { intros tag Hin. unfold validators in Hin. cbn [In] in Hin.
      repeat (destruct Hin as [[= <- <-] | Hin]; [reflexivity |]).
      destruct Hin. }
    intros tag tag' H1 H2. rewrite (H tag H1), (H tag' H2). reflexivity.
Qed.

(** ** The response *)

Lemma to_dict_clase o :
  is_rejection o = false -> dict_get (to_dict o) "Clase" = Some "NOTIFICACION".
Proof.
  unfold is_rejection. destruct o as [[|] c d f s]; cbn; [reflexivity | discriminate].
Qed.

(** X22. On a known tag, a returned response lists the whole ledger of the
    validator as it is after the call, in order, one dictionary per
    outcome: the outcomes of earlier calls followed by those of this call.
    In a valid response no listed outcome is a Rejection: every dictionary
    has the class NOTIFICACION. *)
Theorem response_lists_whole_ledger e file_type key w v resp w' :
  validators_get validators file_type = Some v ->
  process e file_type key w = (Return resp, w') ->
  ValidationResults resp = map to_dict (ledger w' v) /\
  (exists new, ledger w' v = ledger w v ++ new) /\
  (Valid resp = true ->
     has_rejections (ledger w' v) = false /\
     forall d, In d (ValidationResults resp) ->
               dict_get d "Clase" = Some "NOTIFICACION").
Proof.
  intros Hv Hp.
  destruct (process_known e file_type key w v Hv)
    as (is_valid & recs & st' & new & _ & Hnew & _ & Hp').
  rewrite Hp' in Hp. cbv zeta in Hp.
  destruct (is_valid && negb (has_rejections (results st'))) eqn:Hok.
  - destruct (open_write (json_file file_type key)); [| discriminate Hp].
    injection Hp as <- <-. cbn [ValidationResults Valid ledger].
    rewrite set_ledger_same.
    split; [reflexivity |]. split; [exists new; exact Hnew |].
    intros _. apply andb_true_iff in Hok. destruct Hok as [_ Hok].
    apply negb_true_iff in Hok. split; [exact Hok |].
    intros d Hin. apply in_map_iff in Hin. destruct Hin as (o & <- & Hin).
    apply to_dict_clase. apply (proj1 (has_rejections_false _) Hok o Hin).
  - injection Hp as <- <-. cbn [ValidationResults Valid ledger].
    rewrite set_ledger_same.
    split; [reflexivity |]. split; [exists new; exact Hnew |].
    intros Hx. discriminate Hx.
Qed.

(** X23. The dictionary of an outcome holds its five attributes under the
    keys Clase, Codigo, Descripcion, Observaciones and Fuente, and nothing
    is lost: outcomes with equal dictionaries are equal. The one
    dictionary of the response to an unknown tag is built by hand and has
    no key Observaciones. *)
Theorem to_dict_lossless r file_type :
  dict_get (to_dict r) "Clase" = Some (ValidationResultType_value (result_type r)) /\
  dict_get (to_dict r) "Codigo" = Some (code r) /\
  dict_get (to_dict r) "Descripcion" = Some (description r) /\
  dict_get (to_dict r) "Observaciones" = Some (field r) /\
  dict_get (to_dict r) "Fuente" = Some (source r) /\
  (forall r', to_dict r = to_dict r' -> r = r') /\
  (forall d, In d (ValidationResults (unsupported_response file_type)) ->
             dict_get d "Observaciones" = None /\ d <> to_dict r).
Proof.
  repeat (split; [reflexivity |]). split.
  - intros r' H. destruct r as [t c d f s], r' as [t' c' d' f' s'].
    unfold to_dict in H. cbn [result_type code description field source] in H.
    injection H as Ht -> -> -> ->.
    destruct t, t'; try reflexivity; discriminate Ht.
  - intros d [<- | []]. split; [reflexivity |]. discriminate.
Qed.

(** ** The rule primitives *)

(** X24. [validate_number] returns, sends no query and appends at most
    one Rejection. It passes exactly a number that is given and lies
    within the bounds that are given, the bounds included. A missing
    number is reported as required; a number below the lower bound is
    reported as too small, also when it is above the upper bound. *)
Theorem validate_number_passes_iff value f min_value max_value st :
  exists b new,
    validate_number value f min_value max_value st
      = (Return b, mkSelf (results st ++ new) (sql_log st)) /\
    (b = true <-> new = []) /\
    (b = true <->
       exists x, value = Some x /\
         (forall lo, min_value = Some lo -> (lo <= x)%Q) /\
         (forall hi, max_value = Some hi -> (x <= hi)%Q)) /\
    (value = None -> new = [required_rejection f]) /\
    (forall x lo, value = Some x -> min_value = Some lo -> (x < lo)%Q ->
       new = [too_small_rejection f min_value]) /\
    (forall x hi, value = Some x -> max_value = Some hi -> (hi < x)%Q ->
       (forall lo, min_value = Some lo -> (lo <= x)%Q) ->
       new = [too_large_rejection f max_value]).
Proof.
  unfold validate_number. destruct value as [x |].
  - destruct (below x min_value) eqn:Hlo; [| destruct (above x max_value) eqn:Hhi].
    + exists false, [too_small_rejection f min_value].
      unfold below in Hlo. destruct min_value as [lo |]; [| discriminate Hlo].
      apply negb_true_iff in Hlo.
      assert (Hlt : ~ (lo <= x)%Q).
      { intros H. apply Qle_bool_iff in H. rewrite H in Hlo. discriminate Hlo. }
      split; [reflexivity |]. split; [split; discriminate |]. split.
      { split; [discriminate |]. intros (y & [= <-] & Hmin & _).
        exfalso. apply Hlt, Hmin. reflexivity. }
      split; [discriminate |]. split; [reflexivity |].
      intros y hi [= <-] _ _ Hmin. exfalso. apply Hlt, Hmin. reflexivity.
    + exists false, [too_large_rejection f max_value].
      unfold above in Hhi. destruct max_value as [hi |]; [| discriminate Hhi].
      apply negb_true_iff in Hhi.
      assert (Hgt : ~ (x <= hi)%Q).
      { intros H. apply Qle_bool_iff in H. rewrite H in Hhi. discriminate Hhi. }
      assert (Hmin : forall lo, min_value = Some lo -> (lo <= x)%Q).
      { intros lo ->. unfold below in Hlo. apply negb_false_iff in Hlo.
        apply Qle_bool_iff. exact Hlo. }
      split; [reflexivity |]. split; [split; discriminate |]. split.
      { split; [discriminate |]. intros (y & [= <-] & _ & Hmax).
        exfalso. apply Hgt, Hmax. reflexivity. }
      split; [discriminate |]. split; [| reflexivity].
      intros y lo [= <-] -> Hlt. exfalso.
      apply (Qlt_not_le _ _ Hlt), Hmin. reflexivity.
    + exists true, []. split.
      { unfold ret. rewrite app_nil_r. destruct st; reflexivity. }
      assert (Hmin : forall lo, min_value = Some lo -> (lo <= x)%Q).
      { intros lo ->. unfold below in Hlo. apply negb_false_iff in Hlo.
        apply Qle_bool_iff. exact Hlo. }
      assert (Hmax : forall hi, max_value = Some hi -> (x <= hi)%Q).
      { intros hi ->. unfold above in Hhi. apply negb_false_iff in Hhi.
        apply Qle_bool_iff. exact Hhi. }
      split; [split; reflexivity |]. split.
      { split; [| reflexivity]. intros _. exists x. auto. }
      split; [discriminate |]. split.
      * intros y lo [= <-] Hlo' Hlt. exfalso.
        apply (Qlt_not_le _ _ Hlt), Hmin, Hlo'.
      * intros y hi [= <-] Hhi' Hlt _. exfalso.
        apply (Qlt_not_le _ _ Hlt), Hmax, Hhi'.
  - exists false, [required_rejection f].
    split; [reflexivity |]. split; [split; discriminate |]. split.
    { split; [discriminate | intros (y & Hy & _); discriminate Hy]. }
    split; [reflexivity |]. split; intros y b Hy; discriminate Hy.
Qed.

(** X25. [validate_code] returns, sends no query and never appends a
    Rejection. A value that is [None] or empty passes whatever the
    catalog; any other value passes exactly when it is in the named catalog,
    and otherwise one Notification is appended and the answer is false. A
    catalog name that the store does not have is an empty catalog: every
    given value misses it. *)
Theorem validate_code_never_rejects value f catalog st :
  exists b new,
    validate_code value f catalog st
      = (Return b, mkSelf (results st ++ new) (sql_log st)) /\
    has_rejections new = false /\
    (b = true <-> new = []) /\
    (b = true <-> coded value catalog) /\
    (b = false -> new = [catalog_miss value f catalog]) /\
    (truthy value = false -> b = true) /\
    (catalogs_get catalogs catalog = [] -> b = negb (truthy value)).
Proof.
  unfold validate_code.
  pose proof (passed_code value f catalog) as Hp. unfold code_outcomes in Hp.
  destruct (truthy value && negb (text_in value (catalogs_get catalogs catalog)))
    eqn:Hmiss.
  - exists false, [catalog_miss value f catalog].
    cbn [passed] in Hp.
    apply andb_true_iff in Hmiss. destruct Hmiss as [Ht Hm].
    split; [reflexivity |]. split; [reflexivity |].
    split; [split; discriminate |]. split; [exact Hp |].
    split; [reflexivity |]. split; [rewrite Ht; discriminate |].
    intros _. rewrite Ht. reflexivity.
  - exists true, []. cbn [passed] in Hp. split.
    { unfold ret. rewrite app_nil_r. destruct st; reflexivity. }
    split; [reflexivity |]. split; [split; reflexivity |]. split; [exact Hp |].
    split; [discriminate |]. split; [reflexivity |].
    intros Hempty. rewrite Hempty in Hmiss.
    replace (text_in value []) with false in Hmiss by (destruct value; reflexivity).
    cbn [negb] in Hmiss. rewrite andb_true_r in Hmiss. rewrite Hmiss. reflexivity.
Qed.

(** X26. [validate_date] returns whatever the parser does: a date that
    does not parse is turned into the one date-format Rejection, not into
    an exception. It passes exactly when a required value is not blank and
    a given value parses; a required blank value is reported as required
    without being parsed. *)
Theorem validate_date_never_raises value f required st :
  exists b new,
    validate_date value f required st
      = (Return b, mkSelf (results st ++ new) (sql_log st)) /\
    (b = true <-> new = []) /\
    (b = true <->
       (required = true -> is_blank value = false) /\
       (truthy value = true -> exists t, strptime (str value) = Return t)) /\
    (required = true -> is_blank value = true -> new = [required_rejection f]) /\
    (forall msg,
       (required = true -> is_blank value = false) ->
       truthy value = true -> strptime (str value) = Raise msg ->
       new = [date_format_rejection f]).
Proof.
  unfold validate_date.
  destruct (required && is_blank value) eqn:Hreq.
  - exists false, [required_rejection f].
    apply andb_true_iff in Hreq. destruct Hreq as [-> Hb].
    split; [reflexivity |]. split; [split; discriminate |]. split.
    { split; [discriminate |]. intros [H _]. specialize (H eq_refl). congruence. }
    split; [reflexivity |].
    intros msg H. specialize (H eq_refl). congruence.
  - assert (Hok : required = true -> is_blank value = false).
    { intros ->. exact Hreq. }
    destruct (truthy value) eqn:Ht; [destruct (strptime (str value)) as [t | msg0] eqn:Hs |].
    + exists true, []. split.
      { unfold ret. rewrite app_nil_r. destruct st; reflexivity. }
      split; [split; reflexivity |]. split.
      { split; [| reflexivity]. intros _. split; [exact Hok |].
        intros _. exists t. reflexivity. }
      split; [intros H1 H2; specialize (Hok H1); congruence |].
      intros msg _ _ H. discriminate H.
    + exists false, [date_format_rejection f].
      split; [reflexivity |]. split; [split; discriminate |]. split.
      { split; [discriminate |]. intros [_ H]. destruct (H eq_refl) as [t Ht']. discriminate Ht'. }
      split; [intros H1 H2; specialize (Hok H1); congruence |].
      intros msg _ _ _. reflexivity.
    + exists true, []. split.
      { unfold ret. rewrite app_nil_r. destruct st; reflexivity. }
      split; [split; reflexivity |]. split.
      { split; [| reflexivity]. intros _. split; [exact Hok |].
        intros H. discriminate H. }
      split; [intros H1 H2; specialize (Hok H1); congruence |].
      intros msg _ H. discriminate H.
Qed.

Lemma has_rejections_blocking new :
  has_rejections new = true -> Exists blocking new.
Proof.
  unfold has_rejections. intros H. apply existsb_exists in H.
  destruct H as (o & Hin & Ho). apply Exists_exists. exists o.
  split; [exact Hin | left; exact Ho].
Qed.

(** X27. When the ledger of the validator holds no Rejection before the
    call, the verdict of the response is the verdict of the validator: a
    call that appends a Rejection also returns false, so the test for
    Rejections in [process] changes a verdict only through the Rejections
    of earlier calls. The response is exported exactly when the validator
    accepts. *)
Theorem fresh_ledger_verdict e file_type key w v :
  validators_get validators file_type = Some v ->
  has_rejections (ledger w v) = false ->
  exists is_valid recs st',
    validate v e key (mkSelf (ledger w v) (queries w)) = (Return (is_valid, recs), st') /\
    (forall resp,
       fst (process e file_type key w) = Return resp ->
       Valid resp = is_valid /\ JSONGenerated resp = is_valid) /\
    (is_valid = false ->
       exists resp, fst (process e file_type key w) = Return resp).
Proof.
  intros Hv Hclean.
  destruct (process_known e file_type key w v Hv)
    as (is_valid & recs & st' & new & Hrun & Hnew & Hb & Hp).
  exists is_valid, recs, st'. split; [exact Hrun |].
  rewrite Hp. cbv zeta.
  assert (Hok : is_valid && negb (has_rejections (results st')) = is_valid).
  { destruct is_valid; [| reflexivity]. cbn [andb].
    rewrite Hnew, has_rejections_app, Hclean. cbn [orb].
    destruct (has_rejections new) eqn:Hrej; [| reflexivity].
    apply has_rejections_blocking, Hb in Hrej. discriminate Hrej. }
  rewrite Hok. destruct is_valid.
  - destruct (open_write (json_file file_type key)); cbn [fst].
    + split; [| intros Hx; discriminate Hx].
      intros resp [= <-]. split; reflexivity.
    + split; [| intros Hx; discriminate Hx].
      intros resp Hx. discriminate Hx.
  - cbn [fst]. split; [| intros _; eexists; reflexivity].
    intros resp [= <-]. split; reflexivity.
Qed.
End Validador.

(** ** The claims on sample runs

    The library functions are the sample ones; the store is [sample_db]. *)

Local Open Scope string_scope.
Local Open Scope list_scope.

#[local] Abbreviation py_validate :=
  (validate re_match_literal strptime_padded str_number_bounds).
#[local] Abbreviation py_process :=
  (process re_match_literal strptime_padded str_number_bounds).
#[local] Abbreviation py_string := (validate_string re_match_literal).

(** C1 as stated fails: the beneficiary "999" has a document type that is
    not in the catalog; the ledger then holds one Notification and no
    Rejection, yet the verdict of the validator and of the response is
    false and nothing is exported. *)
Lemma catalog_miss_alone_invalidates :
  let run :=
    py_validate UsuariosValidator (engine_of sample_db) "999" (mkSelf [] []) in
  let answer :=
    py_process open_write_ok (engine_of sample_db) "US" "999" RIPSProcessor_init in
  (exists recs, fst run = Return (false, recs)) /\
  results (snd run)
    = [catalog_miss (Str "XX") "tipoDocumentoIdentificacion" "TIPO_DOCUMENTO"] /\
  has_rejections (results (snd run)) = false /\
  exists resp,
    fst answer = Return resp /\
    Valid resp = false /\ JSONGenerated resp = false /\
    map (fun d => dict_get d "Clase") (ValidationResults resp)
      = [Some "NOTIFICACION"].
Proof.
  vm_compute.
  split; [eexists; reflexivity |].
  split; [reflexivity |]. split; [reflexivity |].
  eexists. repeat split.
Qed.

Lemma verdict_false_iff_rejection_or_catalog_miss_witness :
  exists valid recs st' new,
    py_validate UsuariosValidator (engine_of sample_db) "123456" (mkSelf [] [])
      = (Return (valid, recs), st') /\
    results st' = [] ++ new /\
    (valid = false <->
     Exists (fun o => is_rejection o = true \/ is_catalog_miss o) new) /\
    ((forall o, In o new -> is_rejection o = false /\ ~ is_catalog_miss o) ->
     valid = true).
Proof.
  exact (proj1 (verdict_false_iff_rejection_or_catalog_miss
                  re_match_literal strptime_padded str_number_bounds open_write_ok
                  UsuariosValidator (engine_of sample_db) "123456")
               (mkSelf [] [])).
Defined.

(** C2. Two calls of [process] on the same type and key with the store
    unchanged: no transaction "TRANS_001" exists, the first response lists
    one "ERR_AF_001", the second lists it twice. *)
Theorem process_twice_accumulates :
  let e := engine_of sample_db in
  let first := py_process open_write_ok e "AF" "TRANS_001" RIPSProcessor_init in
  let second := py_process open_write_ok e "AF" "TRANS_001" (snd first) in
  exists r1 r2,
    fst first = Return r1 /\ fst second = Return r2 /\
    response_codes r1 = [Some "ERR_AF_001"] /\
    response_codes r2 = [Some "ERR_AF_001"; Some "ERR_AF_001"].
Proof.
  vm_compute. do 2 eexists. repeat split.
Qed.

(** A verdict of the validator that is true, under a ledger that holds an
    earlier Rejection: the beneficiary "123456" is valid, the call before
    it was for a beneficiary that does not exist. *)
Lemma rejection_blocks_export_witness :
  let e := engine_of sample_db in
  let w := snd (py_process open_write_ok e "US" "nobody" RIPSProcessor_init) in
  validators_get validators "US" = Some UsuariosValidator /\
  (exists recs st',
      py_validate UsuariosValidator e "123456"
        (mkSelf (ledger w UsuariosValidator) (queries w))
      = (Return (true, recs), st')) /\
  exists resp,
    fst (py_process open_write_ok e "US" "123456" w) = Return resp /\
    Valid resp = false /\ JSONGenerated resp = false /\
    files (snd (py_process open_write_ok e "US" "123456" w)) = files w.
Proof.
  intros e w.
  split; [reflexivity |].
  split; [vm_compute; do 2 eexists; reflexivity |].
  destruct (rejection_blocks_export
              re_match_literal strptime_padded str_number_bounds open_write_ok
              e "US" "123456" w UsuariosValidator eq_refl)
    as (is_valid & recs & st' & _ & Hledger & Hrej & _).
  apply Hrej. rewrite <- Hledger. vm_compute. reflexivity.
Defined.

Lemma zero_rows_rejected_witness :
  let e := engine_of sample_db in
  validators_get validators "AF" = Some TransaccionesValidator /\
  select_rows e (validator_query TransaccionesValidator) (Str "TRANS_001") = Return [] /\
  exists resp w',
    py_process open_write_ok e "AF" "TRANS_001" RIPSProcessor_init = (Return resp, w') /\
    Valid resp = false /\ JSONGenerated resp = false /\ JSONFile resp = None /\
    ledger w' TransaccionesValidator
      = ledger RIPSProcessor_init TransaccionesValidator
          ++ [not_found TransaccionesValidator "TRANS_001"] /\
    files w' = files RIPSProcessor_init.
Proof.
  intros e.
  split; [reflexivity |]. split; [reflexivity |].
  exact (proj2 (proj2 (proj2
          (zero_rows_rejected
             re_match_literal strptime_padded str_number_bounds open_write_ok
             e "AF" "TRANS_001" RIPSProcessor_init TransaccionesValidator
             eq_refl eq_refl)))).
Defined.

Lemma process_unknown_tag_witness :
  validators_get validators "ZZ" = None /\
  py_process open_write_ok (engine_down "connection lost") "ZZ" "X1" RIPSProcessor_init
    = (Return (unsupported_response "ZZ"), RIPSProcessor_init).
Proof.
  split; [reflexivity |].
  exact (proj1 (process_unknown_tag
                  re_match_literal strptime_padded str_number_bounds open_write_ok
                  (engine_down "connection lost") "ZZ" "X1" RIPSProcessor_init
                  eq_refl)).
Defined.

Lemma rejection_poisons_validator_witness :
  let e := engine_of sample_db in
  let w := snd (py_process open_write_ok e "US" "nobody" RIPSProcessor_init) in
  validators_get validators "US" = Some UsuariosValidator /\
  has_rejections (ledger w UsuariosValidator) = true /\
  exists resp w',
    py_process open_write_ok e "US" "123456"
      (process_calls re_match_literal strptime_padded str_number_bounds open_write_ok
         [(e, "AC", "CONS_001"); (e, "US", "123456")] w)
      = (Return resp, w') /\
    Valid resp = false /\ JSONGenerated resp = false.
Proof.
  intros e w.
  split; [reflexivity |]. split; [vm_compute; reflexivity |].
  destruct (rejection_poisons_validator
              re_match_literal strptime_padded str_number_bounds open_write_ok
              e "US" "123456" UsuariosValidator w
              [(e, "AC", "CONS_001"); (e, "US", "123456")]
              eq_refl ltac:(vm_compute; reflexivity))
    as (resp & w' & Hp & Hvalid & Hexp & _).
  exists resp, w'. repeat split; assumption.
Defined.

(** C4 as stated fails: the beneficiary "123456" is valid, the disk is full
    when the export is written, and [process] raises the error of the
    write instead of returning a response. *)
Lemma export_failure_raises :
  fst (py_process open_write_full (engine_of sample_db) "US" "123456" RIPSProcessor_init)
    = Raise "[Errno 28] No space left on device".
Proof. vm_compute. reflexivity. Qed.

Lemma failures_recovered_except_export_witness :
  let down := engine_down "connection lost" in
  let half := engine_count_down sample_db "query timeout" in
  select_rows down (validator_query ConsultasValidator) (Str "CONS_001")
    = Raise "connection lost" /\
  py_validate ConsultasValidator down "CONS_001" (mkSelf [] [])
    = (Return (false, []),
       mkSelf ([] ++ [query_error ConsultasValidator "connection lost"])
              ([] ++ [(validator_query ConsultasValidator, Str "CONS_001")])) /\
  select_rows half (validator_query ConsultasValidator) (Str "CONS_001")
    = Return [consulta_001] /\
  (exists st' pre,
      py_validate ConsultasValidator half "CONS_001" (mkSelf [] [])
        = (Return (false, []), st') /\
      results st' = [] ++ pre ++ [query_error ConsultasValidator "query timeout"]) /\
  exists resp,
    fst (py_process open_write_full (engine_of sample_db) "US" "999" RIPSProcessor_init)
      = Return resp /\
    Valid resp = false /\ JSONGenerated resp = false.
Proof.
  intros down half.
  pose proof (failures_recovered_except_export
                re_match_literal strptime_padded str_number_bounds open_write_full
                (engine_of sample_db) "US" "999" RIPSProcessor_init) as Hfull.
  pose proof (failures_recovered_except_export
                re_match_literal strptime_padded str_number_bounds open_write_ok
                down "AC" "CONS_001" RIPSProcessor_init) as Hdown.
  pose proof (failures_recovered_except_export
                re_match_literal strptime_padded str_number_bounds open_write_ok
                half "AC" "CONS_001" RIPSProcessor_init) as Hhalf.
  split; [reflexivity |].
  split; [exact (proj1 (proj1 (proj2 Hdown) ConsultasValidator (mkSelf [] [])
                          "connection lost" eq_refl)) |].
  split; [reflexivity |]. split.
  - destruct (proj1 (proj2 (proj2 Hhalf)) ConsultasValidator (mkSelf [] [])
                consulta_001 [] "query timeout" eq_refl eq_refl
                (fun q k => eq_refl))
      as (st' & pre & msg' & Hrun & Hres & Hmsg).
    exists st', pre. split; [exact Hrun |].
    rewrite Hres, (Hmsg ltac:(discriminate)). reflexivity.
  - destruct (proj1 (proj2 (proj2 (proj2 (proj2 (proj2 Hfull)))))
                UsuariosValidator eq_refl)
      as (is_valid & recs & st' & Hrun & _ & Hret).
    apply Hret. left.
    vm_compute in Hrun. injection Hrun as Hv _ _. symmetry. exact Hv.
Defined.

Lemma consultas_copago_rule_witness :
  let e := engine_of sample_db in
  select_rows e Consultas_query (Str "CONS_002") = Return [consulta_002] /\
  txt consulta_002 "codConsulta" = Str "999999" /\
  "999999" <> "" /\
  txt consulta_002 "conceptoRecaudo" = Str "01" /\
  exists valid recs st' new,
    py_validate ConsultasValidator e "CONS_002" (mkSelf [] [])
      = (Return (valid, recs), st') /\
    results st' = [] ++ new /\
    In copago_no_permitido new /\ valid = false.
Proof.
  intros e.
  assert (Hne : "999999"%string <> ""%string) by discriminate.
  split; [reflexivity |]. split; [reflexivity |].
  split; [exact Hne |]. split; [reflexivity |].
  destruct (proj1 (consultas_copago_rule
                     re_match_literal strptime_padded str_number_bounds
                     e "CONS_002" (mkSelf [] []) consulta_002 [] "999999"
                     eq_refl eq_refl Hne eq_refl))
    as (valid & recs & st' & new & Hrun & Hnew & Hno & _).
  exists valid, recs, st', new.
  split; [exact Hrun |]. split; [exact Hnew |]. apply Hno. reflexivity.
Defined.

(** C7 as stated fails: the value " A" trimmed is "A" and matches the
    pattern "A"; [validate_string] matches the value as given and appends
    the pattern Rejection, where a check on the trimmed value appends
    nothing. *)
Lemma pattern_checked_untrimmed :
  py_string (Str " A") "f" 5 true (Some "A") (mkSelf [] [])
    = (Return false, mkSelf [pattern_rejection "f"] []) /\
  RequiredString_spec re_match_literal (Str " A") "f" 5 true (Some "A") (mkSelf [] [])
    = (Return true, mkSelf [] []) /\
  re_match_literal "A" (PyStr.strip " A") = true.
Proof. vm_compute. repeat split. Qed.

Lemma validate_string_checks_witness :
  exists b new,
    py_string (Str "ABCDEFG") "codConsulta" 6 true None (mkSelf [] [])
      = (Return b, mkSelf ([] ++ new) []) /\
    new = [too_long_rejection "codConsulta" 6].
Proof.
  pose proof (validate_string_checks re_match_literal
                (Str "ABCDEFG") "codConsulta" 6 true None (mkSelf [] [])) as H.
  cbv zeta in H.
  destruct H as (b & new & Hrun & _ & _ & _ & Hlong & _).
  exists b, new. split; [exact Hrun |]. apply Hlong; reflexivity.
Defined.

(** C9 as stated fails: the discharge date of the stay "HOSP_003" is one
    space, which is not empty and does not parse. [validate_date] reports
    it as required ("ERR_fechaEgreso_001"); the ledger holds no date-format
    Rejection before "ERR_AH_004". *)
Lemma blank_date_reported_as_required :
  let run :=
    py_validate HospitalizacionValidator (engine_of sample_db) "HOSP_003"
      (mkSelf [] []) in
  select_rows (engine_of sample_db) Hospitalizacion_query (Str "HOSP_003")
    = Return [hospitalizacion_003] /\
  txt hospitalizacion_003 "fechaIngreso" = Str "2024-01-10 08:00:00" /\
  txt hospitalizacion_003 "fechaEgreso" = Str " " /\
  truthy (txt hospitalizacion_003 "fechaIngreso") = true /\
  truthy (txt hospitalizacion_003 "fechaEgreso") = true /\
  (exists m, strptime_padded " " = Raise m) /\
  fst run = Return (false, []) /\
  map code (results (snd run)) = ["ERR_fechaEgreso_001"; "ERR_AH_004"] /\
  ~ In (date_format_rejection "fechaEgreso") (results (snd run)).
Proof.
  vm_compute.
  split; [reflexivity |]. split; [reflexivity |]. split; [reflexivity |].
  split; [reflexivity |]. split; [reflexivity |].
  split; [eexists; reflexivity |].
  split; [reflexivity |]. split; [reflexivity |].
  intros [H | [H | []]]; discriminate H.
Qed.

Lemma hospitalizacion_unparsable_date_witness :
  let e := engine_of sample_db in
  select_rows e Hospitalizacion_query (Str "HOSP_001") = Return [hospitalizacion_001] /\
  truthy (txt hospitalizacion_001 "fechaIngreso") = true /\
  truthy (txt hospitalizacion_001 "fechaEgreso") = true /\
  (exists m, strptime_padded (str (txt hospitalizacion_001 "fechaEgreso")) = Raise m) /\
  exists st' pre msg,
    py_validate HospitalizacionValidator e "HOSP_001" (mkSelf [] [])
      = (Return (false, []), st') /\
    results st' = [] ++ pre ++ [query_error HospitalizacionValidator msg] /\
    In (date_format_rejection "fechaEgreso") pre.
Proof.
  intros e.
  assert (Hbad : exists m,
             strptime_padded (str (txt hospitalizacion_001 "fechaEgreso")) = Raise m).
  { eexists. vm_compute. reflexivity. }
  split; [reflexivity |]. split; [reflexivity |]. split; [reflexivity |].
  split; [exact Hbad |].
  destruct (hospitalizacion_unparsable_date
              re_match_literal strptime_padded str_number_bounds
              e "HOSP_001" (mkSelf [] []) hospitalizacion_001 []
              eq_refl eq_refl eq_refl (or_intror Hbad))
    as (st' & pre & msg & Hrun & Hres & _ & _ & _ & Hpre).
  exists st', pre, msg.
  split; [exact Hrun |]. split; [exact Hres |].
  destruct Hbad as [m Hm].
  exact (proj1 (Hpre "fechaEgreso" m (or_intror eq_refl) Hm) eq_refl).
Defined.

(** ** Sample runs on the store with every record type *)

#[local] Abbreviation services := (engine_of services_db).
#[local] Abbreviation fresh := (mkSelf [] []).

(** The beneficiary "777" has no country of origin in the store. Its fetch
    has a second row with a country, so the NULL arrives as NaN, and the
    beneficiary is accepted. The beneficiary "778", the same record fetched
    alone, has [None] there and is refused. *)
Lemma usuarios_accepted_iff_witness :
  select_rows services Usuarios_query (Str "777")
    = Return [usuario_777; usuario_777_bis] /\
  txt usuario_777 "codPaisOrigen" = NaN /\
  (exists recs st',
      py_validate UsuariosValidator services "777" fresh
        = (Return (true, recs), st')) /\
  select_rows services Usuarios_query (Str "778") = Return [usuario_778] /\
  txt usuario_778 "codPaisOrigen" = PyNone /\
  (exists recs st',
      py_validate UsuariosValidator services "778" fresh
        = (Return (false, recs), st')).
Proof.
  split; [reflexivity |]. split; [reflexivity |]. split.
  - destruct (usuarios_accepted_iff re_match_literal strptime_padded str_number_bounds
                services "777" fresh usuario_777 [usuario_777_bis] eq_refl)
      as (valid & recs & st' & Hrun & Hiff).
    exists recs, st'. rewrite Hrun.
    replace valid with true; [reflexivity |].
    symmetry. apply Hiff.
    split; [split; [reflexivity | cbn; lia] |].
    split; [split; [reflexivity | cbn; lia] |].
    split; [apply filled_NaN; lia |].
    intros _. reflexivity.
  - split; [reflexivity |]. split; [reflexivity |].
    destruct (usuarios_accepted_iff re_match_literal strptime_padded str_number_bounds
                services "778" fresh usuario_778 [] eq_refl)
      as (valid & recs & st' & Hrun & Hiff).
    exists recs, st'. rewrite Hrun.
    destruct valid; [exfalso | reflexivity].
    destruct (proj1 Hiff eq_refl) as (_ & _ & Hpais & _).
    exact (filled_PyNone 3 Hpais).
Defined.

(** The transaction "TRANS_001", a note of type RS without invoice, is
    accepted. The transaction "TRANS_002" has no note type in the store;
    its fetch has a second row with one, so the NULL arrives as NaN, and
    the transaction is refused. *)
Lemma transacciones_accepted_iff_witness :
  select_rows services Transacciones_query (Str "TRANS_001")
    = Return [transaccion_001; transaccion_001_bis] /\
  (exists recs st',
      py_validate TransaccionesValidator services "TRANS_001" fresh
        = (Return (true, recs), st')) /\
  select_rows services Transacciones_query (Str "TRANS_002")
    = Return [transaccion_002; transaccion_002_bis] /\
  txt transaccion_002 "tipoNota" = NaN /\
  (exists recs st',
      py_validate TransaccionesValidator services "TRANS_002" fresh
        = (Return (false, recs), st')).
Proof.
  split; [reflexivity |]. split.
  - destruct (transacciones_accepted_iff re_match_literal strptime_padded str_number_bounds
                services "TRANS_001" fresh transaccion_001 [transaccion_001_bis] eq_refl)
      as (valid & recs & st' & Hrun & Hiff).
    exists recs, st'. rewrite Hrun.
    replace valid with true; [reflexivity |].
    symmetry. apply Hiff. unfold filled, fits, coded. cbn.
    repeat split; try reflexivity; try lia; try discriminate; auto.
  - split; [reflexivity |]. split; [reflexivity |].
    destruct (transacciones_accepted_iff re_match_literal strptime_padded str_number_bounds
                services "TRANS_002" fresh transaccion_002 [transaccion_002_bis] eq_refl)
      as (valid & recs & st' & Hrun & Hiff).
    exists recs, st'. rewrite Hrun.
    destruct valid; [exfalso | reflexivity].
    destruct (proj1 Hiff eq_refl) as (_ & _ & _ & Htipo & _).
    pose proof (proj1 (fits_NaN 2) Htipo). lia.
Defined.

(** The service "OS_001" is accepted: two units, for a beneficiary that is
    in Usuarios. *)
Lemma otros_servicios_accepted_iff_witness :
  select_rows services OtrosServicios_query (Str "OS_001")
    = Return [otro_servicio_001] /\
  exists recs st',
    py_validate OtrosServiciosValidator services "OS_001" fresh
      = (Return (true, recs), st').
Proof.
  split; [reflexivity |].
  destruct (otros_servicios_accepted_iff re_match_literal strptime_padded str_number_bounds
              services "OS_001" fresh otro_servicio_001 [] eq_refl)
    as (valid & recs & st' & Hrun & Hiff).
  exists recs, st'. rewrite Hrun.
  replace valid with true; [reflexivity |].
  symmetry. apply Hiff. unfold filled, coded, at_least, registered.
  repeat split; try reflexivity; try (cbn; lia); try (cbn; auto; fail).
  - exists (2 # 1)%Q. split; [reflexivity | discriminate].
  - exists 1%Z. split; [reflexivity | discriminate].
Defined.

Lemma urgencias_accepted_iff_witness :
  select_rows services Urgencias_query (Str "URG_001") = Return [urgencia_001] /\
  exists recs st',
    py_validate UrgenciasValidator services "URG_001" fresh
      = (Return (true, recs), st').
Proof.
  split; [reflexivity |].
  destruct (urgencias_accepted_iff re_match_literal strptime_padded str_number_bounds
              services "URG_001" fresh urgencia_001 [] eq_refl)
    as (valid & recs & st' & Hrun & Hiff).
  exists recs, st'. rewrite Hrun.
  replace valid with true; [reflexivity |].
  symmetry. apply Hiff. unfold filled, coded, dated, registered.
  repeat split; try reflexivity; try (cbn; lia); try (cbn; auto; fail).
  - eexists. vm_compute. reflexivity.
  - exists 1%Z. split; [reflexivity | discriminate].
Defined.

(** The procedure "PROC_001", without authorization number, is accepted. *)
Lemma procedimientos_accepted_iff_witness :
  select_rows services Procedimientos_query (Str "PROC_001")
    = Return [procedimiento_001] /\
  exists recs st',
    py_validate ProcedimientosValidator services "PROC_001" fresh
      = (Return (true, recs), st').
Proof.
  split; [reflexivity |].
  destruct (procedimientos_accepted_iff re_match_literal strptime_padded str_number_bounds
              services "PROC_001" fresh procedimiento_001 [] eq_refl)
    as (valid & recs & st' & Hrun & Hiff).
  exists recs, st'. rewrite Hrun.
  replace valid with true; [reflexivity |].
  symmetry. apply Hiff. unfold filled, fits, coded, dated, registered.
  repeat split; try reflexivity; try (cbn; lia); try (cbn; auto; fail);
    try (cbn; discriminate).
  - eexists. vm_compute. reflexivity.
  - exists 1%Z. split; [reflexivity | discriminate].
Defined.

(** The medicine "MED_001", a compounded preparation, is accepted. *)
Lemma medicamentos_accepted_iff_witness :
  select_rows services Medicamentos_query (Str "MED_001")
    = Return [medicamento_001] /\
  exists recs st',
    py_validate MedicamentosValidator services "MED_001" fresh
      = (Return (true, recs), st').
Proof.
  split; [reflexivity |].
  destruct (medicamentos_accepted_iff re_match_literal strptime_padded str_number_bounds
              services "MED_001" fresh medicamento_001 [] eq_refl)
    as (valid & recs & st' & Hrun & Hiff).
  exists recs, st'. rewrite Hrun.
  replace valid with true; [reflexivity |].
  symmetry. apply Hiff. unfold filled, fits, coded, registered.
  repeat split; try reflexivity; try (cbn; lia); try (cbn; auto; fail).
  exists 1%Z. split; [reflexivity | discriminate].
Defined.

(** The newborn "RN_001", of sex "X", is not accepted. *)
Lemma recien_nacido_accepted_iff_witness :
  select_rows services RecienNacido_query (Str "RN_001")
    = Return [recien_nacido_001] /\
  exists recs st',
    py_validate RecienNacidoValidator services "RN_001" fresh
      = (Return (false, recs), st').
Proof.
  split; [reflexivity |].
  destruct (recien_nacido_accepted_iff re_match_literal strptime_padded str_number_bounds
              services "RN_001" fresh recien_nacido_001 [] eq_refl)
    as (valid & recs & st' & Hrun & Hiff).
  exists recs, st'. rewrite Hrun.
  destruct valid; [exfalso | reflexivity].
  destruct (proj1 Hiff eq_refl) as (_ & _ & _ & _ & _ & Hsexo & _).
  discriminate Hsexo.
Defined.

(** The consultation "CONS_001" is accepted. *)
Lemma consultas_accepted_iff_witness :
  select_rows services Consultas_query (Str "CONS_001") = Return [consulta_001] /\
  exists recs st',
    py_validate ConsultasValidator services "CONS_001" fresh
      = (Return (true, recs), st').
Proof.
  split; [reflexivity |].
  destruct (consultas_accepted_iff re_match_literal strptime_padded str_number_bounds
              services "CONS_001" fresh consulta_001 [] eq_refl)
    as (valid & recs & st' & Hrun & Hiff).
  exists recs, st'. rewrite Hrun.
  replace valid with true; [reflexivity |].
  symmetry. apply Hiff. unfold filled, fits, coded, dated, registered.
  repeat split; try reflexivity; try (cbn; lia); try (cbn; auto; fail).
  - eexists. vm_compute. reflexivity.
  - exists 1%Z. split; [reflexivity | discriminate].
Defined.

(** The stay "HOSP_002", which ends before it starts, is not accepted. *)
Lemma hospitalizacion_accepted_iff_witness :
  select_rows services Hospitalizacion_query (Str "HOSP_002")
    = Return [hospitalizacion_002] /\
  exists recs st',
    py_validate HospitalizacionValidator services "HOSP_002" fresh
      = (Return (false, recs), st').
Proof.
  split; [reflexivity |].
  destruct (hospitalizacion_accepted_iff re_match_literal strptime_padded str_number_bounds
              services "HOSP_002" fresh hospitalizacion_002 [] eq_refl)
    as (valid & recs & st' & Hrun & Hiff).
  exists recs, st'. rewrite Hrun.
  destruct valid; [exfalso | reflexivity].
  destruct (proj1 Hiff eq_refl) as (_ & _ & _ & _ & _ & _ & _ & _ & Horder & _).
  specialize (Horder _ _ eq_refl eq_refl). vm_compute in Horder.
  apply Horder. reflexivity.
Defined.

(** The newborn "RN_001" has the sex "X". *)
Lemma recien_nacido_sexo_rule_witness :
  select_rows services RecienNacido_query (Str "RN_001")
    = Return [recien_nacido_001] /\
  text_in (txt recien_nacido_001 "sexoRecienNacido") ["M"; "F"] = false /\
  exists recs st' new,
    py_validate RecienNacidoValidator services "RN_001" fresh
      = (Return (false, recs), st') /\
    results st' = [] ++ new /\
    In sexo_invalido new.
Proof.
  split; [reflexivity |]. split; [reflexivity |].
  destruct (recien_nacido_sexo_rule re_match_literal strptime_padded str_number_bounds
              services "RN_001" fresh recien_nacido_001 [] eq_refl)
    as (valid & recs & st' & new & Hrun & Hnew & Hno & _).
  destruct (Hno eq_refl) as [Hin ->].
  exists recs, st', new. auto.
Defined.

(** The stay "HOSP_002" is discharged five days before its admission. *)
Lemma hospitalizacion_egreso_rule_witness :
  select_rows services Hospitalizacion_query (Str "HOSP_002")
    = Return [hospitalizacion_002] /\
  (exists t_ingreso t_egreso,
      strptime_padded (str (txt hospitalizacion_002 "fechaIngreso")) = Return t_ingreso /\
      strptime_padded (str (txt hospitalizacion_002 "fechaEgreso")) = Return t_egreso /\
      (t_egreso < t_ingreso)%Z) /\
  exists recs st' new,
    py_validate HospitalizacionValidator services "HOSP_002" fresh
      = (Return (false, recs), st') /\
    results st' = [] ++ new /\
    In egreso_anterior new.
Proof.
  split; [reflexivity |].
  split; [do 2 eexists; split; [vm_compute; reflexivity |];
          split; [vm_compute; reflexivity | reflexivity] |].
  destruct (hospitalizacion_egreso_rule re_match_literal strptime_padded str_number_bounds
              services "HOSP_002" fresh hospitalizacion_002 [] _ _
              eq_refl eq_refl eq_refl eq_refl eq_refl)
    as (valid & recs & st' & new & Hrun & Hnew & Hbefore & _).
  destruct (Hbefore eq_refl) as [Hin ->].
  exists recs, st', new. auto.
Defined.

(** The medicine "MED_001": "MAGISTRAL" in its name, "0.5" as its
    concentration. *)
Lemma medicamentos_magistral_rule_witness :
  select_rows services Medicamentos_query (Str "MED_001")
    = Return [medicamento_001] /\
  exists valid recs st' new,
    py_validate MedicamentosValidator services "MED_001" fresh
      = (Return (valid, recs), st') /\
    results st' = [] ++ new /\
    In preparacion_magistral new /\ In decimales_no_soportados new.
Proof.
  split; [reflexivity |].
  pose proof (medicamentos_magistral_rule re_match_literal strptime_padded str_number_bounds
                services "MED_001" fresh medicamento_001 [] eq_refl) as H.
  cbv zeta in H.
  destruct H as (valid & recs & st' & new & Hrun & Hnew & Hmag & _ & Hdec & _).
  exists valid, recs, st', new.
  split; [exact Hrun |]. split; [exact Hnew |].
  split; [apply Hmag | apply Hdec]; reflexivity.
Defined.

(** The transaction "TRANS_001": a note of type RS, the invoice number
    NULL. *)
Lemma transacciones_sin_factura_rule_witness :
  select_rows services Transacciones_query (Str "TRANS_001")
    = Return [transaccion_001; transaccion_001_bis] /\
  exists valid recs st' new,
    py_validate TransaccionesValidator services "TRANS_001" fresh
      = (Return (valid, recs), st') /\
    results st' = [] ++ new /\
    In sin_factura_permitido new.
Proof.
  split; [reflexivity |].
  pose proof (transacciones_sin_factura_rule re_match_literal strptime_padded str_number_bounds
                services "TRANS_001" fresh transaccion_001 [transaccion_001_bis]
                eq_refl) as H.
  cbv zeta in H.
  destruct H as (valid & recs & st' & new & Hrun & Hnew & Hyes & _).
  exists valid, recs, st', new.
  split; [exact Hrun |]. split; [exact Hnew |]. apply Hyes. reflexivity.
Defined.

Lemma procedimientos_autorizacion_rule_witness :
  select_rows services Procedimientos_query (Str "PROC_001")
    = Return [procedimiento_001] /\
  isna (txt procedimiento_001 "numAutorizacion") = true /\
  exists valid recs st' new,
    py_validate ProcedimientosValidator services "PROC_001" fresh
      = (Return (valid, recs), st') /\
    results st' = [] ++ new /\
    In autorizacion_no_requerida new.
Proof.
  split; [reflexivity |]. split; [reflexivity |].
  destruct (procedimientos_autorizacion_rule re_match_literal strptime_padded str_number_bounds
              services "PROC_001" fresh procedimiento_001 [] eq_refl)
    as (valid & recs & st' & new & Hrun & Hnew & Hyes & _).
  exists valid, recs, st', new.
  split; [exact Hrun |]. split; [exact Hnew |]. apply Hyes. reflexivity.
Defined.

(** The mother "555" of the newborn "RN_001" is not in Usuarios. *)
Lemma beneficiary_cross_reference_witness :
  user_missing_code RecienNacidoValidator = Some "ERR_AN_003" /\
  select_rows services (validator_query RecienNacidoValidator) (Str "RN_001")
    = Return [recien_nacido_001] /\
  select_count services query_user (txt recien_nacido_001 "numDocumentoIdentificacion")
    = Return 0%Z /\
  exists recs st' new,
    py_validate RecienNacidoValidator services "RN_001" fresh
      = (Return (false, recs), st') /\
    results st' = [] ++ new /\
    In (user_missing "ERR_AN_003" recien_nacido_001) new.
Proof.
  split; [reflexivity |]. split; [reflexivity |]. split; [reflexivity |].
  destruct (beneficiary_cross_reference re_match_literal strptime_padded str_number_bounds
              RecienNacidoValidator "ERR_AN_003" services "RN_001" fresh
              recien_nacido_001 [] eq_refl eq_refl)
    as (valid & recs & st' & new & Hrun & Hnew & Hzero & _).
  destruct (Hzero eq_refl) as [-> [Hin | [Hah _]]]; [| discriminate Hah].
  exists recs, st', new. auto.
Defined.

(** The transaction "TRANS_001" with one row and with two: the same
    verdict, the same ledger; the second row, which has no provider code
    and an unknown note type, is handed back with the first. *)
Lemma only_first_row_validated_witness :
  let one := engine_of services_db_single in
  select_rows services (validator_query TransaccionesValidator) (Str "TRANS_001")
    = Return [transaccion_001; transaccion_001_bis] /\
  select_rows one (validator_query TransaccionesValidator) (Str "TRANS_001")
    = Return [transaccion_001] /\
  exists valid st',
    py_validate TransaccionesValidator services "TRANS_001" fresh
      = (Return (valid, [transaccion_001; transaccion_001_bis]), st') /\
    py_validate TransaccionesValidator one "TRANS_001" fresh
      = (Return (valid, [transaccion_001]), st').
Proof.
  intros one. split; [reflexivity |]. split; [reflexivity |].
  destruct (only_first_row_validated re_match_literal strptime_padded str_number_bounds
              TransaccionesValidator services one "TRANS_001" fresh
              transaccion_001 [transaccion_001_bis] [] eq_refl eq_refl eq_refl)
    as (valid & recs & recs' & st' & Hrun & Hrun' & [[-> ->] | [-> ->]]).
  - exists valid, st'. split; assumption.
  - exfalso. vm_compute in Hrun. discriminate Hrun.
Defined.

(** The export of the transaction "TRANS_001" holds both rows. *)
Lemma export_holds_fetched_rows_witness :
  let answer :=
    py_process open_write_ok services "AF" "TRANS_001" RIPSProcessor_init in
  validators_get validators "AF" = Some TransaccionesValidator /\
  (exists resp, fst answer = Return resp /\ JSONGenerated resp = true) /\
  files (snd answer)
    = [("rips_AF_TRANS_001.json", [transaccion_001; transaccion_001_bis])].
Proof.
  intros answer. split; [reflexivity |].
  assert (Hresp : exists resp, fst answer = Return resp /\ JSONGenerated resp = true).
  { vm_compute. eexists. split; reflexivity. }
  split; [exact Hresp |].
  destruct Hresp as (resp & Hfst & Hexp).
  destruct (export_holds_fetched_rows re_match_literal strptime_padded str_number_bounds
              open_write_ok services "AF" "TRANS_001" RIPSProcessor_init
              TransaccionesValidator resp (snd answer) eq_refl)
    as (rows & Hrows & _ & _ & Hfiles).
  - rewrite <- Hfst. apply surjective_pairing.
  - exact Hexp.
  - rewrite Hfiles. injection Hrows as <-. reflexivity.
Defined.

(** Calls for a consultation and for an unknown tag leave the ledger of
    the validator of US as the rejected beneficiary "nobody" left it. *)
Lemma other_tags_leave_ledger_witness :
  let w := snd (py_process open_write_ok services "US" "nobody" RIPSProcessor_init) in
  let calls := [(services, "AC", "CONS_002"); (services, "ZZ", "X1")] in
  validators_get validators "US" = Some UsuariosValidator /\
  ledger (process_calls re_match_literal strptime_padded str_number_bounds open_write_ok
            calls w) UsuariosValidator
    = [not_found UsuariosValidator "nobody"].
Proof.
  intros w calls. split; [reflexivity |].
  rewrite (other_tags_leave_ledger re_match_literal strptime_padded str_number_bounds
             open_write_ok calls w "US" UsuariosValidator eq_refl).
  - reflexivity.
  - intros e file_type key [[= _ <- _] | [[= _ <- _] | []]]; discriminate.
Defined.

(** The second response for the beneficiary "123456" lists the Rejection of
    the call before it, then nothing of its own. *)
Lemma response_lists_whole_ledger_witness :
  let w := snd (py_process open_write_ok services "US" "nobody" RIPSProcessor_init) in
  let answer := py_process open_write_ok services "US" "123456" w in
  validators_get validators "US" = Some UsuariosValidator /\
  exists resp,
    fst answer = Return resp /\
    ValidationResults resp = map to_dict (ledger (snd answer) UsuariosValidator) /\
    ledger (snd answer) UsuariosValidator = [not_found UsuariosValidator "nobody"].
Proof.
  intros w answer. split; [reflexivity |].
  assert (Hresp : exists resp, fst answer = Return resp).
  { vm_compute. eexists. reflexivity. }
  destruct Hresp as (resp & Hfst). exists resp. split; [exact Hfst |].
  destruct (response_lists_whole_ledger re_match_literal strptime_padded str_number_bounds
              open_write_ok services "US" "123456" w UsuariosValidator resp (snd answer)
              eq_refl)
    as (Hlist & _ & _).
  - rewrite <- Hfst. apply surjective_pairing.
  - split; [exact Hlist | reflexivity].
Defined.

(** On a new processor the response for the stay "HOSP_002" has the
    verdict of the validator, false. *)
Lemma fresh_ledger_verdict_witness :
  validators_get validators "AH" = Some HospitalizacionValidator /\
  has_rejections (ledger RIPSProcessor_init HospitalizacionValidator) = false /\
  exists resp,
    fst (py_process open_write_ok services "AH" "HOSP_002" RIPSProcessor_init)
      = Return resp /\
    Valid resp = false /\ JSONGenerated resp = false.
Proof.
  split; [reflexivity |]. split; [reflexivity |].
  destruct (fresh_ledger_verdict re_match_literal strptime_padded str_number_bounds
              open_write_ok services "AH" "HOSP_002" RIPSProcessor_init
              HospitalizacionValidator eq_refl eq_refl)
    as (is_valid & recs & st' & Hrun & Hresp & Hfalse).
  assert (Hv : is_valid = false).
  { vm_compute in Hrun. injection Hrun as <- _ _. reflexivity. }
  destruct (Hfalse Hv) as (resp & Hfst).
  exists resp. split; [exact Hfst |].
  destruct (Hresp resp Hfst) as [-> ->]. split; exact Hv.
Defined.

(** * The query browser: verified properties *)

Lemma lstrip_head s :
  match PyStr.lstrip s with
  | String c _ => PyStr.isspace c = false
  | EmptyString => True
  end.
Proof.
  induction s as [| c s IH]; cbn [PyStr.lstrip]; [exact I |].
  destruct (PyStr.isspace c) eqn:E; [exact IH | exact E].
Qed.

Lemma lstrip_fixed s :
  match s with
  | String c _ => PyStr.isspace c = false
  | EmptyString => True
  end ->
  PyStr.lstrip s = s.
Proof.
  destruct s as [| c s]; [reflexivity |]. cbn [PyStr.lstrip]. intros ->. reflexivity.
Qed.

Lemma rstrip_head s :
  match s with
  | String c _ => PyStr.isspace c = false
  | EmptyString => True
  end ->
  match PyStr.rstrip s with
  | String c _ => PyStr.isspace c = false
  | EmptyString => True
  end.
Proof.
  destruct s as [| c s]; [intros _; exact I |]. cbn [PyStr.rstrip]. intros Hc.
  destruct (PyStr.rstrip s); [rewrite Hc |]; exact Hc.
Qed.

Lemma rstrip_idempotent s : PyStr.rstrip (PyStr.rstrip s) = PyStr.rstrip s.
Proof.
  induction s as [| c s IH]; [reflexivity |]. cbn [PyStr.rstrip].
  destruct (PyStr.rstrip s) as [| d r] eqn:E.
  - destruct (PyStr.isspace c) eqn:Hc; [reflexivity |].
    cbn [PyStr.rstrip]. rewrite Hc. reflexivity.
  - cbn [PyStr.rstrip]. cbn [PyStr.rstrip] in IH.
    destruct (PyStr.rstrip r) as [| d' r'] eqn:E'.
    + destruct (PyStr.isspace d); [discriminate IH |]. rewrite IH. reflexivity.
    + rewrite IH. reflexivity.
Qed.

Lemma strip_idempotent s : PyStr.strip (PyStr.strip s) = PyStr.strip s.
Proof.
  unfold PyStr.strip.
  rewrite (lstrip_fixed (PyStr.rstrip (PyStr.lstrip s))).
  - apply rstrip_idempotent.
  - apply rstrip_head, lstrip_head.
Qed.

Lemma string_app_assoc (s1 s2 s3 : string) :
  ((s1 ++ s2) ++ s3 = s1 ++ (s2 ++ s3))%string.
Proof.
  induction s1 as [| c s1 IH]; [reflexivity |]. cbn [String.append]. rewrite IH. reflexivity.
Qed.

(** ** A filter value cannot end its literal *)

Lemma read_literal_escaped v tail :
  QueryGUI.read_literal (QueryGUI.replace "'" "''" v ++ tail)%string
  = match QueryGUI.read_literal tail with
    | Some (t, rest) => Some ((v ++ t)%string, rest)
    | None => None
    end.
Proof.
  induction v as [| c v IH].
  - cbn [QueryGUI.replace String.append]. destruct (QueryGUI.read_literal tail) as [[t rest] |]; reflexivity.
  - cbn [QueryGUI.replace]. destruct (Ascii.eqb c "'") eqn:Hc.
    + apply Ascii.eqb_eq in Hc. subst c.
      cbn [String.append QueryGUI.read_literal Ascii.eqb Bool.eqb]. rewrite IH.
      destruct (QueryGUI.read_literal tail) as [[t rest] |]; reflexivity.
    + cbn [String.append QueryGUI.read_literal]. rewrite Hc, IH.
      destruct (QueryGUI.read_literal tail) as [[t rest] |]; reflexivity.
Qed.

Lemma read_literal_end rest :
  QueryGUI.no_quote_ahead rest = true ->
  QueryGUI.read_literal ("%'" ++ rest)%string = Some ("%", rest).
Proof.
  intros H. cbn [String.append QueryGUI.read_literal Ascii.eqb Bool.eqb].
  destruct rest as [| c rest]; [reflexivity |].
  cbn [QueryGUI.no_quote_ahead] in H. apply negb_true_iff in H. rewrite H. reflexivity.
Qed.

(** X28. The condition that [run_query] builds for a filter holds the
    value in one string literal, whatever the value: read as T-SQL reads a
    literal (two quotes stand for one, a single quote ends it), the text
    after the opening quote gives back the trimmed value between two "%"
    signs and ends exactly where the condition ends. A quote in the value
    never ends the literal. *)
Theorem filter_value_stays_in_literal col value rest :
  QueryGUI.no_quote_ahead rest = true ->
  exists literal,
    QueryGUI.like_condition col value = ("[" ++ col ++ "] LIKE '" ++ literal)%string /\
    QueryGUI.read_literal (literal ++ rest)%string
      = Some (("%" ++ PyStr.strip value ++ "%")%string, rest).
Proof.
  intros Hrest.
  exists ("%" ++ QueryGUI.replace "'" "''" (PyStr.strip value) ++ "%'")%string.
  split.
  - reflexivity.
  - rewrite !string_app_assoc.
    change (QueryGUI.replace "'" "''" (PyStr.strip value) ++ "%'" ++ rest)%string
      with (QueryGUI.replace "'" "''" (PyStr.strip value) ++ ("%'" ++ rest))%string.
    set (tail := (QueryGUI.replace "'" "''" (PyStr.strip value) ++ ("%'" ++ rest))%string).
    change (QueryGUI.read_literal (String "%" tail)
            = Some (String "%" (PyStr.strip value ++ "%"), rest))%string.
    cbn [QueryGUI.read_literal Ascii.eqb Bool.eqb]. subst tail.
    rewrite read_literal_escaped, (read_literal_end rest Hrest).
    reflexivity.
Qed.

(** ** Filters are trimmed *)

Lemma dict_set_trimmed d k v :
  QueryGUI.dict_set (QueryGUI.trimmed d) k (PyStr.strip v) = QueryGUI.trimmed (QueryGUI.dict_set d k v).
Proof.
  induction d as [| [k' v'] d IH]; [reflexivity |].
  cbn [QueryGUI.trimmed map fst snd QueryGUI.dict_set].
  destruct (k' =? k)%string; [reflexivity |].
  cbn [map fst snd]. f_equal. exact IH.
Qed.

Lemma filters_trimmed columns entries :
  QueryGUI.filters columns (map PyStr.strip entries)
  = QueryGUI.trimmed (QueryGUI.filters columns entries).
Proof.
  unfold QueryGUI.filters.
  change (@nil (string * string)) with (QueryGUI.trimmed []) at 1.
  generalize (@nil (string * string)) as d. revert entries.
  induction columns as [| c columns IH]; intros entries d; [reflexivity |].
  destruct entries as [| v entries]; [reflexivity |].
  cbn [map combine fold_left fst snd].
  rewrite dict_set_trimmed. apply IH.
Qed.

Lemma strip_nonempty v : (PyStr.strip v =? "")%string = false -> (v =? "")%string = false.
Proof.
  destruct v; [intros H; discriminate H | reflexivity].
Qed.

Lemma conditions_trimmed columns d :
  QueryGUI.conditions columns (QueryGUI.trimmed d) = QueryGUI.conditions columns d.
Proof.
  unfold QueryGUI.conditions, QueryGUI.trimmed.
  induction d as [| [k v] d IH]; [reflexivity |].
  cbn [map flat_map fst snd]. rewrite IH. f_equal.
  unfold QueryGUI.like_condition. rewrite !strip_idempotent.
  destruct (PyStr.strip v =? "")%string eqn:E.
  - cbn [negb andb]. rewrite andb_false_r. reflexivity.
  - rewrite (strip_nonempty v E). reflexivity.
Qed.

Lemma filters_values columns entries d :
  forall k v,
    In (k, v) (fold_left (fun d ce => QueryGUI.dict_set d (fst ce) (snd ce))
                 (combine columns entries) d) ->
    In (k, v) d \/ In v entries.
Proof.
  revert entries d.
  induction columns as [| c columns IH]; intros entries d k v Hin; [left; exact Hin |].
  destruct entries as [| x entries]; [left; exact Hin |].
  cbn [combine fold_left fst snd] in Hin.
  destruct (IH entries _ k v Hin) as [H | H]; [| right; right; exact H].
  assert (Hset : forall d0, In (k, v) (QueryGUI.dict_set d0 c x) -> In (k, v) d0 \/ v = x).
  { induction d0 as [| [k' v'] d0 IHd]; cbn [QueryGUI.dict_set].
    - intros [[= <- <-] | []]. right. reflexivity.
    - destruct (k' =? c)%string.
      + intros [[= <- <-] | Hd]; [right; reflexivity | left; right; exact Hd].
      + intros [Hd | Hd]; [left; left; exact Hd |].
        destruct (IHd Hd) as [Hd' | Hd']; [left; right; exact Hd' | right; exact Hd']. }
  destruct (Hset d H) as [Hd | ->]; [left; exact Hd | right; left; reflexivity].
Qed.

(** X29. [run_query] trims the filter values: the query built from the
    fields as typed is the query built from the trimmed fields, so blanks
    around a value never reach the query; and when every field is empty
    or blank the query has no WHERE clause: it is the query built with no
    filter field at all. *)
Theorem filters_are_trimmed columns entries selected_item :
  QueryGUI.build_query columns (map PyStr.strip entries) selected_item
    = QueryGUI.build_query columns entries selected_item /\
  ((forall v, In v entries -> PyStr.strip v = "") ->
   QueryGUI.build_query columns entries selected_item
     = QueryGUI.build_query columns [] selected_item).
Proof.
  split.
  - unfold QueryGUI.build_query. cbv zeta.
    rewrite filters_trimmed, conditions_trimmed. reflexivity.
  - intros Hblank. unfold QueryGUI.build_query. cbv zeta.
    assert (Hnone : QueryGUI.conditions columns (QueryGUI.filters columns entries) = []).
    { unfold QueryGUI.conditions.
      assert (Hall : forall kv, In kv (QueryGUI.filters columns entries) ->
                                PyStr.strip (snd kv) = "").
      { intros [k v] Hin. apply Hblank.
        destruct (filters_values columns entries [] k v Hin) as [[] | H]. exact H. }
      induction (QueryGUI.filters columns entries) as [| kv d IH]; [reflexivity |].
      cbn [flat_map]. rewrite (Hall kv (or_introl eq_refl)).
      cbn [String.eqb negb andb]. rewrite andb_false_r. cbn [app].
      apply IH. intros kv' Hin. apply Hall. right. exact Hin. }
    rewrite Hnone.
    replace (QueryGUI.filters columns []) with (@nil (string * string))
      by (unfold QueryGUI.filters; destruct columns; reflexivity).
    reflexivity.
Qed.

(** ** Paging *)

Lemma load_page_ok a : QueryGUI.paging_ok a -> QueryGUI.paging_ok (QueryGUI.load_page a).
Proof.
  intros (Hp & Hs & Hw). unfold QueryGUI.paging_ok, QueryGUI.load_page.
  cbn [QueryGUI.current_page QueryGUI.page_size QueryGUI.workers].
  split; [exact Hp |]. split; [exact Hs |].
  intros query page size Hin. apply in_app_or in Hin.
  destruct Hin as [Hin | [[= <- <- <-] | []]]; [exact (Hw _ _ _ Hin) |].
  split; assumption.
Qed.

Lemma handle_ok a ev : QueryGUI.paging_ok a -> QueryGUI.paging_ok (QueryGUI.handle a ev).
Proof.
  intros Hok. pose proof Hok as (Hp & Hs & Hw).
  destruct ev as [columns entries item | | | rows error |]; cbn [QueryGUI.handle].
  - unfold QueryGUI.run_query. destruct (item =? "")%string; [exact Hok |].
    apply load_page_ok. split; [cbn; lia |]. split; assumption.
  - unfold QueryGUI.prev_page.
    destruct (1 <? QueryGUI.current_page a)%Z eqn:E; [| exact Hok].
    apply Z.ltb_lt in E. apply load_page_ok.
    split; [cbn [QueryGUI.current_page]; lia |]. split; assumption.
  - unfold QueryGUI.next_page.
    destruct (QueryGUI.has_more_data a); [| exact Hok].
    apply load_page_ok.
    split; [cbn [QueryGUI.current_page]; lia |]. split; assumption.
  - split; [exact Hp |]. split; assumption.
  - split; [exact Hp |]. split; assumption.
Qed.

(** X30. Whatever the clicks and worker signals, from the state
    [__init__] leaves: the current page never goes below 1, the page size
    stays 1000, and every worker started was given a page from 1 up and
    the page size 1000, so the offset of every paginated query sent is the
    non-negative multiple (page - 1) * 1000 of the page size. *)
Theorem paging_stays_in_range events :
  let a := fold_left QueryGUI.handle events QueryGUI.app_init in
  (1 <= QueryGUI.current_page a)%Z /\
  QueryGUI.page_size a = 1000%Z /\
  forall query page size,
    In (query, page, size) (QueryGUI.workers a) ->
    (1 <= page)%Z /\ size = 1000%Z /\
    QueryGUI.paginated_query query page size
      = (query ++ " ORDER BY (SELECT NULL) OFFSET "
           ++ QueryGUI.of_Z (1000 * (page - 1))
           ++ " ROWS FETCH NEXT 1000 ROWS ONLY")%string /\
    (0 <= 1000 * (page - 1))%Z.
Proof.
  cbv zeta.
  assert (Hok : QueryGUI.paging_ok (fold_left QueryGUI.handle events QueryGUI.app_init)).
  { assert (H0 : QueryGUI.paging_ok QueryGUI.app_init).
    { split; [cbn; lia |]. split; [reflexivity |]. intros ? ? ? []. }
    revert H0. generalize QueryGUI.app_init as a.
    induction events as [| ev events IH]; intros a Ha; [exact Ha |].
    cbn [fold_left]. apply IH, handle_ok, Ha. }
  destruct Hok as (Hp & Hs & Hw).
  split; [exact Hp |]. split; [exact Hs |].
  intros query page size Hin. destruct (Hw _ _ _ Hin) as [Hpage ->].
  split; [exact Hpage |]. split; [reflexivity |].
  split; [| lia].
  unfold QueryGUI.paginated_query. cbv zeta.
  replace ((page - 1) * 1000)%Z with (1000 * (page - 1))%Z by lia.
  reflexivity.
Qed.

(** A value that holds quotes and a comment mark stays inside its literal;
    the condition of the next filter follows. *)
Lemma filter_value_stays_in_literal_witness :
  let rest := (" AND [ciudad] LIKE '%a%'")%string in
  QueryGUI.no_quote_ahead rest = true /\
  QueryGUI.like_condition "nombre" " x' OR '1'='1' --"
    = ("[nombre] LIKE '%x'' OR ''1''=''1'' --%'")%string /\
  exists literal,
    QueryGUI.like_condition "nombre" " x' OR '1'='1' --"
      = ("[nombre] LIKE '" ++ literal)%string /\
    QueryGUI.read_literal (literal ++ rest)%string
      = Some (("%x' OR '1'='1' --%")%string, rest).
Proof.
  intros rest. split; [reflexivity |]. split; [reflexivity |].
  exact (filter_value_stays_in_literal "nombre" " x' OR '1'='1' --" rest eq_refl).
Defined.
